(** * A shallow embedding of the VirtualBox provisioning script (src/app.mjs)

    The repository holds two variants of one script: the base variant
    (folder [iso], [.iso] images, bridged adapter guessed from the first
    line of the interface listing) and the extended variant (folder
    [installerImages], [.iso] and [.img] images, network mode chosen by the
    operator).  Both are embedded here, in the modules [Base] and
    [Extended], over a common prelude.

    - A JavaScript string is a [string]; a character stands for a UTF-16
      code unit below 256.  The script looks at characters only to compare
      them with ASCII ones and to skip white space, so that a code unit
      above 255 behaves like any other one that is no digit, sign or
      letter, but for the Unicode spaces, which behave like U+00A0.
    - A JavaScript number is kept as the value it denotes ([number]).
      The text that a prompt validates is compared with zero on its
      decimal value, with the rounding to binary64 taken into account;
      the integers the script computes with ([parseInt] and the product
      by 1024) are rounded to binary64 and printed as [Number::toString]
      prints them.
    - Everything outside the script (file system, the hypervisor's
      executable, the clock, the operator at the prompts, [path.join]) is a
      [Host]; the script is a function from the host's world to a trace of
      events and an outcome. *)

From Stdlib Require Import String Ascii List ZArith NArith Bool Lia DecimalString.
Import ListNotations.

Local Open Scope list_scope.
Local Open Scope string_scope.

(** ** Characters and strings *)

(** The double quote character, as a one-character string. *)
Definition dq : string := String (ascii_of_nat 34) EmptyString.

Definition code (c : ascii) : N := N_of_ascii c.

(** [WhiteSpace] and [LineTerminator] of ECMAScript, among the code units
    below 256: TAB, LF, VT, FF, CR, SP and NBSP.  This is what [trim],
    [Number], [parseInt] and the regular expression class [\s] skip. *)
Definition is_ws (c : ascii) : bool :=
  let n := code c in
  ((9 <=? n) && (n <=? 13) || (n =? 32) || (n =? 160))%N.

(** [LineTerminator]: the characters the regular expression [.] refuses. *)
Definition is_line_terminator (c : ascii) : bool :=
  let n := code c in ((n =? 10) || (n =? 13))%N.

Definition is_digit (c : ascii) : bool :=
  let n := code c in ((48 <=? n) && (n <=? 57))%N.

Definition is_hex_digit (c : ascii) : bool :=
  let n := code c in
  ((48 <=? n) && (n <=? 57) || (65 <=? n) && (n <=? 70)
   || (97 <=? n) && (n <=? 102))%N.

Definition is_octal_digit (c : ascii) : bool :=
  let n := code c in ((48 <=? n) && (n <=? 55))%N.

Definition is_binary_digit (c : ascii) : bool :=
  let n := code c in ((n =? 48) || (n =? 49))%N.

Definition digit_value (c : ascii) : N :=
  let n := code c in
  (if (97 <=? n) then n - 87 else if (65 <=? n) then n - 55 else n - 48)%N.

Fixpoint take_while (p : ascii -> bool) (s : string) : string :=
  match s with
  | EmptyString => EmptyString
  | String c s' => if p c then String c (take_while p s') else EmptyString
  end.

Fixpoint drop_while (p : ascii -> bool) (s : string) : string :=
  match s with
  | EmptyString => EmptyString
  | String c s' => if p c then drop_while p s' else s
  end.

Fixpoint all_chars (p : ascii -> bool) (s : string) : bool :=
  match s with
  | EmptyString => true
  | String c s' => p c && all_chars p s'
  end.

Definition is_empty (s : string) : bool :=
  match s with EmptyString => true | _ => false end.

(** [s.trimEnd()] *)
Fixpoint trim_end (s : string) : string :=
  match s with
  | EmptyString => EmptyString
  | String c s' =>
      let r := trim_end s' in
      if is_ws c && is_empty r then EmptyString else String c r
  end.

(** [s.trim()] *)
Definition trim (s : string) : string := trim_end (drop_while is_ws s).

(** [s.startsWith(p)] *)
Definition startsWith (s p : string) : bool := String.prefix p s.

(** [s.endsWith(suffix)]: the last [length suffix] characters of [s] are
    [suffix]. *)
Definition endsWith (s suffix : string) : bool :=
  let n := String.length s in
  let m := String.length suffix in
  (m <=? n)%nat && String.eqb (substring (n - m) m s) suffix.

(** [s.includes(sub)]: [sub] occurs at some position of [s]. *)
Fixpoint includes (s sub : string) : bool :=
  String.prefix sub s ||
  match s with
  | EmptyString => false
  | String _ s' => includes s' sub
  end.

(** [s.split(sep)] for a one-character separator: never the empty list. *)
Fixpoint split (sep : ascii) (s : string) : list string :=
  match s with
  | EmptyString => [EmptyString]
  | String c s' =>
      if Ascii.eqb c sep then EmptyString :: split sep s'
      else match split sep s' with
           | [] => [String c EmptyString]
           | piece :: pieces => String c piece :: pieces
           end
  end.

Definition LF : ascii := ascii_of_nat 10.

(** [n.toString().padStart(2, "0")] *)
Definition decimal (n : N) : string := NilZero.string_of_uint (N.to_uint n).

Definition pad2 (n : N) : string :=
  let s := decimal n in
  if (String.length s <? 2)%nat then "0" ++ s else s.

(** ** Numbers *)

(** A Number of the script: NaN, an infinity, or the finite value
    [(-1)^negative * digits * 10^exp10].  [Dec true 0 0] is the negative
    zero. *)
Inductive number : Type :=
| NaN
| Infinity (negative : bool)
| Dec (negative : bool) (digits : N) (exp10 : Z).

Definition number_isNaN (x : number) : bool :=
  match x with NaN => true | _ => false end.

(** [x > 0] on the Number that the value rounds to.  A binary64 number is
    above zero exactly when the value it is rounded from is above
    2^-1075, half of the smallest denormal (the tie goes to zero, which
    has the even significand); the infinities compare as they should and
    NaN compares false. *)
Definition number_gt_zero (x : number) : bool :=
  match x with
  | NaN => false
  | Infinity negative => negb negative
  | Dec true _ _ => false
  | Dec false m e =>
      if (0 <=? e)%Z then (0 <? m)%N
      else (10 ^ Z.to_N (- e) <? m * 2 ^ 1075)%N
  end.

Definition number_is_zero (x : number) : bool :=
  match x with
  | Dec _ m e =>
      if (0 <=? e)%Z then (m =? 0)%N
      else (m * 2 ^ 1075 <=? 10 ^ Z.to_N (- e))%N
  | _ => false
  end.

(** ** Integers as binary64 numbers *)

(** The Number for a natural number [n]: [n] itself below 2^53; from
    there on the numbers are [m * 2^k] with a significand [m] of 53 bits,
    and [n] is rounded to the nearest of them, a tie going to the even
    significand.  [None] is the overflow: the result would reach 2^1024,
    and the Number is Infinity. *)
Definition round_nat (n : N) : option N :=
  if (n <? 2 ^ 53)%N then Some n
  else
    let unit := (2 ^ (N.log2 n - 52))%N in
    let q := (n / unit)%N in
    let r := (n mod unit)%N in
    let half := (unit / 2)%N in
    let m :=
      if (half <? r)%N || ((r =? half)%N && N.odd q) then (q + 1)%N else q in
    if (m * unit <? 2 ^ 1024)%N then Some (m * unit)%N else None.

(** The Number for the integer [(-1)^negative * n]. *)
Definition to_number (negative : bool) (n : N) : number :=
  match round_nat n with
  | Some v => Dec negative v 0
  | None => Infinity negative
  end.

(** [x * y]: the product of the values, rounded to a Number when it is
    an integer.  The script multiplies integers only; a product with a
    fraction is left as it is. *)
Definition number_mul (x y : number) : number :=
  match x, y with
  | NaN, _ | _, NaN => NaN
  | Infinity a, Infinity b => Infinity (xorb a b)
  | Infinity a, Dec b m e | Dec b m e, Infinity a =>
      if number_is_zero (Dec b m e) then NaN else Infinity (xorb a b)
  | Dec a m e, Dec b m' e' =>
      if (0 <=? e + e')%Z
      then to_number (xorb a b) (m * m' * 10 ^ Z.to_N (e + e'))
      else Dec (xorb a b) (m * m') (e + e')
  end.

(** The value of a run of digits in the given radix, most significant
    first. *)
Fixpoint digits_from (radix acc : N) (s : string) : N :=
  match s with
  | EmptyString => acc
  | String c s' => digits_from radix (acc * radix + digit_value c)%N s'
  end.

Definition digits_value (s : string) : N := digits_from 10 0 s.

(** The decimal [c] reads back as the Number [x]. *)
Definition reads_as (x c : N) : bool :=
  match round_nat c with
  | Some v => (v =? x)%N
  | None => false
  end.

(** The digits that [Number::toString] prints for the Number [x]: the
    multiple of the largest power of ten, from [10^j] down, that reads
    back as [x]; when the multiples on both sides of [x] do, the nearer
    one, and the one with the even last digit on a tie. *)
Fixpoint shortest_from (x : N) (j : nat) : N :=
  let unit := (10 ^ N.of_nat j)%N in
  let lo := (x / unit * unit)%N in
  let hi := (lo + unit)%N in
  match reads_as x lo, reads_as x hi with
  | true, true =>
      if (x - lo <? hi - x)%N then lo
      else if (hi - x <? x - lo)%N then hi
      else if N.even (lo / unit) then lo else hi
  | true, false => lo
  | false, true => hi
  | false, false =>
      match j with
      | O => x
      | S j' => shortest_from x j'
      end
  end.

Definition shortest (x : N) : N := shortest_from x (String.length (decimal x)).

(** A run of digits without the zeros at its end. *)
Fixpoint strip_zeros (s : string) : string :=
  match s with
  | EmptyString => EmptyString
  | String c s' =>
      let r := strip_zeros s' in
      if Ascii.eqb c "0" && is_empty r then EmptyString else String c r
  end.

(** An integer as [Number::toString] lays it out: in full below 10^21,
    and from there on as [d.ddde+n]. *)
Definition print_integer (v : N) : string :=
  if (v <? 10 ^ 21)%N then decimal v
  else
    let digits := decimal v in
    let exponent := decimal (N.of_nat (String.length digits - 1)) in
    match strip_zeros digits with
    | String d EmptyString => String d ("e+" ++ exponent)
    | String d rest => String d ("." ++ rest ++ "e+" ++ exponent)
    | EmptyString => digits
    end.

(** [Number::toString(x)] in radix 10.  An integer is printed with the
    fewest digits that read back as its Number: all its digits below
    2^53, a rounded decimal above, and the exponent form from 10^21.  The
    script prints integers only (results of [parseInt] and their products
    by 1024); a value with a fraction is written as its decimal
    expansion. *)
Definition number_toString (x : number) : string :=
  match x with
  | NaN => "NaN"
  | Infinity false => "Infinity"
  | Infinity true => "-Infinity"
  | Dec negative m e =>
      if number_is_zero (Dec negative m e) then "0"
      else
        let sign := if negative then "-" else EmptyString in
        if (0 <=? e)%Z then
          match round_nat (m * 10 ^ Z.to_N e) with
          | Some x => sign ++ print_integer (shortest x)
          | None => sign ++ "Infinity"
          end
        else
          let scale := (10 ^ Z.to_N (- e))%N in
          let whole := decimal (m / scale) in
          let frac := decimal (scale + m mod scale) in
          match frac with
          | String _ f =>
              if (m mod scale =? 0)%N then sign ++ whole
              else sign ++ whole ++ "." ++ f
          | EmptyString => sign ++ whole
          end
  end.

(** ** Values *)

(** The values that flow through the script's variables. *)
Inductive jsval : Type :=
| VUndefined
| VNull
| VStr (s : string)
| VNum (x : number).

(** [`${v}`] and [String(v)] *)
Definition ToString (v : jsval) : string :=
  match v with
  | VUndefined => "undefined"
  | VNull => "null"
  | VStr s => s
  | VNum x => number_toString x
  end.

(** [Boolean(v)], the test of [!v], [a || b] and [filter(Boolean)]. *)
Definition truthy (v : jsval) : bool :=
  match v with
  | VUndefined | VNull => false
  | VStr s => negb (is_empty s)
  | VNum x => negb (number_isNaN x) && negb (number_is_zero x)
  end.

(** [a || b] *)
Definition js_or (a b : jsval) : jsval := if truthy a then a else b.

(** ** [Number(s)] and [parseInt(s, 10)] *)

(** [ExponentPart], optional, up to the end of the literal: the exponent it
    denotes, [None] when the text is not an exponent part. *)
Definition exponent_part (s : string) : option Z :=
  match s with
  | EmptyString => Some 0%Z
  | String c r =>
      if Ascii.eqb c "e" || Ascii.eqb c "E" then
        let '(negative, ds) :=
          match r with
          | String "+" r' => (false, r')
          | String "-" r' => (true, r')
          | _ => (false, r)
          end in
        if negb (is_empty ds) && all_chars is_digit ds then
          Some (if negative then (- Z.of_N (digits_value ds))%Z
                else Z.of_N (digits_value ds))
        else None
      else None
  end.

(** [StrUnsignedDecimalLiteral]: [Infinity], or digits with an optional
    fraction and an optional exponent; at least one digit before or after
    the point. *)
Definition unsigned_decimal_literal (negative : bool) (s : string) : number :=
  if String.eqb s "Infinity" then Infinity negative
  else
    let ip := take_while is_digit s in
    let r1 := drop_while is_digit s in
    let '(fp, r2) :=
      match r1 with
      | String "." r => (take_while is_digit r, drop_while is_digit r)
      | _ => (EmptyString, r1)
      end in
    if is_empty ip && is_empty fp then NaN
    else
      match exponent_part r2 with
      | Some e =>
          Dec negative (digits_value (ip ++ fp))
              (e - Z.of_nat (String.length fp))
      | None => NaN
      end.

(** [StrDecimalLiteral]: an optional sign, then the unsigned literal. *)
Definition decimal_literal (s : string) : number :=
  match s with
  | String "+" r => unsigned_decimal_literal false r
  | String "-" r => unsigned_decimal_literal true r
  | _ => unsigned_decimal_literal false s
  end.

(** [NonDecimalIntegerLiteral]: [0x], [0o] or [0b] and digits of that
    radix, with no sign. *)
Definition non_decimal_literal (s : string) : option N :=
  match s with
  | String "0" (String c r) =>
      let body (ok : ascii -> bool) (radix : N) :=
        if negb (is_empty r) && all_chars ok r
        then Some (digits_from radix 0 r) else None in
      if Ascii.eqb c "x" || Ascii.eqb c "X" then body is_hex_digit 16%N
      else if Ascii.eqb c "o" || Ascii.eqb c "O" then body is_octal_digit 8%N
      else if Ascii.eqb c "b" || Ascii.eqb c "B" then body is_binary_digit 2%N
      else None
  | _ => None
  end.

(** [StringToNumber]: white space is trimmed, the empty text is zero, and
    the rest is one numeric literal or the result is NaN. *)
Definition StringToNumber (s : string) : number :=
  let t := trim s in
  if is_empty t then Dec false 0 0
  else
    match non_decimal_literal t with
    | Some n => Dec false n 0
    | None => decimal_literal t
    end.

(** [ToNumber(v)], the conversion behind [isNaN(v)] and [v > 0]. *)
Definition ToNumber (v : jsval) : number :=
  match v with
  | VUndefined => NaN
  | VNull => Dec false 0 0
  | VStr s => StringToNumber s
  | VNum x => x
  end.

(** [isNaN(v)] *)
Definition isNaN (v : jsval) : bool := number_isNaN (ToNumber v).

(** [v > 0] *)
Definition gt_zero (v : jsval) : bool := number_gt_zero (ToNumber v).

(** [parseInt(v, 10)]: leading white space and one sign are skipped, the
    longest run of decimal digits is read, and what follows is ignored;
    no digit gives NaN.  The result is the Number for the integer read,
    as the runtime of the script computes it (correctly rounded). *)
Definition parseInt (v : jsval) : number :=
  let s := drop_while is_ws (ToString v) in
  let '(negative, body) :=
    match s with
    | String "-" r => (true, r)
    | String "+" r => (false, r)
    | _ => (false, s)
    end in
  let z := take_while is_digit body in
  if is_empty z then NaN else to_number negative (digits_value z).

(** ** The disk-size prompt *)

Definition hddSizeGBDefault : number := Dec false 10 0.

(** What a [validate] callback returns: [true], or the message to show. *)
Inductive validation : Type :=
| Valid
| Invalid (message : string).

Definition is_valid (v : validation) : bool :=
  match v with Valid => true | Invalid _ => false end.

(** The [validate] callback of the disk-size prompt (both variants):
    [!isNaN(input) && input > 0 ? true : "Please enter ..."]. *)
Definition validate (input : jsval) : validation :=
  if negb (isNaN input) && gt_zero input then Valid
  else Invalid "Please enter a valid number greater than 0.".

(** The [hddSizeGB] field of the request: [parseInt(hddSizeGB, 10)]. *)
Definition hddSizeGB_of (answer : jsval) : number := parseInt answer.

(** [hddSizeGB * 1024] *)
Definition hddSizeMB_of (hddSizeGB : number) : number :=
  number_mul hddSizeGB (Dec false 1024 0).

(** ** The outside world *)

(** A thrown value, as far as the script looks at it:
    [error instanceof Error] and [error.name]. *)
Record error : Type := mkError {
  instance_of_Error : bool;
  error_name : string;
  error_message : string
}.

(** What the prompt library rejects with when the operator interrupts a
    prompt. *)
Definition ExitPromptError : error :=
  mkError true "ExitPromptError" "User force closed the prompt".

(** What [path.join] throws when an argument is not a string. *)
Definition TypeError : error :=
  mkError true "TypeError" "The path argument must be of type string".

(** The fields of [new Date()] that [getTimestamp] reads. *)
Record date : Type := mkDate {
  getFullYear : N;
  getMonth : N;
  getDate : N;
  getHours : N;
  getMinutes : N;
  getSeconds : N
}.

(** What the operator submits at a text prompt when pressing Enter: the
    line as it stands, and whether the default has been erased before
    (Backspace on the empty line). *)
Record entry : Type := mkEntry {
  entered : string;
  erased : bool
}.

(** The operator types [text] and leaves the default alone. *)
Definition plain (text : string) : entry := mkEntry text false.

(** The collaborators of the script.  Every call may change the world. *)
Record Host : Type := mkHost {
  world : Type;
  (** [process.cwd()] and [os.homedir()] *)
  cwd : string;
  homedir : string;
  (** [path.join] on strings *)
  path_join : list string -> string;
  (** [fs.existsSync] and [fs.readdirSync] *)
  existsSync : string -> world -> bool * world;
  readdirSync : string -> world -> (list string + error) * world;
  (** [child_process.execSync]: the standard output, or the error thrown *)
  execSync : string -> world -> (string + error) * world;
  (** [new Date()] *)
  clock : world -> date * world;
  (** the operator at a text prompt with the given message: what is
      submitted, one entry after the other, until one is accepted; when
      none is, the operator has interrupted the prompt *)
  typed : string -> world -> list entry * world;
  (** the operator at a list prompt with the given message and number of
      choices: the position chosen, or the prompt interrupted *)
  picked : string -> nat -> world -> option nat * world
}.

(** ** Commands and events *)

Definition virtualBoxPath : string := "C:\Program Files\Oracle\VirtualBox".

(** The command lines the script passes to [execSync], by the template
    they are built from; the fields are the interpolated variables. *)
Inductive command : Type :=
| ListSystemProperties
| ListVms (vboxManage : string)
| ListBridgedIfs (vboxManage : string)
| CreateVm (vboxManage : string) (virtualMachineName workingDirectory : jsval)
| ModifyVmHardware (vboxManage : string) (virtualMachineName : jsval)
| ModifyVmBridged (vboxManage : string)
    (virtualMachineName bridgedAdapter : jsval)
| ModifyVmNat (vboxManage : string) (virtualMachineName : jsval)
| ConvertFromRaw (vboxManage imgPath installerVdi : string)
| StorageCtl (vboxManage : string) (virtualMachineName : jsval)
| StorageAttach (vboxManage : string) (virtualMachineName : jsval)
    (port : N) (medium : string)
| CreateMedium (vboxManage runtimeVhd : string) (hddSizeMB : number)
| Start (vboxFile : string).

Definition quoted (s : string) : string := dq ++ s ++ dq.

(** The template literals of the source. *)
Definition render (c : command) : string :=
  match c with
  | ListSystemProperties =>
      quoted (virtualBoxPath ++ "\VBoxManage.exe") ++ " list systemproperties"
  | ListVms vboxManage => quoted vboxManage ++ " list vms"
  | ListBridgedIfs vboxManage => quoted vboxManage ++ " list bridgedifs"
  | CreateVm vboxManage virtualMachineName workingDirectory =>
      quoted vboxManage ++ " createvm --name " ++ ToString virtualMachineName
      ++ " --basefolder " ++ quoted (ToString workingDirectory)
      ++ " --ostype FreeBSD_64 --register"
  | ModifyVmHardware vboxManage virtualMachineName =>
      quoted vboxManage ++ " modifyvm " ++ quoted (ToString virtualMachineName)
      ++ " --memory 1024 --vram 128 --acpi on --hpet on --graphicscontroller vmsvga --firmware efi64"
  | ModifyVmBridged vboxManage virtualMachineName bridgedAdapter =>
      quoted vboxManage ++ " modifyvm " ++ quoted (ToString virtualMachineName)
      ++ " --nic1 bridged --bridgeadapter1 " ++ quoted (ToString bridgedAdapter)
  | ModifyVmNat vboxManage virtualMachineName =>
      quoted vboxManage ++ " modifyvm " ++ quoted (ToString virtualMachineName)
      ++ " --nic1 nat"
  | ConvertFromRaw vboxManage imgPath installerVdi =>
      quoted vboxManage ++ " convertfromraw --format VDI " ++ imgPath ++ " "
      ++ quoted installerVdi
  | StorageCtl vboxManage virtualMachineName =>
      quoted vboxManage ++ " storagectl " ++ quoted (ToString virtualMachineName)
      ++ " --name SATA --add sata --controller IntelAhci --hostiocache on --bootable on"
  | StorageAttach vboxManage virtualMachineName port medium =>
      quoted vboxManage ++ " storageattach "
      ++ quoted (ToString virtualMachineName)
      ++ " --storagectl " ++ quoted "SATA" ++ " --port " ++ decimal port
      ++ " --device 0 --type hdd --medium " ++ quoted medium
  | CreateMedium vboxManage runtimeVhd hddSizeMB =>
      quoted vboxManage ++ " createmedium --filename " ++ quoted runtimeVhd
      ++ " --size " ++ number_toString hddSizeMB ++ " --format VHD"
  | Start vboxFile => "start " ++ dq ++ dq ++ " " ++ quoted vboxFile
  end.

(** The three listings only read the hypervisor's state; every other
    command creates or changes something (or starts the machine). *)
Definition is_query (c : command) : bool :=
  match c with
  | ListSystemProperties | ListVms _ | ListBridgedIfs _ => true
  | _ => false
  end.

(** The four printing helpers: [logInfo], [logStep], [logSuccess] (standard
    output) and [logError] (standard error). *)
Inductive level : Type := Info | Step | Success | Failure.

(** What a run does that can be observed from outside. *)
Inductive event : Type :=
| Log (l : level) (msg : string)
| Exec (c : command) (r : string + error)
| Answer (message : string) (answer : jsval)
| Choice (message : string) (value : string)
| Interrupt (message : string).

(** The provisioning commands of a trace, in the order issued. *)
Fixpoint provisioning (t : list event) : list command :=
  match t with
  | [] => []
  | Exec c _ :: t' =>
      if is_query c then provisioning t' else c :: provisioning t'
  | _ :: t' => provisioning t'
  end.

(** ** The script monad *)

(** How a piece of the script ends: with a value, in [process.exit(code)],
    or with a thrown error. *)
Inductive outcome (A : Type) : Type :=
| Returned (a : A)
| Exited (exit_code : Z)
| Thrown (e : error).

Arguments Returned {A} a.
Arguments Exited {A} exit_code.
Arguments Thrown {A} e.

Section Script.

Context {H : Host}.

Definition M (A : Type) : Type := world H -> list event * outcome A * world H.

Definition ret {A} (a : A) : M A := fun w => ([], Returned a, w).

Definition bind {A B} (m : M A) (k : A -> M B) : M B :=
  fun w =>
    let '(t1, o, w1) := m w in
    match o with
    | Returned a => let '(t2, o2, w2) := k a w1 in ((t1 ++ t2)%list, o2, w2)
    | Exited c => (t1, Exited c, w1)
    | Thrown e => (t1, Thrown e, w1)
    end.

(** [process.exit(code)] *)
Definition exit {A} (code : Z) : M A := fun w => ([], Exited code, w).

Definition throw {A} (e : error) : M A := fun w => ([], Thrown e, w).

(** [try { m } catch (error) { handler }] *)
Definition try_catch {A} (m : M A) (handler : error -> M A) : M A :=
  fun w =>
    let '(t1, o, w1) := m w in
    match o with
    | Thrown e => let '(t2, o2, w2) := handler e w1 in ((t1 ++ t2)%list, o2, w2)
    | _ => (t1, o, w1)
    end.

Definition log (l : level) (msg : string) : M unit :=
  fun w => ([Log l msg], Returned tt, w).

Definition logInfo := log Info.
Definition logStep := log Step.
Definition logSuccess := log Success.
Definition logError := log Failure.

End Script.

Arguments M H A : clear implicits.

Declare Scope script_scope.
Delimit Scope script_scope with script.
Notation "x <- m ;; k" := (bind m (fun x => k))
  (at level 61, m at next level, right associativity) : script_scope.
Notation "m ;; k" := (bind m (fun _ => k))
  (at level 61, right associativity) : script_scope.

Local Open Scope script_scope.

(** ** What both variants share *)

Section Common.

Context {H : Host}.

(** [fs.existsSync(p)] *)
Definition fs_existsSync (p : string) : M H bool :=
  fun w => let '(b, w1) := existsSync H p w in ([], Returned b, w1).

(** [fs.readdirSync(p)] *)
Definition fs_readdirSync (p : string) : M H (list string) :=
  fun w =>
    let '(r, w1) := readdirSync H p w in
    match r with
    | inl files => ([], Returned files, w1)
    | inr e => ([], Thrown e, w1)
    end.

(** [execSync(command)] with [encoding: "utf8"]: the output as a string. *)
Definition exec (c : command) : M H string :=
  fun w =>
    let '(r, w1) := execSync H (render c) w in
    ([Exec c r],
     match r with inl out => Returned out | inr e => Thrown e end,
     w1).

(** [new Date()] *)
Definition new_Date : M H date :=
  fun w => let '(d, w1) := clock H w in ([], Returned d, w1).

(** The prompt library on Enter: the answer is [value || defaultValue],
    where the default, once the operator has erased it, is the empty text
    for the rest of the prompt; the first answer that [validate] accepts
    is the result. *)
Fixpoint submit (default : jsval) (validate : jsval -> validation)
    (entries : list entry) : option jsval :=
  match entries with
  | [] => None
  | e :: rest =>
      let default := if erased e then VStr EmptyString else default in
      let answer := js_or (VStr (entered e)) default in
      if is_valid (validate answer) then Some answer
      else submit default validate rest
  end.

(** [await input({ message, default, validate })] of the prompt library:
    a submitted line stands for itself, the empty line for the default;
    an interrupted prompt rejects with [ExitPromptError]. *)
Definition input (message : string) (default : jsval)
    (validate : jsval -> validation) : M H jsval :=
  fun w =>
    let '(entries, w1) := typed H message w in
    match submit default validate entries with
    | Some a => ([Answer message a], Returned a, w1)
    | None => ([Interrupt message], Thrown ExitPromptError, w1)
    end.

(** The default [validate] of the prompt library: [() => true]. *)
Definition no_validation (_ : jsval) : validation := Valid.

(** [await rawlist({ message, choices })]: the value of the choice at the
    position picked; a prompt left without a choice of the list was
    interrupted. *)
Definition rawlist (message : string) (choices : list (string * string))
    : M H string :=
  fun w =>
    let '(p, w1) := picked H message (length choices) w in
    match p with
    | Some i =>
        match nth_error choices i with
        | Some (_, value) => ([Choice message value], Returned value, w1)
        | None => ([Interrupt message], Thrown ExitPromptError, w1)
        end
    | None => ([Interrupt message], Thrown ExitPromptError, w1)
    end.

(** [path.join(...parts)]: throws when a part is not a string. *)
Fixpoint strings_of (parts : list jsval) : option (list string) :=
  match parts with
  | [] => Some []
  | VStr s :: rest =>
      match strings_of rest with
      | Some ss => Some (s :: ss)
      | None => None
      end
  | _ :: _ => None
  end.

Definition join (parts : list jsval) : M H string :=
  match strings_of parts with
  | Some ss => ret (path_join H ss)
  | None => throw TypeError
  end.

(** The regular expression of [getDefaultVMFolder] tried at the start of
    [s]: the label [Default machine folder:], then [\s+], as much white
    space as there is (at least one character), then the capture group
    (any characters, greedy), which runs to the end of the line. *)
Fixpoint strip_prefix (p s : string) : option string :=
  match p, s with
  | EmptyString, _ => Some s
  | String a p', String b s' =>
      if Ascii.eqb a b then strip_prefix p' s' else None
  | String _ _, EmptyString => None
  end.

Definition match_folder_here (s : string) : option string :=
  match strip_prefix "Default machine folder:" s with
  | Some (String c r) =>
      if is_ws c then
        Some (take_while (fun x => negb (is_line_terminator x))
                (drop_while is_ws (String c r)))
      else None
  | _ => None
  end.

(** [output.match(...)] with that expression: the capture of the leftmost
    match, [None] for [null]. *)
Fixpoint match_folder (output : string) : option string :=
  match match_folder_here output with
  | Some capture => Some capture
  | None =>
      match output with
      | EmptyString => None
      | String _ rest => match_folder rest
      end
  end.

(** [getDefaultVMFolder()] *)
Definition getDefaultVMFolder : M H jsval :=
  try_catch
    (output <- exec ListSystemProperties ;;
     ret (match match_folder output with
          | Some capture => VStr (trim capture)
          | None => VNull
          end))
    (fun _ =>
       logError "Could not detect default VirtualBox VM folder. Falling back." ;;
       ret (VStr (path_join H [homedir H; "VirtualBox VMs"]))).

(** [getTimestamp()] *)
Definition getTimestamp : M H string :=
  now <- new_Date ;;
  let year := decimal (getFullYear now) in
  let month := pad2 (getMonth now + 1)%N in
  let day := pad2 (getDate now) in
  let hour := pad2 (getHours now) in
  let minute := pad2 (getMinutes now) in
  let second := pad2 (getSeconds now) in
  ret (year ++ month ++ day ++ "_" ++ hour ++ minute ++ second).

(** [checkVBoxManage()] *)
Definition checkVBoxManage : M H string :=
  let vboxManage := path_join H [virtualBoxPath; "VBoxManage.exe"] in
  there <- fs_existsSync vboxManage ;;
  (if negb there then
     logError ("Failed: VBoxManage not found at: " ++ virtualBoxPath) ;;
     logError "Please install VirtualBox or provide the correct path." ;;
     exit 1
   else ret tt) ;;
  ret vboxManage.

(** How the process ends. *)
Inductive ending : Type :=
| Status (code : Z)
| Fatal (e : error).

(** The listener of [process.on("uncaughtException", ...)]. *)
Definition on_uncaughtException (e : error) : M H unit :=
  if instance_of_Error e && String.eqb (error_name e) "ExitPromptError"
  then logError "Exiting"
  else throw e.

(** The exit status of the process.  An error that the listener throws
    again is fatal: the runtime prints it with its stack and ends the
    process with status 7. *)
Definition exit_code (e : ending) : Z :=
  match e with
  | Status code => code
  | Fatal _ => 7
  end.

(** The last line of the script, [setupVM();], under the runtime's rules:
    the promise fulfilled, the process ends with status 0; a
    [process.exit(code)] ends it with that status; the promise rejected,
    the error goes to the listener above, and when the listener returns
    nothing is left to do and the process ends with the status nobody has
    set, 0. *)
Definition run_script {A} (setupVM : M H A) (w : world H)
    : list event * ending * world H :=
  let '(t, o, w1) := setupVM w in
  match o with
  | Returned _ => (t, Status 0, w1)
  | Exited c => (t, Status c, w1)
  | Thrown e =>
      let '(t2, o2, w2) := on_uncaughtException e w1 in
      ((t ++ t2)%list,
       match o2 with
       | Returned _ => Status 0
       | Exited c => Status c
       | Thrown e' => Fatal e'
       end,
       w2)
  end.

End Common.

(** ** The base variant *)

Module Base.

(** What [promptUser] returns. *)
Record request : Type := mkRequest {
  virtualMachineName : jsval;
  isoSelection : string;
  hddSizeGB : number;
  vmFolder : jsval
}.

Section Base.

Context {H : Host}.

Definition isoFolder : string := path_join H [cwd H; "iso"].

(** [getAvailableISOs()] *)
Definition getAvailableISOs : M H (list string) :=
  there <- fs_existsSync isoFolder ;;
  (if negb there then
     logError "'iso' folder not found. Please create a folder named 'iso' and place your ISOs there." ;;
     exit 1
   else ret tt) ;;
  files <- fs_readdirSync isoFolder ;;
  let isoFiles := filter (fun file => endsWith file ".iso") files in
  (if (length isoFiles =? 0)%nat then
     logError "No ISO files found in the 'iso' folder. Please add some ISOs." ;;
     exit 1
   else ret tt) ;;
  ret isoFiles.

(** [promptUser()] *)
Definition promptUser : M H request :=
  availableISOs <- getAvailableISOs ;;
  stamp <- getTimestamp ;;
  virtualMachineName <-
    input "Enter Virtual Machine Name:" (VStr ("TwinCAT_BSD_" ++ stamp))
      no_validation ;;
  isoSelection <-
    rawlist "Select an ISO from the available list:"
      (map (fun iso => (iso, iso)) availableISOs) ;;
  hddSizeGB <- input "Enter HDD size (GB):" (VNum hddSizeGBDefault) validate ;;
  folder <- getDefaultVMFolder ;;
  vmFolder <- input "Enter folder to store VM:" folder no_validation ;;
  ret (mkRequest virtualMachineName isoSelection (hddSizeGB_of hddSizeGB)
         vmFolder).

(** [bridgedAdapters.split("\n")[0].split(":")[1]?.trim()] *)
Definition firstAdapter_of (bridgedAdapters : string) : jsval :=
  match nth_error (split ":" (hd EmptyString (split LF bridgedAdapters))) 1 with
  | Some piece => VStr (trim piece)
  | None => VUndefined
  end.

(** [setupVM()] after its first statement, from the request that
    [promptUser] has returned. *)
Definition provision (r : request) : M H unit :=
  let virtualMachineName := virtualMachineName r in
  let isoSelection := isoSelection r in
  let hddSizeGB := hddSizeGB r in
  vboxManage <- checkVBoxManage ;;
  let isoPath := path_join H [isoFolder; isoSelection] in
  let workingDirectory := vmFolder r in
  there <- fs_existsSync isoPath ;;
  (if negb there then
     logError ("Failed: Missing TCBSD image: " ++ isoSelection) ;;
     exit 1
   else ret tt) ;;
  existingVMs <- exec (ListVms vboxManage) ;;
  (if includes existingVMs (quoted (ToString virtualMachineName)) then
     logInfo ("Virtual Machine '" ++ ToString virtualMachineName
              ++ "' already exists.") ;;
     logInfo "To recreate, manually delete it from VirtualBox first." ;;
     exit 1
   else ret tt) ;;
  logStep ("Creating VM: " ++ ToString virtualMachineName) ;;
  exec (CreateVm vboxManage virtualMachineName workingDirectory) ;;
  exec (ModifyVmHardware vboxManage virtualMachineName) ;;
  bridgedAdapters <- exec (ListBridgedIfs vboxManage) ;;
  let firstAdapter := firstAdapter_of bridgedAdapters in
  (if negb (truthy firstAdapter) then
     logInfo "No bridged adapters found. Network adapter will not be configured."
   else
     logInfo ("Setting bridged network adapter to: " ++ ToString firstAdapter) ;;
     exec (ModifyVmBridged vboxManage virtualMachineName firstAdapter) ;;
     ret tt) ;;
  logStep "Converting ISO to installer VDI..." ;;
  installerVdi <-
    join [workingDirectory; virtualMachineName; VStr "TcBSD_installer.vdi"] ;;
  exec (ConvertFromRaw vboxManage isoPath installerVdi) ;;
  runtimeVhd <- join [workingDirectory; virtualMachineName; VStr "TcBSD.vhd"] ;;
  exec (StorageCtl vboxManage virtualMachineName) ;;
  exec (StorageAttach vboxManage virtualMachineName 1 installerVdi) ;;
  logStep ("Creating runtime HDD: " ++ number_toString hddSizeGB ++ "GB") ;;
  let hddSizeMB := hddSizeMB_of hddSizeGB in
  exec (CreateMedium vboxManage runtimeVhd hddSizeMB) ;;
  exec (StorageAttach vboxManage virtualMachineName 0 runtimeVhd) ;;
  vmDir <- join [workingDirectory; virtualMachineName] ;;
  vboxFile <- join [VStr vmDir; VStr (ToString virtualMachineName ++ ".vbox")] ;;
  logStep "Starting Virtual Machine..." ;;
  exec (Start vboxFile) ;;
  logSuccess ("Virtual Machine '" ++ ToString virtualMachineName
              ++ "' setup complete.").

(** [setupVM()] *)
Definition setupVM : M H unit :=
  r <- promptUser ;;
  provision r.

(** The whole script. *)
Definition main (w : world H) : list event * ending * world H :=
  run_script setupVM w.

End Base.

End Base.

(** ** The extended variant *)

Module Extended.

(** What [promptUser] returns. *)
Record request : Type := mkRequest {
  virtualMachineName : jsval;
  imgSelection : string;
  hddSizeGB : number;
  vmFolder : jsval;
  networkType : string;
  bridgedAdapter : jsval
}.

Section Extended.

Context {H : Host}.

Definition installerImagesFolder : string :=
  path_join H [cwd H; "installerImages"].

(** [lines.map((line) => line.split(":")[1].trim())]: [None] when some line
    has no second piece, where the source throws a [TypeError] (inside the
    [try] of [listBridgedAdapters]). *)
Fixpoint adapter_names (lines : list string) : option (list string) :=
  match lines with
  | [] => Some []
  | line :: rest =>
      match nth_error (split ":" line) 1, adapter_names rest with
      | Some piece, Some names => Some (trim piece :: names)
      | _, _ => None
      end
  end.

(** The lines of the listing that introduce an adapter:
    [output.split("\n").map((line) => line.trim())
       .filter((line) => line.startsWith("Name:"))]. *)
Definition name_lines (output : string) : list string :=
  filter (fun line => startsWith line "Name:") (map trim (split LF output)).

(** [listBridgedAdapters(vboxManage)]; the last step is [filter(Boolean)],
    which drops the empty names. *)
Definition listBridgedAdapters (vboxManage : string) : M H (list string) :=
  try_catch
    (output <- exec (ListBridgedIfs vboxManage) ;;
     match adapter_names (name_lines output) with
     | Some names => ret (filter (fun a => truthy (VStr a)) names)
     | None => throw TypeError
     end)
    (fun _ => ret []).

(** [getAvailableInstallerImages()] *)
Definition getAvailableInstallerImages : M H (list string) :=
  there <- fs_existsSync installerImagesFolder ;;
  (if negb there then
     logError "'installerImages' folder not found. Please create a folder named 'installerImages' and place your ISOs and IMG files there." ;;
     exit 1
   else ret tt) ;;
  files <- fs_readdirSync installerImagesFolder ;;
  let imgFiles :=
    filter (fun file => endsWith file ".iso" || endsWith file ".img") files in
  (if (length imgFiles =? 0)%nat then
     logError "No image files found in the 'installerImages' folder. Please add some ISOs or IMG files." ;;
     exit 1
   else ret tt) ;;
  ret imgFiles.

(** The network part of [promptUser()]: the mode and the adapter. *)
Definition promptNetwork : M H (string * jsval) :=
  networkType <-
    rawlist "Choose network mode:" [("NAT", "nat"); ("Bridged", "bridged")] ;;
  if String.eqb networkType "bridged" then
    vboxManage <- checkVBoxManage ;;
    adapters <- listBridgedAdapters vboxManage ;;
    if (length adapters =? 0)%nat then
      logInfo "No bridged adapters found. Using NAT." ;;
      ret ("nat", VNull)
    else
      bridgedAdapter <-
        rawlist "Select a bridged adapter:"
          (map (fun a => (a, a)) adapters) ;;
      ret (networkType, VStr bridgedAdapter)
  else ret (networkType, VNull).

(** [promptUser()] *)
Definition promptUser : M H request :=
  availableInstallerImages <- getAvailableInstallerImages ;;
  stamp <- getTimestamp ;;
  virtualMachineName <-
    input "Enter Virtual Machine Name:" (VStr ("TwinCAT_VM_" ++ stamp))
      no_validation ;;
  imgSelection <-
    rawlist "Select an image file (.iso or .img):"
      (map (fun img => (img, img)) availableInstallerImages) ;;
  hddSizeGB <- input "Enter HDD size (GB):" (VNum hddSizeGBDefault) validate ;;
  folder <- getDefaultVMFolder ;;
  vmFolder <- input "Enter folder to store VM:" folder no_validation ;;
  network <- promptNetwork ;;
  ret (mkRequest virtualMachineName imgSelection (hddSizeGB_of hddSizeGB)
         vmFolder (fst network) (snd network)).

(** [setupVM()] after its first statement, from the request that
    [promptUser] has returned. *)
Definition provision (r : request) : M H unit :=
  let virtualMachineName := virtualMachineName r in
  let imgSelection := imgSelection r in
  let hddSizeGB := hddSizeGB r in
  let networkType := networkType r in
  let bridgedAdapter := bridgedAdapter r in
  vboxManage <- checkVBoxManage ;;
  let imgPath := path_join H [installerImagesFolder; imgSelection] in
  let workingDirectory := vmFolder r in
  there <- fs_existsSync imgPath ;;
  (if negb there then
     logError ("Failed: Missing TC image: " ++ imgSelection) ;;
     exit 1
   else ret tt) ;;
  existingVMs <- exec (ListVms vboxManage) ;;
  (if includes existingVMs (quoted (ToString virtualMachineName)) then
     logInfo ("Virtual Machine '" ++ ToString virtualMachineName
              ++ "' already exists.") ;;
     logInfo "To recreate, manually delete it from VirtualBox first." ;;
     exit 1
   else ret tt) ;;
  logStep ("Creating VM: " ++ ToString virtualMachineName) ;;
  exec (CreateVm vboxManage virtualMachineName workingDirectory) ;;
  exec (ModifyVmHardware vboxManage virtualMachineName) ;;
  (if String.eqb networkType "bridged" then
     if negb (truthy bridgedAdapter) then
       logInfo "No bridged adapters found. Network adapter will not be configured."
     else
       logInfo ("Setting bridged network adapter to: "
                ++ ToString bridgedAdapter) ;;
       exec (ModifyVmBridged vboxManage virtualMachineName bridgedAdapter) ;;
       ret tt
   else
     logInfo "Setting network adapter to NAT" ;;
     exec (ModifyVmNat vboxManage virtualMachineName) ;;
     ret tt) ;;
  logStep "Converting image to installer VDI..." ;;
  installerVdi <-
    join [workingDirectory; virtualMachineName; VStr "TcBSD_installer.vdi"] ;;
  exec (ConvertFromRaw vboxManage imgPath installerVdi) ;;
  runtimeVhd <- join [workingDirectory; virtualMachineName; VStr "TcBSD.vhd"] ;;
  exec (StorageCtl vboxManage virtualMachineName) ;;
  exec (StorageAttach vboxManage virtualMachineName 1 installerVdi) ;;
  logStep ("Creating runtime HDD: " ++ number_toString hddSizeGB ++ "GB") ;;
  let hddSizeMB := hddSizeMB_of hddSizeGB in
  exec (CreateMedium vboxManage runtimeVhd hddSizeMB) ;;
  exec (StorageAttach vboxManage virtualMachineName 0 runtimeVhd) ;;
  vmDir <- join [workingDirectory; virtualMachineName] ;;
  vboxFile <- join [VStr vmDir; VStr (ToString virtualMachineName ++ ".vbox")] ;;
  logStep "Starting Virtual Machine..." ;;
  exec (Start vboxFile) ;;
  logSuccess ("Virtual Machine '" ++ ToString virtualMachineName
              ++ "' setup complete.").

(** [setupVM()] *)
Definition setupVM : M H unit :=
  r <- promptUser ;;
  provision r.

(** The whole script. *)
Definition main (w : world H) : list event * ending * world H :=
  run_script setupVM w.

End Extended.

End Extended.

(** ** Concrete hosts

    A scripted host, for running the script on concrete inputs: one
    image folder, one operator, one answer per listing.  Its world is the
    list of command lines executed so far. *)

Module Scenario.

Record script : Type := mkScript {
  folder_exists : bool;
  folder_listing : list string;
  tool_installed : bool;
  image_present : bool;
  name_lines : list string;
  image_pick : option nat;
  size_lines : list string;
  folder_lines : list string;
  network_pick : option nat;
  adapter_pick : option nat;
  systemproperties : string + error;
  vms : string + error;
  bridgedifs : string + error
}.

Definition backslash : string := "\".

Definition win_join (parts : list string) : string :=
  String.concat backslash parts.

Definition host (s : script) : Host :=
  {| world := list string;
     cwd := "C:\work";
     homedir := "C:\Users\operator";
     path_join := win_join;
     existsSync := fun p w =>
       (if String.eqb p "C:\work\iso" || String.eqb p "C:\work\installerImages"
        then folder_exists s
        else if endsWith p "VBoxManage.exe" then tool_installed s
        else image_present s, w);
     readdirSync := fun _ w => (inl (folder_listing s), w);
     execSync := fun line w =>
       (if endsWith line " list systemproperties" then systemproperties s
        else if endsWith line " list vms" then vms s
        else if endsWith line " list bridgedifs" then bridgedifs s
        else inl EmptyString, (w ++ [line])%list);
     clock := fun w => (mkDate 2025 6 24 13 42 5, w);
     typed := fun message w =>
       (map plain
          (if String.eqb message "Enter Virtual Machine Name:"
           then name_lines s
           else if String.eqb message "Enter HDD size (GB):" then size_lines s
           else folder_lines s), w);
     picked := fun message _ w =>
       (if String.eqb message "Choose network mode:" then network_pick s
        else if String.eqb message "Select a bridged adapter:"
             then adapter_pick s
        else image_pick s, w) |}.

(** The scripts of the examples differ in what the operator types for the
    name and the size, in the network mode picked, and in the three
    listings. *)
Definition scenario (name_lines size_lines : list string)
    (network_pick : option nat)
    (systemproperties vms bridgedifs : string + error) : script :=
  {| folder_exists := true;
     folder_listing := ["notes.txt"; "tcbsd.iso"];
     tool_installed := true;
     image_present := true;
     name_lines := name_lines;
     image_pick := Some 0%nat;
     size_lines := size_lines;
     folder_lines := [EmptyString];
     network_pick := network_pick;
     adapter_pick := None;
     systemproperties := systemproperties;
     vms := vms;
     bridgedifs := bridgedifs |}.

Definition properties_listing : string :=
  "API version: 7_0" ++ String LF
    ("Default machine folder:          C:\VMs" ++ String LF
       "Logging history count: 3").

(** The operator accepts every default, takes the first image and NAT;
    the folder holds [tcbsd.iso] and a text file; no machine is
    registered and no bridged interface is listed. *)
Definition defaults : script :=
  scenario [EmptyString] [EmptyString] (Some 0%nat)
    (inl properties_listing) (inl EmptyString) (inl EmptyString).

(** The operator asks for a machine called [demo], which is registered
    already. *)
Definition collision : script :=
  scenario ["demo"] [EmptyString] (Some 0%nat) (inl properties_listing)
    (inl (quoted "demo" ++ " {8a3f}")) (inl EmptyString).

(** The operator asks for half a gigabyte. *)
Definition half_gigabyte : script :=
  scenario [EmptyString] ["0.5"] (Some 0%nat) (inl properties_listing)
    (inl EmptyString) (inl EmptyString).

(** The operator rejects with three invalid sizes and then asks for 1. *)
Definition one_gigabyte : script :=
  scenario [EmptyString] ["0"; "-5"; "abc"; "1"] (Some 0%nat)
    (inl properties_listing) (inl EmptyString) (inl EmptyString).

(** The operator picks the bridged mode where no interface is listed. *)
Definition bridged_without_adapter : script :=
  scenario [EmptyString] [EmptyString] (Some 1%nat) (inl properties_listing)
    (inl EmptyString) (inl EmptyString).

(** The operator interrupts the first prompt. *)
Definition interrupted : script :=
  scenario [] [EmptyString] (Some 0%nat) (inl properties_listing)
    (inl EmptyString) (inl EmptyString).

(** The listing of system properties has no line for the machine
    folder. *)
Definition no_folder_line : script :=
  scenario [EmptyString] [EmptyString] (Some 0%nat)
    (inl "API version: 7_0") (inl EmptyString) (inl EmptyString).

(** Every listing fails. *)
Definition command_failed : error :=
  mkError true "Error" "Command failed".

Definition listings_fail : script :=
  scenario [EmptyString] [EmptyString] (Some 0%nat)
    (inr command_failed) (inr command_failed) (inr command_failed).

End Scenario.

(** ** Vocabulary of the statements *)

(** An event that changes nothing outside: everything but the execution of
    a command other than the listings of system properties and of bridged
    interfaces. *)
Definition probe_event (e : event) : bool :=
  match e with
  | Exec ListSystemProperties _ | Exec (ListBridgedIfs _) _ => true
  | Exec _ _ => false
  | _ => true
  end.

Definition only_probes (t : list event) : Prop :=
  forallb probe_event t = true.

(** [wp m Q w]: run from the world [w], the piece of script [m] ends in a
    trace, an outcome and a world that satisfy [Q]. *)
Definition wp {H : Host} {A : Type} (m : M H A)
    (Q : list event -> outcome A -> world H -> Prop) (w : world H) : Prop :=
  forall t o w', m w = (t, o, w') -> Q t o w'.

(** The adapters that [listBridgedAdapters] makes of the result of the
    interface listing. *)
Definition discovered (res : string + error) : list string :=
  match res with
  | inl output =>
      match Extended.adapter_names (Extended.name_lines output) with
      | Some names => filter (fun a => truthy (VStr a)) names
      | None => []
      end
  | inr _ => []
  end.

(** In the words of the specification: [s] parses as a number whose value
    is strictly greater than zero. *)
Definition parses_positive (s : string) : Prop :=
  exists x : number,
    StringToNumber s = x /\ x <> NaN /\ number_gt_zero x = true.

(** A strictly positive integer. *)
Definition positive_integer (x : number) : Prop :=
  exists n : N, (0 < n)%N /\ x = Dec false n 0.

Definition is_space (c : ascii) : bool := Ascii.eqb c " ".

(** The first word of a piece of command line: the text before its first
    space. *)
Definition first_word (s : string) : string :=
  take_while (fun c => negb (is_space c)) s.

Definition has_space (s : string) : bool :=
  negb (all_chars (fun c => negb (is_space c)) s).

(** A decimal numeral: one digit or more, and nothing else. *)
Definition numeral (s : string) : Prop :=
  is_empty s = false /\ all_chars is_digit s = true.

(** The digits that a text starts with, after its leading white space
    and an optional plus sign: its integer part. *)
Definition integer_digits (s : string) : string :=
  let t := drop_while is_ws s in
  take_while is_digit
    match t with
    | String "+" r => r
    | _ => t
    end.

(** The two commands that configure the network adapter. *)
Definition is_network_command (c : command) : bool :=
  match c with
  | ModifyVmBridged _ _ _ | ModifyVmNat _ _ => true
  | _ => false
  end.

(** The machine a command line names, for those that name one. *)
Definition machine_name (c : command) : option jsval :=
  match c with
  | CreateVm _ name _ | ModifyVmHardware _ name | ModifyVmBridged _ name _
  | ModifyVmNat _ name | StorageCtl _ name | StorageAttach _ name _ _ =>
      Some name
  | _ => None
  end.

(** Where [checkVBoxManage] finds the executable. *)
Definition vboxManage_path (H : Host) : string :=
  path_join H [virtualBoxPath; "VBoxManage.exe"].

(** The label that [getDefaultVMFolder] looks for. *)
Definition folder_label : string := "Default machine folder:".

(** ** The steps of provisioning *)

(** What a provisioning command does; the port tells the two attachments
    apart. *)
Inductive step : Type :=
| CreateStep | HardwareStep | NetworkStep | ConvertStep | ControllerStep
| AttachStep (port : N) | DiskStep | LaunchStep.

Definition step_of (c : command) : option step :=
  match c with
  | CreateVm _ _ _ => Some CreateStep
  | ModifyVmHardware _ _ => Some HardwareStep
  | ModifyVmBridged _ _ _ | ModifyVmNat _ _ => Some NetworkStep
  | ConvertFromRaw _ _ _ => Some ConvertStep
  | StorageCtl _ _ => Some ControllerStep
  | StorageAttach _ _ port _ => Some (AttachStep port)
  | CreateMedium _ _ _ => Some DiskStep
  | Start _ => Some LaunchStep
  | ListSystemProperties | ListVms _ | ListBridgedIfs _ => None
  end.

(** The steps that a trace has executed, in order. *)
Fixpoint steps (t : list event) : list step :=
  match t with
  | [] => []
  | Exec c _ :: t' =>
      match step_of c with
      | Some s => s :: steps t'
      | None => steps t'
      end
  | _ :: t' => steps t'
  end.

Definition full_sequence : list step :=
  [CreateStep; HardwareStep; NetworkStep; ConvertStep; ControllerStep;
   AttachStep 1; DiskStep; AttachStep 0; LaunchStep].

Definition sequence_without_network : list step :=
  [CreateStep; HardwareStep; ConvertStep; ControllerStep;
   AttachStep 1; DiskStep; AttachStep 0; LaunchStep].

(** A message printed by [logSuccess]. *)
Definition is_success (e : event) : bool :=
  match e with Log Success _ => true | _ => false end.

(** ** More vocabulary on texts and numbers *)

(** [s] is the numeral of [n] on two digits. *)
Definition two_digits (s : string) (n : N) : Prop :=
  String.length s = 2%nat /\ all_chars is_digit s = true /\ digits_value s = n.

Definition field_ok (width : nat) (n : N) (s : string) : bool :=
  (String.length s =? width)%nat && all_chars is_digit s
  && (digits_value s =? n)%N.

(** NaN, Infinity or a natural number. *)
Definition not_negative (x : number) : Prop :=
  x = NaN \/ x = Infinity false \/ exists n : N, x = Dec false n 0.

(** The last [log2 v - 52] bits of [v] are zero: [v] fits the 53 bits of
    a significand. *)
Definition aligned (v : N) : Prop := (v mod 2 ^ (N.log2 v - 52) = 0)%N.

(** The operator of this host never erases the default of a text
    prompt. *)
Definition never_erases (H : Host) : Prop :=
  forall (message : string) (w : world H) (e : entry),
    In e (fst (typed H message w)) -> erased e = false.

(** In [before ++ sub], an occurrence of [sub] starts inside [before]. *)
Fixpoint occurs_before (before sub : string) : bool :=
  match before with
  | EmptyString => false
  | String _ before' =>
      String.prefix sub (before ++ sub) || occurs_before before' sub
  end.

(** No character of [s] is [sep]. *)
Definition without (sep : ascii) (s : string) : bool :=
  all_chars (fun c => negb (Ascii.eqb c sep)) s.

(** ** More scripted hosts *)

Module Cases.

(** The operator accepts every default, on an installation where the
    folder of images, the executable or the chosen image may be missing. *)
Definition installation (folder tool image : bool) : Scenario.script :=
  {| Scenario.folder_exists := folder;
     Scenario.folder_listing := ["notes.txt"; "tcbsd.iso"];
     Scenario.tool_installed := tool;
     Scenario.image_present := image;
     Scenario.name_lines := [EmptyString];
     Scenario.image_pick := Some 0%nat;
     Scenario.size_lines := [EmptyString];
     Scenario.folder_lines := [EmptyString];
     Scenario.network_pick := Some 0%nat;
     Scenario.adapter_pick := None;
     Scenario.systemproperties := inl Scenario.properties_listing;
     Scenario.vms := inl EmptyString;
     Scenario.bridgedifs := inl EmptyString |}.

Definition interfaces_listing : string :=
  "Name:            Ethernet 2" ++ String LF
    ("GUID:            6d1f" ++ String LF
       ("Name:            Wi-Fi" ++ String LF "Status:          Up")).

(** The operator asks for a machine called [demo] with 20 gigabytes, picks
    the bridged mode and the second of the two interfaces listed. *)
Definition bridged : Scenario.script :=
  {| Scenario.folder_exists := true;
     Scenario.folder_listing := ["notes.txt"; "tcbsd.iso"];
     Scenario.tool_installed := true;
     Scenario.image_present := true;
     Scenario.name_lines := ["demo"];
     Scenario.image_pick := Some 0%nat;
     Scenario.size_lines := ["20"];
     Scenario.folder_lines := [EmptyString];
     Scenario.network_pick := Some 1%nat;
     Scenario.adapter_pick := Some 1%nat;
     Scenario.systemproperties := inl Scenario.properties_listing;
     Scenario.vms := inl EmptyString;
     Scenario.bridgedifs := inl interfaces_listing |}.

(** The host of the defaults, with an operator who erases the default
    name and submits the empty line. *)
Definition erasing : Host :=
  let base := Scenario.host Scenario.defaults in
  {| world := world base;
     cwd := cwd base;
     homedir := homedir base;
     path_join := path_join base;
     existsSync := existsSync base;
     readdirSync := readdirSync base;
     execSync := execSync base;
     clock := clock base;
     typed := fun message w =>
       if String.eqb message "Enter Virtual Machine Name:"
       then ([mkEntry EmptyString true], w)
       else typed base message w;
     picked := picked base |}.


(** The operator asks for 2^52 - 1 gigabytes. *)
Definition petabytes : Scenario.script :=
  Scenario.scenario [EmptyString] ["4503599627370495"] (Some 0%nat)
    (inl Scenario.properties_listing) (inl EmptyString) (inl EmptyString).

End Cases.

(** ** Facts on strings *)

Lemma length_append (a b : string) :
  String.length (a ++ b) = (String.length a + String.length b)%nat.
Proof. induction a as [|c a IH]; simpl; [reflexivity | now rewrite IH]. Qed.

Lemma append_empty_r (a : string) : a ++ EmptyString = a.
Proof. induction a as [|x a IH]; simpl; [reflexivity | now rewrite IH]. Qed.

Lemma substring_all (s : string) : substring 0 (String.length s) s = s.
Proof. induction s as [|c s IH]; simpl; [reflexivity | now rewrite IH]. Qed.

Lemma substring_skip (p s : string) (m : nat) :
  substring (String.length p) m (p ++ s) = substring 0 m s.
Proof. induction p as [|c p IH]; simpl; [reflexivity | exact IH]. Qed.

Lemma substring_split (s : string) (k : nat) :
  (k <= String.length s)%nat ->
  s = substring 0 k s ++ substring k (String.length s - k) s.
Proof.
  revert k. induction s as [|c s IH]; intros k Hk; simpl in Hk.
  - assert (k = 0)%nat by lia. subst. reflexivity.
  - destruct k as [|k].
    + simpl. now rewrite substring_all.
    + simpl. f_equal. apply IH. lia.
Qed.

(** [endsWith] is the suffix test. *)
Lemma endsWith_spec (s suffix : string) :
  endsWith s suffix = true <-> exists stem, s = stem ++ suffix.
Proof.
  unfold endsWith. split.
  - intros Hs. apply andb_prop in Hs. destruct Hs as [Hle Heq].
    apply Nat.leb_le in Hle. apply String.eqb_eq in Heq.
    exists (substring 0 (String.length s - String.length suffix) s).
    pose proof (substring_split s (String.length s - String.length suffix))
      as Hsplit.
    replace (String.length s - (String.length s - String.length suffix))%nat
      with (String.length suffix) in Hsplit by lia.
    rewrite Heq in Hsplit. apply Hsplit. lia.
  - intros [stem ->]. rewrite length_append.
    replace (String.length stem + String.length suffix
             - String.length suffix)%nat with (String.length stem) by lia.
    rewrite substring_skip, substring_all, String.eqb_refl.
    rewrite andb_true_r. apply Nat.leb_le. lia.
Qed.

Lemma first_word_no_space (s : string) :
  has_space (first_word s) = false.
Proof.
  unfold has_space, first_word.
  induction s as [|c s IH]; simpl; [reflexivity|].
  destruct (is_space c) eqn:Ec; simpl; [reflexivity|].
  rewrite Ec. simpl. exact IH.
Qed.

Lemma first_word_append (s rest : string) :
  has_space s = true -> first_word (s ++ rest) = first_word s.
Proof.
  unfold has_space, first_word.
  induction s as [|c s IH]; simpl; [discriminate|].
  destruct (is_space c); simpl; [reflexivity|].
  intros Hs. now rewrite IH.
Qed.

(** The first word of a text that begins with a name holding a space is
    not that name. *)
Lemma first_word_splits (s rest : string) :
  has_space s = true -> first_word (s ++ rest) <> s.
Proof.
  intros Hs Heq. rewrite (first_word_append _ _ Hs) in Heq.
  pose proof (first_word_no_space s) as Hn. rewrite Heq in Hn. congruence.
Qed.

(** ** Facts on numerals *)

Lemma digit_not_ws (c : ascii) : is_digit c = true -> is_ws c = false.
Proof.
  destruct c as [[] [] [] [] [] [] [] []]; intros Hd;
    try (vm_compute in Hd; discriminate Hd); reflexivity.
Qed.

Lemma take_while_all (p : ascii -> bool) (s rest : string) :
  all_chars p s = true ->
  match rest with EmptyString => True | String c _ => p c = false end ->
  take_while p (s ++ rest) = s /\ drop_while p (s ++ rest) = rest.
Proof.
  induction s as [|c s IH]; simpl; intros Hs Hr.
  - destruct rest as [|c r]; [auto|]. simpl. now rewrite Hr.
  - apply andb_prop in Hs. destruct Hs as [Hc Hs]. rewrite Hc.
    destruct (IH Hs Hr) as [-> ->]. auto.
Qed.



Lemma all_chars_append (p : ascii -> bool) (a b : string) :
  all_chars p (a ++ b) = all_chars p a && all_chars p b.
Proof.
  induction a as [|c a IH]; simpl; [reflexivity|].
  now rewrite IH, andb_assoc.
Qed.







(** ** Facts on the rounding of integers *)

Lemma round_nat_small (n : N) : (n < 2 ^ 53)%N -> round_nat n = Some n.
Proof. intros Hn. unfold round_nat. apply N.ltb_lt in Hn. now rewrite Hn. Qed.

Lemma round_nat_large (n v : N) :
  (2 ^ 53 <= n)%N -> round_nat n = Some v -> (2 ^ 53 <= v)%N.
Proof.
  intros Hn. unfold round_nat. cbv zeta.
  destruct (N.ltb_spec n (2 ^ 53)) as [Hlt|_]; [lia|].
  assert (Hlog : (53 <= N.log2 n)%N).
  { rewrite <- (N.log2_pow2 53) by lia. now apply N.log2_le_mono. }
  set (s := (N.log2 n - 52)%N).
  assert (Hs : N.log2 n = (52 + s)%N) by (unfold s; lia).
  assert (Hpow : (2 ^ 52 * 2 ^ s <= n)%N).
  { rewrite <- N.pow_add_r, <- Hs. apply N.log2_spec. lia. }
  assert (Hunit : (2 ^ s <> 0)%N) by (apply N.pow_nonzero; lia).
  assert (Hq : (2 ^ 52 <= n / 2 ^ s)%N).
  { apply N.div_le_lower_bound; [exact Hunit|]. now rewrite N.mul_comm. }
  assert (Hbig : (2 ^ 53 <= 2 ^ 52 * 2 ^ s)%N).
  { change (2 ^ 53)%N with (2 ^ 52 * 2 ^ 1)%N.
    apply N.mul_le_mono_l. apply N.pow_le_mono_r; [lia|]. unfold s. lia. }
  match goal with
  | |- context [if ?b then (n / 2 ^ s + 1)%N else _] =>
      set (m := if b then (n / 2 ^ s + 1)%N else (n / 2 ^ s)%N)
  end.
  assert (Hm : (n / 2 ^ s <= m)%N).
  { unfold m.
    match goal with |- context [if ?b then _ else _] => destruct b end; lia. }
  destruct (m * 2 ^ s <? 2 ^ 1024)%N; [|discriminate].
  intros E. inversion E; subst v.
  eapply N.le_trans; [exact Hbig|].
  apply N.mul_le_mono_r. lia.
Qed.


Lemma reads_as_small (x c : N) :
  (x < 2 ^ 53)%N -> reads_as x c = true -> c = x.
Proof.
  intros Hx. unfold reads_as. destruct (round_nat c) as [v|] eqn:Hr;
    [|discriminate].
  intros Hv. apply N.eqb_eq in Hv. subst v.
  destruct (N.lt_ge_cases c (2 ^ 53)) as [Hs|Hl].
  - rewrite (round_nat_small _ Hs) in Hr. now inversion Hr.
  - pose proof (round_nat_large _ _ Hl Hr). lia.
Qed.

Lemma shortest_from_small (x : N) (j : nat) :
  (x < 2 ^ 53)%N -> shortest_from x j = x.
Proof.
  intros Hx. induction j as [|j IH]; cbn [shortest_from]; cbv zeta.
  - destruct (reads_as x _) eqn:Hlo.
    + apply (reads_as_small _ _ Hx) in Hlo.
      destruct (reads_as x (_ + _)) eqn:Hhi; [|exact Hlo].
      apply (reads_as_small _ _ Hx) in Hhi. lia.
    + destruct (reads_as x (_ + _)) eqn:Hhi; [|reflexivity].
      exact (reads_as_small _ _ Hx Hhi).
  - destruct (reads_as x _) eqn:Hlo.
    + apply (reads_as_small _ _ Hx) in Hlo.
      destruct (reads_as x (_ + _)) eqn:Hhi; [|exact Hlo].
      apply (reads_as_small _ _ Hx) in Hhi.
      assert (0 < 10 ^ N.of_nat (S j))%N
        by (apply N.neq_0_lt_0, N.pow_nonzero; lia).
      lia.
    + destruct (reads_as x (_ + _)) eqn:Hhi; [|exact IH].
      exact (reads_as_small _ _ Hx Hhi).
Qed.

Lemma print_integer_small (v : N) :
  (v < 2 ^ 53)%N -> print_integer v = decimal v.
Proof.
  intros Hv. unfold print_integer.
  destruct (N.ltb_spec v (10 ^ 21)) as [_|Hge]; [reflexivity|].
  exfalso. assert (2 ^ 53 < 10 ^ 21)%N by reflexivity. lia.
Qed.

Lemma aligned_round_nat (v : N) :
  (v < 2 ^ 1024)%N -> aligned v -> round_nat v = Some v.
Proof.
  intros Hmax Hal. unfold round_nat. cbv zeta.
  destruct (N.ltb_spec v (2 ^ 53)) as [_|Hge]; [reflexivity|].
  assert (Hlog : (53 <= N.log2 v)%N).
  { rewrite <- (N.log2_pow2 53) by lia. now apply N.log2_le_mono. }
  unfold aligned in Hal. set (s := (N.log2 v - 52)%N) in *.
  rewrite Hal.
  assert (Hunit : (2 <= 2 ^ s)%N).
  { change 2%N with (2 ^ 1)%N at 1. apply N.pow_le_mono_r; [lia|].
    unfold s. lia. }
  assert (Hhalf : (1 <= 2 ^ s / 2)%N).
  { apply N.div_le_lower_bound; lia. }
  destruct (N.ltb_spec (2 ^ s / 2) 0) as [Hlt|_]; [lia|].
  destruct (N.eqb_spec 0 (2 ^ s / 2)) as [He|_]; [lia|].
  cbn [orb andb].
  assert (Hv : (v / 2 ^ s * 2 ^ s = v)%N).
  { rewrite N.mul_comm. symmetry. now apply N.Div0.div_exact. }
  rewrite Hv. apply N.ltb_lt in Hmax. now rewrite Hmax.
Qed.

Lemma round_nat_aligned (n v : N) :
  round_nat n = Some v -> aligned v /\ (v < 2 ^ 1024)%N.
Proof.
  unfold round_nat. cbv zeta.
  destruct (N.ltb_spec n (2 ^ 53)) as [Hlt|Hge].
  - intros E. inversion E; subst v. split.
    + unfold aligned.
      assert (Hs : (N.log2 n - 52 = 0)%N).
      { destruct (N.eq_dec n 0) as [->|Hn]; [reflexivity|].
        assert (N.log2 n < 53)%N by (apply N.log2_lt_pow2; lia). lia. }
      rewrite Hs. apply N.mod_1_r.
    + eapply N.lt_trans; [exact Hlt|]. reflexivity.
  - assert (Hlog : (53 <= N.log2 n)%N).
    { rewrite <- (N.log2_pow2 53) by lia. now apply N.log2_le_mono. }
    set (s := (N.log2 n - 52)%N).
    assert (Hs : N.log2 n = (52 + s)%N) by (unfold s; lia).
    assert (Hs1 : (1 <= s)%N) by (unfold s; lia).
    assert (Hn : (0 < n)%N).
    { eapply N.lt_le_trans; [|exact Hge]. reflexivity. }
    destruct (N.log2_spec n Hn) as [Hlo Hhi].
    rewrite Hs in Hlo. rewrite Hs, <- N.add_succ_l, N.pow_add_r in Hhi.
    rewrite N.pow_add_r in Hlo.
    assert (Hunit : (2 ^ s <> 0)%N) by (apply N.pow_nonzero; lia).
    assert (Hq1 : (2 ^ 52 <= n / 2 ^ s)%N).
    { apply N.div_le_lower_bound; [exact Hunit|]. now rewrite N.mul_comm. }
    assert (Hq2 : (n / 2 ^ s < 2 ^ N.succ 52)%N).
    { apply N.Div0.div_lt_upper_bound. now rewrite N.mul_comm. }
    match goal with
    | |- context [if ?b then (n / 2 ^ s + 1)%N else _] =>
        set (m := if b then (n / 2 ^ s + 1)%N else (n / 2 ^ s)%N)
    end.
    assert (Hm : (2 ^ 52 <= m <= 2 ^ 53)%N).
    { change (2 ^ N.succ 52)%N with (2 ^ 53)%N in Hq2.
      unfold m.
      match goal with |- context [if ?b then _ else _] => destruct b end; lia. }
    destruct (N.ltb_spec (m * 2 ^ s) (2 ^ 1024)) as [Hmax|_]; [|discriminate].
    intros E. inversion E; subst v. split; [|exact Hmax].
    unfold aligned.
    destruct (N.eq_dec m (2 ^ 53)) as [Hm53|Hm53].
    + rewrite Hm53.
      assert (Hl : N.log2 (2 ^ 53 * 2 ^ s) = (53 + s)%N).
      { rewrite <- N.pow_add_r. apply N.log2_pow2. lia. }
      rewrite Hl. replace (53 + s - 52)%N with (1 + s)%N by lia.
      rewrite N.pow_add_r.
      change (2 ^ 53)%N with (2 ^ 52 * 2 ^ 1)%N.
      rewrite <- N.mul_assoc. apply N.Div0.mod_mul.
    + assert (Hl : N.log2 (m * 2 ^ s) = (52 + s)%N).
      { apply N.log2_unique; [lia|]. rewrite <- N.add_succ_l, !N.pow_add_r.
        change (2 ^ N.succ 52)%N with (2 ^ 53)%N. split.
        - apply N.mul_le_mono_r. lia.
        - apply N.mul_lt_mono_pos_r; lia. }
      rewrite Hl. replace (52 + s - 52)%N with s by lia.
      apply N.Div0.mod_mul.
Qed.

Lemma aligned_times_pow2 (v k : N) :
  (0 < v)%N -> aligned v -> aligned (v * 2 ^ k).
Proof.
  intros Hv Hal. unfold aligned in *.
  rewrite N.log2_mul_pow2 by lia.
  destruct (N.le_gt_cases 52 (N.log2 v)) as [Hge|Hlt].
  - replace (k + N.log2 v - 52)%N with ((N.log2 v - 52) + k)%N by lia.
    rewrite N.pow_add_r, N.Div0.mul_mod_distr_r, Hal. reflexivity.
  - assert (Hk : (k + N.log2 v - 52 <= k)%N) by lia.
    set (e := (k + N.log2 v - 52)%N) in *.
    replace k with ((k - e) + e)%N at 1 by lia.
    rewrite N.pow_add_r, N.mul_assoc. apply N.Div0.mod_mul.
Qed.

Lemma round_nat_fixed (n v : N) : round_nat n = Some v -> round_nat v = Some v.
Proof.
  intros Hr. destruct (round_nat_aligned _ _ Hr) as [Hal Hmax].
  now apply aligned_round_nat.
Qed.

Lemma round_nat_times_1024 (v : N) :
  round_nat v = Some v -> (v * 1024 < 2 ^ 1024)%N ->
  round_nat (v * 1024) = Some (v * 1024)%N.
Proof.
  intros Hr Hmax. destruct (N.eq_dec v 0) as [->|Hv]; [reflexivity|].
  destruct (round_nat_aligned _ _ Hr) as [Hal _].
  apply aligned_round_nat; [exact Hmax|].
  change 1024%N with (2 ^ 10)%N. apply aligned_times_pow2; [lia | exact Hal].
Qed.

Lemma to_number_representable (negative negative' : bool) (n v : N) (e : Z) :
  to_number negative n = Dec negative' v e -> round_nat v = Some v.
Proof.
  unfold to_number. destruct (round_nat n) as [x|] eqn:Hr; [|discriminate].
  intros E. inversion E; subst. exact (round_nat_fixed _ _ Hr).
Qed.

Lemma to_number_small (negative : bool) (n : N) :
  (n < 2 ^ 53)%N -> to_number negative n = Dec negative n 0.
Proof. intros Hn. unfold to_number. now rewrite (round_nat_small _ Hn). Qed.

(** Below 2^53 an integer is printed with all its digits. *)
Lemma number_toString_small (v : N) :
  (v < 2 ^ 53)%N -> number_toString (Dec false v 0) = decimal v.
Proof.
  intros Hv. unfold number_toString, number_is_zero.
  cbn [Z.leb Z.compare Z.to_N]. rewrite N.pow_0_r, N.mul_1_r.
  destruct (N.eqb_spec v 0) as [->|_]; [reflexivity|].
  rewrite (round_nat_small _ Hv). unfold shortest.
  rewrite (shortest_from_small _ _ Hv). cbn [append].
  now apply print_integer_small.
Qed.


(** ** Facts on [parseInt] *)

Lemma parseInt_sign_digit (c : ascii) (r : string) :
  is_digit c = true ->
  parseInt (VStr (String c r)) =
  to_number false (digits_value (take_while is_digit (String c r))).
Proof.
  intros Hd. unfold parseInt, ToString.
  cbn [drop_while]. rewrite (digit_not_ws _ Hd).
  replace (match String c r with
           | String "-" r0 => (true, r0)
           | String "+" r0 => (false, r0)
           | _ => (false, String c r)
           end) with (false, String c r).
  - cbn [take_while]. rewrite Hd. reflexivity.
  - destruct c as [[] [] [] [] [] [] [] []];
      try (vm_compute in Hd; discriminate Hd); reflexivity.
Qed.



Lemma parseInt_of_prefix (ip rest : string) :
  numeral ip ->
  match rest with EmptyString => True | String c _ => is_digit c = false end ->
  parseInt (VStr (ip ++ rest)) = to_number false (digits_value ip).
Proof.
  intros [Hne Hd] Hrest. destruct ip as [|c r]; [discriminate Hne|].
  pose proof Hd as Hd'. cbn [all_chars] in Hd'. apply andb_prop in Hd'.
  destruct Hd' as [Hc Hr].
  cbn [append]. rewrite (parseInt_sign_digit _ _ Hc).
  change (String c (r ++ rest)) with (String c r ++ rest).
  destruct (take_while_all is_digit (String c r) rest Hd Hrest) as [-> _].
  reflexivity.
Qed.

(** A finite result of [parseInt] is a Number. *)
Lemma parseInt_representable (a : jsval) (negative : bool) (v : N) (e : Z) :
  parseInt a = Dec negative v e -> round_nat v = Some v.
Proof.
  unfold parseInt. cbv zeta.
  match goal with
  | |- context [let '(x, y) := ?p in _] => destruct p as [sign body]
  end.
  destruct (is_empty _); [discriminate|].
  apply to_number_representable.
Qed.

(** The product by 1024 of a Number that is an integer is exact, short of
    the overflow. *)
Lemma hddSizeMB_of_exact (gb : N) :
  round_nat gb = Some gb -> (gb * 1024 < 2 ^ 1024)%N ->
  hddSizeMB_of (Dec false gb 0) = Dec false (gb * 1024) 0.
Proof.
  intros Hr Hmax. unfold hddSizeMB_of.
  cbn [number_mul xorb Z.add Z.leb Z.compare Z.to_N].
  rewrite N.pow_0_r, N.mul_1_r. unfold to_number.
  now rewrite (round_nat_times_1024 _ Hr Hmax).
Qed.


(** ** A calculus for the script monad *)

(** One rule per construct of the monad and per call to the host: the
    postcondition of a piece of script is reduced to what must hold of
    each answer of the host. *)

Section Wp.
Context {H : Host}.

Lemma wp_ret {A} (a : A) Q (w : world H) : Q [] (Returned a) w -> wp (ret a) Q w.
Proof. intros HQ t o w' E. inversion E; subst. exact HQ. Qed.

Lemma wp_exit {A} c (Q : list event -> outcome A -> world H -> Prop) w :
  Q [] (Exited c) w -> wp (exit c) Q w.
Proof. intros HQ t o w' E. inversion E; subst. exact HQ. Qed.

Lemma wp_throw {A} e (Q : list event -> outcome A -> world H -> Prop) w :
  Q [] (Thrown e) w -> wp (throw e) Q w.
Proof. intros HQ t o w' E. inversion E; subst. exact HQ. Qed.

Lemma wp_log l msg Q (w : world H) :
  Q [Log l msg] (Returned tt) w -> wp (log l msg) Q w.
Proof. intros HQ t o w' E. inversion E; subst. exact HQ. Qed.

Lemma wp_bind {A B} (m : M H A) (k : A -> M H B) Q w :
  wp m (fun t1 o w1 =>
          match o with
          | Returned a => wp (k a) (fun t2 o2 w2 => Q (t1 ++ t2)%list o2 w2) w1
          | Exited c => Q t1 (Exited c) w1
          | Thrown e => Q t1 (Thrown e) w1
          end) w ->
  wp (bind m k) Q w.
Proof.
  intros Hm t o w' E. unfold bind in E.
  destruct (m w) as [[t1 o1] w1] eqn:Em.
  specialize (Hm _ _ _ Em). cbv beta in Hm.
  destruct o1 as [a|c|e].
  - destruct (k a w1) as [[t2 o2] w2] eqn:Ek.
    inversion E; subst. exact (Hm _ _ _ Ek).
  - inversion E; subst. exact Hm.
  - inversion E; subst. exact Hm.
Qed.

Lemma wp_try_catch {A} (m : M H A) handler Q w :
  wp m (fun t1 o w1 =>
          match o with
          | Thrown e => wp (handler e) (fun t2 o2 w2 => Q (t1 ++ t2)%list o2 w2) w1
          | _ => Q t1 o w1
          end) w ->
  wp (try_catch m handler) Q w.
Proof.
  intros Hm t o w' E. unfold try_catch in E.
  destruct (m w) as [[t1 o1] w1] eqn:Em.
  specialize (Hm _ _ _ Em). cbv beta in Hm.
  destruct o1 as [a|c|e].
  - inversion E; subst. exact Hm.
  - inversion E; subst. exact Hm.
  - destruct (handler e w1) as [[t2 o2] w2] eqn:Ek.
    inversion E; subst. exact (Hm _ _ _ Ek).
Qed.

Lemma wp_existsSync p Q (w : world H) :
  (forall b w1, existsSync H p w = (b, w1) -> Q [] (Returned b) w1) ->
  wp (fs_existsSync p) Q w.
Proof.
  intros HQ t o w' E. unfold fs_existsSync in E.
  destruct (existsSync H p w) as [b w1] eqn:Eh. inversion E; subst.
  exact (HQ _ _ eq_refl).
Qed.

Lemma wp_readdirSync p Q (w : world H) :
  (forall r w1, readdirSync H p w = (r, w1) ->
     match r with
     | inl files => Q [] (Returned files) w1
     | inr e => Q [] (Thrown e) w1
     end) ->
  wp (fs_readdirSync p) Q w.
Proof.
  intros HQ t o w' E. unfold fs_readdirSync in E.
  destruct (readdirSync H p w) as [r w1] eqn:Eh.
  specialize (HQ _ _ eq_refl).
  destruct r; inversion E; subst; exact HQ.
Qed.

Lemma wp_exec c Q (w : world H) :
  (forall r w1, execSync H (render c) w = (r, w1) ->
     match r with
     | inl out => Q [Exec c (inl out)] (Returned out) w1
     | inr e => Q [Exec c (inr e)] (Thrown e) w1
     end) ->
  wp (exec c) Q w.
Proof.
  intros HQ t o w' E. unfold exec in E.
  destruct (execSync H (render c) w) as [r w1] eqn:Eh.
  specialize (HQ _ _ eq_refl).
  destruct r; inversion E; subst; exact HQ.
Qed.

Lemma wp_new_Date Q (w : world H) :
  (forall d w1, clock H w = (d, w1) -> Q [] (Returned d) w1) ->
  wp new_Date Q w.
Proof.
  intros HQ t o w' E. unfold new_Date in E.
  destruct (clock H w) as [d w1] eqn:Eh. inversion E; subst.
  exact (HQ _ _ eq_refl).
Qed.

Lemma submit_valid default validate (entries : list entry) a :
  submit default validate entries = Some a -> is_valid (validate a) = true.
Proof.
  revert default. induction entries as [|e rest IH]; intros default;
    [discriminate|].
  cbn [submit].
  destruct (is_valid (validate (js_or (VStr (entered e)) _))) eqn:Hv.
  - intros E. inversion E; subst. exact Hv.
  - apply IH.
Qed.

Lemma wp_input message default validate Q (w : world H) :
  (forall w1,
     (forall a, is_valid (validate a) = true ->
        Q [Answer message a] (Returned a) w1) /\
     Q [Interrupt message] (Thrown ExitPromptError) w1) ->
  wp (input message default validate) Q w.
Proof.
  intros HQ t o w' E. unfold input in E.
  destruct (typed H message w) as [entries w1] eqn:Eh.
  destruct (HQ w1) as [Hok Hint].
  destruct (submit _ _ _) as [a|] eqn:Ef; inversion E; subst.
  - apply Hok. exact (submit_valid _ _ _ _ Ef).
  - exact Hint.
Qed.

Lemma wp_rawlist message choices Q (w : world H) :
  (forall w1,
     (forall name value, In (name, value) choices ->
        Q [Choice message value] (Returned value) w1) /\
     Q [Interrupt message] (Thrown ExitPromptError) w1) ->
  wp (rawlist message choices) Q w.
Proof.
  intros HQ t o w' E. unfold rawlist in E.
  destruct (picked H message (length choices) w) as [p w1] eqn:Eh.
  destruct (HQ w1) as [Hok Hint].
  destruct p as [i|]; [|inversion E; subst; exact Hint].
  destruct (nth_error choices i) as [[name value]|] eqn:En;
    inversion E; subst; [|exact Hint].
  apply (Hok name). eapply nth_error_In, En.
Qed.

Lemma wp_join parts Q (w : world H) :
  match strings_of parts with
  | Some ss => Q [] (Returned (path_join H ss)) w
  | None => Q [] (Thrown TypeError) w
  end ->
  wp (join parts) Q w.
Proof.
  intros HQ t o w' E. unfold join in E.
  destruct (strings_of parts); inversion E; subst; exact HQ.
Qed.

End Wp.

(** A closed condition is replaced by its value. *)
Ltac decide_bool b :=
  tryif (match b with context [?x] => is_var x end) then fail
  else
    let v := eval vm_compute in b in
    lazymatch v with
    | true => change b with true
    | false => change b with false
    end.

(** One step of symbolic execution: the rule of the construct at the head
    of the script, with a case analysis on the answer of the host or on
    the condition of a branch. *)
Ltac wp_step :=
  lazymatch goal with
  | |- wp (bind _ _) _ _ => apply wp_bind
  | |- wp (ret _) _ _ => apply wp_ret
  | |- wp (exit _) _ _ => apply wp_exit
  | |- wp (throw _) _ _ => apply wp_throw
  | |- wp (log _ _) _ _ => apply wp_log
  | |- wp (logInfo _) _ _ => apply wp_log
  | |- wp (logStep _) _ _ => apply wp_log
  | |- wp (logSuccess _) _ _ => apply wp_log
  | |- wp (logError _) _ _ => apply wp_log
  | |- wp (try_catch _ _) _ _ => apply wp_try_catch
  | |- wp (fs_existsSync _) _ _ =>
      let b := fresh "there" in
      let w := fresh "w" in
      let E := fresh "Eexists" in
      apply wp_existsSync; intros b w E; destruct b
  | |- wp (fs_readdirSync _) _ _ =>
      let r := fresh "files" in
      let w := fresh "w" in
      let E := fresh "Ereaddir" in
      apply wp_readdirSync; intros r w E; destruct r
  | |- wp (exec _) _ _ =>
      let r := fresh "out" in
      let w := fresh "w" in
      let E := fresh "Eexec" in
      apply wp_exec; intros r w E; destruct r
  | |- wp new_Date _ _ =>
      let d := fresh "now" in
      let w := fresh "w" in
      let E := fresh "Eclock" in
      apply wp_new_Date; intros d w E
  | |- wp (input _ _ _) _ _ =>
      let w := fresh "w" in
      let a := fresh "answer" in
      let E := fresh "Evalid" in
      apply wp_input; intros w; split; [intros a E|]
  | |- wp (rawlist _ _) _ _ =>
      let w := fresh "w" in let n := fresh "label" in
      let v := fresh "value" in let E := fresh "Echoice" in
      apply wp_rawlist; intros w; split;
      [intros n v E;
       try (cbn [In] in E; destruct E as [E|[E|[]]]; inversion E; subst;
            clear E)|]
  | |- wp (join ?parts) _ _ =>
      let E := fresh "Ejoin" in
      apply wp_join; destruct (strings_of parts) eqn:E
  | |- wp (if negb ?b then _ else _) _ _ =>
      first [ decide_bool b
            | match goal with Hb : b = _ |- _ => rewrite Hb end
            | let E := fresh "Eif" in destruct b eqn:E ]
  | |- wp (if ?b then _ else _) _ _ =>
      first [ decide_bool b
            | match goal with Hb : b = _ |- _ => rewrite Hb end
            | let E := fresh "Eif" in destruct b eqn:E ]
  | |- wp (match ?x with Some _ => _ | None => _ end) _ _ =>
      let E := fresh "Ematch" in destruct x eqn:E
  | |- wp getDefaultVMFolder _ _ => unfold getDefaultVMFolder
  | |- wp getTimestamp _ _ => unfold getTimestamp
  | |- wp checkVBoxManage _ _ => unfold checkVBoxManage
  | |- wp (Extended.listBridgedAdapters _) _ _ =>
      unfold Extended.listBridgedAdapters
  | |- wp Extended.promptNetwork _ _ => unfold Extended.promptNetwork
  | |- wp Extended.getAvailableInstallerImages _ _ =>
      unfold Extended.getAvailableInstallerImages
  | |- wp Base.getAvailableISOs _ _ => unfold Base.getAvailableISOs
  end; cbn [negb fst snd].

Ltac wp_run := cbn [negb fst snd]; repeat wp_step.

Lemma strings_of_three (a b : jsval) (c : string) (l : list string) :
  strings_of [a; b; VStr c] = Some l ->
  exists sa sb, a = VStr sa /\ b = VStr sb /\ l = [sa; sb; c].
Proof.
  destruct a as [| |sa|]; try discriminate.
  destruct b as [| |sb|]; try discriminate.
  cbn. intros E. inversion E. eauto.
Qed.

Lemma strings_of_two (a b : jsval) (l : list string) :
  strings_of [a; b] = Some l ->
  exists sa sb, a = VStr sa /\ b = VStr sb /\ l = [sa; sb].
Proof.
  destruct a as [| |sa|]; try discriminate.
  destruct b as [| |sb|]; try discriminate.
  cbn. intros E. inversion E. eauto.
Qed.

(** Membership in a trace that is written out: one case per event, the
    cases of another shape dismissed. *)
Ltac in_cases H :=
  cbn [In app] in H;
  repeat (destruct H as [H|H]; [try discriminate H|]);
  try contradiction H.

(** ** What the parts of a run do *)

Section Specs.
Context {H : Host}.

(** [promptUser] executes nothing but the two listings it reads its
    defaults from; the request it returns holds [parseInt] of the size
    that the prompt has accepted and, in the extended variant, either NAT
    and no adapter or the bridged mode and an adapter. *)
Lemma Extended_promptUser_spec (w : world H) :
  wp Extended.promptUser
    (fun t o _ =>
       only_probes t /\
       match o with
       | Returned r =>
           (exists a, In (Answer "Enter HDD size (GB):" a) t
                      /\ is_valid (validate a) = true
                      /\ Extended.hddSizeGB r = hddSizeGB_of a)
           /\ (Extended.networkType r = "nat"
                /\ Extended.bridgedAdapter r = VNull
               \/ Extended.networkType r = "bridged"
                  /\ truthy (Extended.bridgedAdapter r) = true)
           /\ (In (Choice "Choose network mode:" "bridged") t ->
               forall tool res,
                 In (Exec (ListBridgedIfs tool) res) t ->
                 discovered res = [] ->
                 Extended.networkType r = "nat"
                 /\ Extended.bridgedAdapter r = VNull
                 /\ In (Log Info "No bridged adapters found. Using NAT.") t)
       | _ => True
       end) w.
Proof.
  unfold Extended.promptUser.
  match goal with |- wp _ ?P _ => set (Q := P) end.
  wp_run.
  all: subst Q; cbv beta; cbn [app Extended.hddSizeGB Extended.networkType
                                 Extended.bridgedAdapter].
  all: split; [reflexivity|]; try exact I.
  all: split; [eexists; split; [cbn [In]; tauto | split; [eassumption | reflexivity]]|].
  all: split;
    [ first [ left; split; reflexivity
            | right; split; [reflexivity|];
              match goal with
              | E : In (_, ?v) (map _ (filter _ _)) |- truthy (VStr ?v) = true =>
                  apply in_map_iff in E; destruct E as [a [Ea Hin]];
                  inversion Ea; subst; apply filter_In in Hin; apply Hin
              end ] | ].
  all: intros Hbridged tool res Hexec Hnone.
  all: try (in_cases Hbridged; fail).
  all: try (repeat split; try reflexivity; cbn [In]; tauto).
  all: in_cases Hexec; inversion Hexec; subst.
  all: unfold discovered in Hnone;
    match goal with
    | Hm : Extended.adapter_names _ = Some ?l,
      E : (Datatypes.length (filter _ ?l) =? 0)%nat = false |- _ =>
        rewrite Hm in Hnone; rewrite Hnone in E; discriminate E
    end.
Qed.

Lemma Base_promptUser_spec (w : world H) :
  wp Base.promptUser
    (fun t o _ =>
       only_probes t /\
       match o with
       | Returned r =>
           exists a, In (Answer "Enter HDD size (GB):" a) t
                     /\ is_valid (validate a) = true
                     /\ Base.hddSizeGB r = hddSizeGB_of a
       | _ => True
       end) w.
Proof.
  unfold Base.promptUser.
  match goal with |- wp _ ?P _ => set (Q := P) end.
  wp_run.
  all: subst Q; cbv beta; cbn [app Base.hddSizeGB].
  all: split; [reflexivity|]; try exact I.
  all: eexists; split; [cbn [In]; tauto | split; [eassumption | reflexivity]].
Qed.


(** The provisioning commands of a trace, piece by piece. *)
Lemma provisioning_app (t1 t2 : list event) :
  provisioning (t1 ++ t2) = (provisioning t1 ++ provisioning t2)%list.
Proof.
  induction t1 as [|e t1 IH]; [reflexivity|].
  destruct e as [| c r | | |]; cbn [app provisioning]; try exact IH.
  destruct (is_query c); [exact IH|]. cbn [app]. now rewrite IH.
Qed.

Lemma only_probes_provisioning (t : list event) :
  only_probes t -> provisioning t = [].
Proof.
  unfold only_probes. induction t as [|e t IH]; [reflexivity|].
  cbn [forallb]. intros Hp. apply andb_prop in Hp. destruct Hp as [He Ht].
  destruct e as [| c r | | |]; cbn [provisioning]; try exact (IH Ht).
  destruct c; try discriminate He; exact (IH Ht).
Qed.

Lemma only_probes_In (t : list event) (e : event) :
  only_probes t -> In e t -> probe_event e = true.
Proof.
  unfold only_probes. rewrite forallb_forall. auto.
Qed.

(** The parts of a [path.join] that has not thrown are strings. *)
Ltac join_facts :=
  repeat match goal with
  | E : strings_of [_; _; VStr _] = Some _ |- _ =>
      apply strings_of_three in E; destruct E as [? [? [? [? ?]]]]; subst
  | E : strings_of [_; _] = Some _ |- _ =>
      apply strings_of_two in E; destruct E as [? [? [? [? ?]]]]; subst
  | E : VStr _ = VStr _ |- _ => inversion E; clear E; subst
  end.

(** The commands of a provisioning that has run to its end. *)
Lemma Extended_provision_completed (r : Extended.request) (w : world H) :
  (Extended.networkType r = "nat" /\ Extended.bridgedAdapter r = VNull
   \/ Extended.networkType r = "bridged"
      /\ truthy (Extended.bridgedAdapter r) = true) ->
  wp (Extended.provision r)
    (fun t o _ =>
       o = Returned tt ->
       exists wd name net,
         let tool := vboxManage_path H in
         let img :=
           path_join H [@Extended.installerImagesFolder H; Extended.imgSelection r] in
         let vdi := path_join H [wd; name; "TcBSD_installer.vdi"] in
         let vhd := path_join H [wd; name; "TcBSD.vhd"] in
         let vbox := path_join H [path_join H [wd; name]; name ++ ".vbox"] in
         provisioning t =
           [CreateVm tool (VStr name) (VStr wd);
            ModifyVmHardware tool (VStr name);
            net;
            ConvertFromRaw tool img vdi;
            StorageCtl tool (VStr name);
            StorageAttach tool (VStr name) 1 vdi;
            CreateMedium tool vhd (hddSizeMB_of (Extended.hddSizeGB r));
            StorageAttach tool (VStr name) 0 vhd;
            Start vbox]
         /\ Extended.vmFolder r = VStr wd
         /\ Extended.virtualMachineName r = VStr name
         /\ (net = ModifyVmNat tool (VStr name)
             \/ net = ModifyVmBridged tool (VStr name) (Extended.bridgedAdapter r)))
    w.
Proof.
  destruct r as [name img size folder nt ad].
  cbn [Extended.networkType Extended.bridgedAdapter Extended.vmFolder
       Extended.virtualMachineName Extended.hddSizeGB Extended.imgSelection].
  intros [[-> ->] | [-> Had]].
  all: unfold Extended.provision;
    cbn [Extended.networkType Extended.bridgedAdapter Extended.vmFolder
         Extended.virtualMachineName Extended.hddSizeGB Extended.imgSelection].
  all: match goal with |- wp _ ?P _ => set (Q := P) end.
  all: wp_run.
  all: subst Q; cbv beta zeta; intros Ho; try discriminate Ho.
  all: join_facts.
  all: do 3 eexists; split; [cbn [app provisioning is_query]; reflexivity|].
  all: repeat split; auto.
Qed.


Lemma Base_provision_completed (r : Base.request) (w : world H) :
  wp (Base.provision r)
    (fun t o _ =>
       o = Returned tt ->
       exists wd name net listing,
         let tool := vboxManage_path H in
         let img := path_join H [@Base.isoFolder H; Base.isoSelection r] in
         let vdi := path_join H [wd; name; "TcBSD_installer.vdi"] in
         let vhd := path_join H [wd; name; "TcBSD.vhd"] in
         let vbox := path_join H [path_join H [wd; name]; name ++ ".vbox"] in
         provisioning t =
           ([CreateVm tool (VStr name) (VStr wd);
             ModifyVmHardware tool (VStr name)]
            ++ net
            ++ [ConvertFromRaw tool img vdi;
                StorageCtl tool (VStr name);
                StorageAttach tool (VStr name) 1 vdi;
                CreateMedium tool vhd (hddSizeMB_of (Base.hddSizeGB r));
                StorageAttach tool (VStr name) 0 vhd;
                Start vbox])%list
         /\ Base.vmFolder r = VStr wd
         /\ Base.virtualMachineName r = VStr name
         /\ In (Exec (ListBridgedIfs tool) (inl listing)) t
         /\ (truthy (Base.firstAdapter_of listing) = false /\ net = []
             \/ truthy (Base.firstAdapter_of listing) = true
                /\ net = [ModifyVmBridged tool (VStr name)
                            (Base.firstAdapter_of listing)]))
    w.
Proof.
  destruct r as [name img size folder].
  unfold Base.provision;
    cbn [Base.vmFolder Base.virtualMachineName Base.hddSizeGB
         Base.isoSelection].
  match goal with |- wp _ ?P _ => set (Q := P) end.
  wp_run.
  all: subst Q; cbv beta zeta; intros Ho; try discriminate Ho.
  all: join_facts.
  all: do 2 eexists.
  all: first
    [ refine (ex_intro _ [] _); eexists; split;
      [cbn [app provisioning is_query]; reflexivity|]
    | refine (ex_intro _ [_] _); eexists; split;
      [cbn [app provisioning is_query]; reflexivity|] ].
  all: repeat split; try reflexivity.
  all: try (cbn [In app]; unfold vboxManage_path; tauto).
  all: auto.
Qed.

(** A provisioning that finds the name in the listing of machines stops
    there. *)
Lemma Extended_provision_collision (r : Extended.request) (w : world H) :
  wp (Extended.provision r)
    (fun t o _ =>
       forall tool listing,
         In (Exec (ListVms tool) (inl listing)) t ->
         includes listing (quoted (ToString (Extended.virtualMachineName r)))
         = true ->
         provisioning t = [] /\ o = Exited 1)
    w.
Proof.
  destruct r as [name img size folder nt ad].
  unfold Extended.provision;
    cbn [Extended.networkType Extended.bridgedAdapter Extended.vmFolder
         Extended.virtualMachineName Extended.hddSizeGB Extended.imgSelection].
  match goal with |- wp _ ?P _ => set (Q := P) end.
  wp_run.
  all: subst Q; cbv beta; intros tool listing Hin Hincl.
  all: in_cases Hin; inversion Hin; subst.
  all: first [ split; reflexivity | congruence ].
Qed.

Lemma Base_provision_collision (r : Base.request) (w : world H) :
  wp (Base.provision r)
    (fun t o _ =>
       forall tool listing,
         In (Exec (ListVms tool) (inl listing)) t ->
         includes listing (quoted (ToString (Base.virtualMachineName r)))
         = true ->
         provisioning t = [] /\ o = Exited 1)
    w.
Proof.
  destruct r as [name img size folder].
  unfold Base.provision;
    cbn [Base.vmFolder Base.virtualMachineName Base.hddSizeGB
         Base.isoSelection].
  match goal with |- wp _ ?P _ => set (Q := P) end.
  wp_run.
  all: subst Q; cbv beta; intros tool listing Hin Hincl.
  all: in_cases Hin; inversion Hin; subst.
  all: first [ split; reflexivity | congruence ].
Qed.

(** The size of the runtime disk is the request's, times 1024. *)
Lemma Extended_provision_size (r : Extended.request) (w : world H) :
  wp (Extended.provision r)
    (fun t _ _ =>
       forall tool vhd size res,
         In (Exec (CreateMedium tool vhd size) res) t ->
         size = hddSizeMB_of (Extended.hddSizeGB r))
    w.
Proof.
  destruct r as [name img size folder nt ad].
  unfold Extended.provision;
    cbn [Extended.networkType Extended.bridgedAdapter Extended.vmFolder
         Extended.virtualMachineName Extended.hddSizeGB Extended.imgSelection].
  match goal with |- wp _ ?P _ => set (Q := P) end.
  wp_run.
  all: subst Q; cbv beta; intros tool vhd mb res Hin.
  all: in_cases Hin; inversion Hin; subst; reflexivity.
Qed.

Lemma Base_provision_size (r : Base.request) (w : world H) :
  wp (Base.provision r)
    (fun t _ _ =>
       forall tool vhd size res,
         In (Exec (CreateMedium tool vhd size) res) t ->
         size = hddSizeMB_of (Base.hddSizeGB r))
    w.
Proof.
  destruct r as [name img size folder].
  unfold Base.provision;
    cbn [Base.vmFolder Base.virtualMachineName Base.hddSizeGB
         Base.isoSelection].
  match goal with |- wp _ ?P _ => set (Q := P) end.
  wp_run.
  all: subst Q; cbv beta; intros tool vhd mb res Hin.
  all: in_cases Hin; inversion Hin; subst; reflexivity.
Qed.

(** [setupVM] is [promptUser], then the provisioning of its request. *)
Lemma Extended_setupVM_split (w : world H) t1 r w1 t o w' :
  Extended.promptUser w = (t1, Returned r, w1) ->
  Extended.setupVM w = (t, o, w') ->
  exists t2, Extended.provision r w1 = (t2, o, w') /\ t = (t1 ++ t2)%list.
Proof.
  intros Hp. unfold Extended.setupVM, bind. rewrite Hp.
  destruct (Extended.provision r w1) as [[t2 o2] w2].
  intros E. inversion E. eauto.
Qed.

Lemma Base_setupVM_split (w : world H) t1 r w1 t o w' :
  Base.promptUser w = (t1, Returned r, w1) ->
  Base.setupVM w = (t, o, w') ->
  exists t2, Base.provision r w1 = (t2, o, w') /\ t = (t1 ++ t2)%list.
Proof.
  intros Hp. unfold Base.setupVM, bind. rewrite Hp.
  destruct (Base.provision r w1) as [[t2 o2] w2].
  intros E. inversion E. eauto.
Qed.

Lemma bind_returned {A B} (m : M H A) (k : A -> M H B) w t b w' :
  bind m k w = (t, Returned b, w') ->
  exists a t1 w1 t2,
    m w = (t1, Returned a, w1) /\ k a w1 = (t2, Returned b, w')
    /\ t = (t1 ++ t2)%list.
Proof.
  unfold bind. destruct (m w) as [[t1 o1] w1] eqn:Em.
  destruct o1 as [a|c|e]; try (intros E; discriminate E).
  destruct (k a w1) as [[t2 o2] w2] eqn:Ek. intros E. inversion E; subst.
  exists a, t1, w1, t2. repeat split. exact Ek.
Qed.

(** With the mode NAT, the network command is the NAT one. *)
Lemma Extended_provision_network (r : Extended.request) (w : world H) :
  Extended.networkType r = "nat" ->
  wp (Extended.provision r)
    (fun t _ _ =>
       forall c res,
         In (Exec c res) t -> is_network_command c = true ->
         c = ModifyVmNat (vboxManage_path H) (Extended.virtualMachineName r))
    w.
Proof.
  destruct r as [name img size folder nt ad].
  cbn [Extended.networkType]. intros ->.
  unfold Extended.provision;
    cbn [Extended.networkType Extended.bridgedAdapter Extended.vmFolder
         Extended.virtualMachineName Extended.hddSizeGB Extended.imgSelection].
  match goal with |- wp _ ?P _ => set (Q := P) end.
  wp_run.
  all: subst Q; cbv beta; intros c res Hin Hnet.
  all: in_cases Hin; inversion Hin; subst; try discriminate Hnet; reflexivity.
Qed.

(** An interrupted prompt ends [promptUser] with [ExitPromptError], and
    the provisioning prompts for nothing. *)
Lemma Extended_promptUser_interrupt (w : world H) :
  wp Extended.promptUser
    (fun t o _ =>
       forall message, In (Interrupt message) t -> o = Thrown ExitPromptError)
    w.
Proof.
  unfold Extended.promptUser.
  match goal with |- wp _ ?P _ => set (Q := P) end.
  wp_run.
  all: subst Q; cbv beta; intros message Hin.
  all: in_cases Hin; reflexivity.
Qed.

Lemma Base_promptUser_interrupt (w : world H) :
  wp Base.promptUser
    (fun t o _ =>
       forall message, In (Interrupt message) t -> o = Thrown ExitPromptError)
    w.
Proof.
  unfold Base.promptUser.
  match goal with |- wp _ ?P _ => set (Q := P) end.
  wp_run.
  all: subst Q; cbv beta; intros message Hin.
  all: in_cases Hin; reflexivity.
Qed.

Lemma Extended_provision_no_interrupt (r : Extended.request) (w : world H) :
  wp (Extended.provision r)
    (fun t _ _ => forall message, ~ In (Interrupt message) t) w.
Proof.
  unfold Extended.provision.
  match goal with |- wp _ ?P _ => set (Q := P) end.
  wp_run.
  all: subst Q; cbv beta; intros message Hin.
  all: in_cases Hin.
Qed.

Lemma Base_provision_no_interrupt (r : Base.request) (w : world H) :
  wp (Base.provision r)
    (fun t _ _ => forall message, ~ In (Interrupt message) t) w.
Proof.
  unfold Base.provision.
  match goal with |- wp _ ?P _ => set (Q := P) end.
  wp_run.
  all: subst Q; cbv beta; intros message Hin.
  all: in_cases Hin.
Qed.

(** The commands of a provisioning name the machine of the request. *)
Lemma Extended_provision_names (r : Extended.request) (w : world H) :
  wp (Extended.provision r)
    (fun t _ _ =>
       forall c res name,
         In (Exec c res) t -> machine_name c = Some name ->
         name = Extended.virtualMachineName r)
    w.
Proof.
  destruct r as [name img size folder nt ad].
  unfold Extended.provision;
    cbn [Extended.networkType Extended.bridgedAdapter Extended.vmFolder
         Extended.virtualMachineName Extended.hddSizeGB Extended.imgSelection].
  match goal with |- wp _ ?P _ => set (Q := P) end.
  wp_run.
  all: subst Q; cbv beta; intros c res vm Hin Hname.
  all: in_cases Hin; inversion Hin; subst; cbn in Hname;
    first [ discriminate Hname | inversion Hname; reflexivity ].
Qed.

Lemma Base_provision_names (r : Base.request) (w : world H) :
  wp (Base.provision r)
    (fun t _ _ =>
       forall c res name,
         In (Exec c res) t -> machine_name c = Some name ->
         name = Base.virtualMachineName r)
    w.
Proof.
  destruct r as [name img size folder].
  unfold Base.provision;
    cbn [Base.vmFolder Base.virtualMachineName Base.hddSizeGB
         Base.isoSelection].
  match goal with |- wp _ ?P _ => set (Q := P) end.
  wp_run.
  all: subst Q; cbv beta; intros c res vm Hin Hname.
  all: in_cases Hin; inversion Hin; subst; cbn in Hname;
    first [ discriminate Hname | inversion Hname; reflexivity ].
Qed.

Lemma bind_inversion {A B} (m : M H A) (k : A -> M H B) w t o w' :
  bind m k w = (t, o, w') ->
  (exists a t1 w1 t2,
      m w = (t1, Returned a, w1) /\ k a w1 = (t2, o, w')
      /\ t = (t1 ++ t2)%list)
  \/ (exists c, m w = (t, Exited c, w') /\ o = Exited c)
  \/ (exists e, m w = (t, Thrown e, w') /\ o = Thrown e).
Proof.
  unfold bind. destruct (m w) as [[t1 o1] w1] eqn:Em.
  destruct o1 as [a|c|e].
  - destruct (k a w1) as [[t2 o2] w2] eqn:Ek. intros E. inversion E; subst.
    left. exists a, t1, w1, t2. repeat split. exact Ek.
  - intros E. inversion E; subst. right. left. exists c. split; reflexivity.
  - intros E. inversion E; subst. right. right. exists e. split; reflexivity.
Qed.

End Specs.

(** ** The disk-size prompt *)

(** C4.  The validator of the disk-size prompt accepts a string exactly
    when [Number] makes of it a number (not NaN) that is strictly greater
    than zero; it rejects 0, -5 and abc and accepts 10, 1 and 250. *)
Theorem validate_accepts_positive_numbers :
  (forall s : string,
      is_valid (validate (VStr s)) = true <-> parses_positive s)
  /\ is_valid (validate (VStr "0")) = false
  /\ is_valid (validate (VStr "-5")) = false
  /\ is_valid (validate (VStr "abc")) = false
  /\ is_valid (validate (VStr "10")) = true
  /\ is_valid (validate (VStr "1")) = true
  /\ is_valid (validate (VStr "250")) = true.
Proof.
  split; [|repeat split; vm_compute; reflexivity].
  intros s. unfold validate, isNaN, gt_zero, parses_positive.
  cbn [ToNumber]. split.
  - intros Hv. exists (StringToNumber s).
    destruct (negb (number_isNaN (StringToNumber s))
              && number_gt_zero (StringToNumber s)) eqn:Hc;
      [|discriminate Hv].
    apply andb_prop in Hc. destruct Hc as [Hn Hg].
    split; [reflexivity|]. split; [|exact Hg].
    intros Heq. rewrite Heq in Hn. discriminate Hn.
  - intros [x [Hx [Hn Hg]]]. subst x. rewrite Hg.
    destruct (StringToNumber s); [congruence | reflexivity | reflexivity].
Qed.

Lemma validate_accepts_positive_numbers_witness :
  parses_positive "10" /\ is_valid (validate (VStr "10")) = true.
Proof.
  destruct validate_accepts_positive_numbers as [Hiff _].
  split; [apply (proj1 (Hiff "10")) | apply (proj2 (Hiff "10"))].
  - reflexivity.
  - exists (Dec false 10 0). repeat split; [discriminate].
Defined.



(** ** The sign and the integer part of an accepted size *)

Lemma trim_end_head (c : ascii) (s : string) :
  is_ws c = false -> trim_end (String c s) = String c (trim_end s).
Proof. intros Hc. cbn [trim_end]. now rewrite Hc. Qed.

Lemma unsigned_negative_not_positive (s : string) :
  number_gt_zero (unsigned_decimal_literal true s) = false.
Proof.
  unfold unsigned_decimal_literal.
  destruct (String.eqb s "Infinity"); [reflexivity|].
  destruct (drop_while is_digit s) as [|c r].
  - destruct (is_empty (take_while is_digit s) && is_empty EmptyString);
      [reflexivity|].
    destruct (exponent_part EmptyString); reflexivity.
  - match goal with
    | |- context [let '(fp, r2) := ?p in _] => destruct p as [fp r2]
    end.
    destruct (is_empty (take_while is_digit s) && is_empty fp); [reflexivity|].
    destruct (exponent_part r2); reflexivity.
Qed.

Lemma minus_not_accepted (s r : string) :
  drop_while is_ws s = String "-" r -> is_valid (validate (VStr s)) = false.
Proof.
  intros Hd. unfold validate, isNaN, gt_zero. cbn [ToNumber].
  unfold StringToNumber, trim. rewrite Hd.
  rewrite (trim_end_head "-" r eq_refl). cbn [is_empty].
  change (non_decimal_literal (String "-" (trim_end r))) with (@None N).
  cbv beta iota.
  change (decimal_literal (String "-" (trim_end r)))
    with (unsigned_decimal_literal true (trim_end r)).
  rewrite unsigned_negative_not_positive, andb_false_r. reflexivity.
Qed.

Lemma parseInt_unfold (s : string) :
  parseInt (VStr s) =
  let s' := drop_while is_ws s in
  let '(negative, body) :=
    match s' with
    | String "-" r => (true, r)
    | String "+" r => (false, r)
    | _ => (false, s')
    end in
  let z := take_while is_digit body in
  if is_empty z then NaN else to_number negative (digits_value z).
Proof. reflexivity. Qed.

Lemma parseInt_of_accepted (s : string) :
  is_valid (validate (VStr s)) = true ->
  parseInt (VStr s) =
  if is_empty (integer_digits s) then NaN
  else to_number false (digits_value (integer_digits s)).
Proof.
  intros Hv. rewrite parseInt_unfold. unfold integer_digits. cbv zeta.
  destruct (drop_while is_ws s) as [|c r] eqn:Hd; [reflexivity|].
  destruct (Ascii.eqb_spec c "-") as [->|Hc].
  - rewrite (minus_not_accepted _ _ Hd) in Hv. discriminate Hv.
  - destruct c as [[] [] [] [] [] [] [] []];
      try (exfalso; apply Hc; reflexivity); reflexivity.
Qed.





(** A slip of the code, which the amended claim leaves out: an accepted
    input whose integer part is zero.  Half a gigabyte passes the prompt,
    and the request holds 0, which is no strictly positive integer. *)
Lemma half_gigabyte_is_accepted :
  is_valid (validate (VStr "0.5")) = true
  /\ snd (fst (@Extended.promptUser (Scenario.host Scenario.half_gigabyte) []))
     = Returned (Extended.mkRequest (VStr "TwinCAT_VM_20250724_134205")
                   "tcbsd.iso" (Dec false 0 0) (VStr "C:\VMs") "nat" VNull)
  /\ hddSizeGB_of (VStr "0.5") = Dec false 0 0
  /\ ~ positive_integer (hddSizeGB_of (VStr "0.5")).
Proof.
  split; [reflexivity|]. split; [vm_compute; reflexivity|].
  split; [reflexivity|].
  intros [n [Hpos Hn]]. vm_compute in Hn. inversion Hn. subst. lia.
Qed.

(** ** The claims on whole runs *)

(** C1, amended.  A completed run ends the process with status 0.  In the
    extended variant it has issued, once each and in this order: create
    the machine, set its hardware, configure the network adapter (NAT, or
    bridged to the chosen adapter), convert the image, create the storage
    controller, attach the installer disk at port 1, create the runtime
    disk, attach it at port 0, launch the descriptor file.  In the base
    variant the sequence is the same, except that the network adapter's
    command is issued only when the first line of the interface listing
    names an adapter, and left out otherwise. *)
Theorem completed_run_commands (H : Host) (w : world H) (t : list event)
    (w' : world H) :
  (Extended.setupVM w = (t, Returned tt, w') ->
   Extended.main w = (t, Status 0, w')
   /\ exists t1 r w1 wd name net,
       let tool := vboxManage_path H in
       let img :=
         path_join H [@Extended.installerImagesFolder H;
                      Extended.imgSelection r] in
       let vdi := path_join H [wd; name; "TcBSD_installer.vdi"] in
       let vhd := path_join H [wd; name; "TcBSD.vhd"] in
       let vbox := path_join H [path_join H [wd; name]; name ++ ".vbox"] in
       Extended.promptUser w = (t1, Returned r, w1)
       /\ provisioning t =
            [CreateVm tool (VStr name) (VStr wd);
             ModifyVmHardware tool (VStr name);
             net;
             ConvertFromRaw tool img vdi;
             StorageCtl tool (VStr name);
             StorageAttach tool (VStr name) 1 vdi;
             CreateMedium tool vhd (hddSizeMB_of (Extended.hddSizeGB r));
             StorageAttach tool (VStr name) 0 vhd;
             Start vbox]
       /\ Extended.vmFolder r = VStr wd
       /\ Extended.virtualMachineName r = VStr name
       /\ (net = ModifyVmNat tool (VStr name)
           \/ net = ModifyVmBridged tool (VStr name)
                      (Extended.bridgedAdapter r)))
  /\ (Base.setupVM w = (t, Returned tt, w') ->
      Base.main w = (t, Status 0, w')
      /\ exists t1 r w1 wd name net listing,
          let tool := vboxManage_path H in
          let img := path_join H [@Base.isoFolder H; Base.isoSelection r] in
          let vdi := path_join H [wd; name; "TcBSD_installer.vdi"] in
          let vhd := path_join H [wd; name; "TcBSD.vhd"] in
          let vbox := path_join H [path_join H [wd; name]; name ++ ".vbox"] in
          Base.promptUser w = (t1, Returned r, w1)
          /\ provisioning t =
               ([CreateVm tool (VStr name) (VStr wd);
                 ModifyVmHardware tool (VStr name)]
                ++ net
                ++ [ConvertFromRaw tool img vdi;
                    StorageCtl tool (VStr name);
                    StorageAttach tool (VStr name) 1 vdi;
                    CreateMedium tool vhd (hddSizeMB_of (Base.hddSizeGB r));
                    StorageAttach tool (VStr name) 0 vhd;
                    Start vbox])%list
          /\ Base.vmFolder r = VStr wd
          /\ Base.virtualMachineName r = VStr name
          /\ In (Exec (ListBridgedIfs tool) (inl listing)) t
          /\ (truthy (Base.firstAdapter_of listing) = false /\ net = []
              \/ truthy (Base.firstAdapter_of listing) = true
                 /\ net = [ModifyVmBridged tool (VStr name)
                             (Base.firstAdapter_of listing)])).
Proof.
  split; intros Hs.
  - split; [unfold Extended.main, run_script; now rewrite Hs|].
    unfold Extended.setupVM in Hs. apply bind_returned in Hs.
    destruct Hs as (r & t1 & w1 & t2 & Hp & Hpr & ->).
    destruct (Extended_promptUser_spec w _ _ _ Hp) as [Hprobes (_ & Hnet & _)].
    destruct (Extended_provision_completed r w1 Hnet _ _ _ Hpr eq_refl)
      as (wd & name & net & Hplan & Hwd & Hname & Hcases).
    exists t1, r, w1, wd, name, net. cbv zeta in *.
    rewrite provisioning_app, (only_probes_provisioning _ Hprobes).
    repeat split; assumption.
  - split; [unfold Base.main, run_script; now rewrite Hs|].
    unfold Base.setupVM in Hs. apply bind_returned in Hs.
    destruct Hs as (r & t1 & w1 & t2 & Hp & Hpr & ->).
    destruct (Base_promptUser_spec w _ _ _ Hp) as [Hprobes _].
    destruct (Base_provision_completed r w1 _ _ _ Hpr eq_refl)
      as (wd & name & net & listing & Hplan & Hwd & Hname & Hin & Hcases).
    exists t1, r, w1, wd, name, net, listing. cbv zeta in *.
    rewrite provisioning_app, (only_probes_provisioning _ Hprobes).
    repeat split; try assumption. apply in_or_app. now right.
Qed.

Lemma completed_run_commands_witness :
  let H := Scenario.host Scenario.defaults in
  let extended := @Extended.setupVM H [] in
  let base := @Base.setupVM H [] in
  (snd (fst extended) = Returned tt
   /\ @Extended.main H [] = (fst (fst extended), Status 0, snd extended)
   /\ length (provisioning (fst (fst extended))) = 9%nat)
  /\ (snd (fst base) = Returned tt
      /\ @Base.main H [] = (fst (fst base), Status 0, snd base)).
Proof.
  intros H extended base.
  pose proof (completed_run_commands H [] (fst (fst extended)) (snd extended))
    as [Hext _].
  pose proof (completed_run_commands H [] (fst (fst base)) (snd base))
    as [_ Hbase].
  split.
  - destruct Hext as [Hmain (t1 & r & w1 & wd & name & net & _ & Hplan & _)];
      [vm_compute; reflexivity|].
    split; [vm_compute; reflexivity|]. split; [exact Hmain|].
    cbv zeta in Hplan. rewrite Hplan. reflexivity.
  - destruct Hbase as [Hmain _]; [vm_compute; reflexivity|].
    split; [vm_compute; reflexivity | exact Hmain].
Defined.

(** C1, as stated, fails in the base variant: with no bridged interface
    listed, a run completes with status 0 on eight provisioning commands,
    none of them for the network adapter. *)
Lemma base_run_without_network_command :
  let H := Scenario.host Scenario.defaults in
  let run := @Base.main H [] in
  snd (fst (@Base.setupVM H [])) = Returned tt
  /\ snd (fst run) = Status 0
  /\ length (provisioning (fst (fst run))) = 8%nat
  /\ filter is_network_command (provisioning (fst (fst run))) = [].
Proof. vm_compute. repeat split. Qed.

(** C2.  When the listing of registered machines holds the requested name
    between double quotes, the run issues no provisioning command and
    the process exits with status 1 (both variants). *)
Theorem registered_name_halts (H : Host) (w : world H) (t : list event)
    (o : outcome unit) (w' : world H) (tool listing : string) :
  (forall t1 r w1,
      Extended.promptUser w = (t1, Returned r, w1) ->
      Extended.setupVM w = (t, o, w') ->
      In (Exec (ListVms tool) (inl listing)) t ->
      includes listing (quoted (ToString (Extended.virtualMachineName r)))
      = true ->
      provisioning t = [] /\ Extended.main w = (t, Status 1, w'))
  /\ (forall t1 r w1,
         Base.promptUser w = (t1, Returned r, w1) ->
         Base.setupVM w = (t, o, w') ->
         In (Exec (ListVms tool) (inl listing)) t ->
         includes listing (quoted (ToString (Base.virtualMachineName r)))
         = true ->
         provisioning t = [] /\ Base.main w = (t, Status 1, w')).
Proof.
  split; intros t1 r w1 Hp Hs Hin Hincl.
  - destruct (Extended_setupVM_split _ _ _ _ _ _ _ Hp Hs) as [t2 [Hpr ->]].
    destruct (Extended_promptUser_spec w _ _ _ Hp) as [Hprobes _].
    apply in_app_or in Hin. destruct Hin as [Hin|Hin].
    { apply (only_probes_In _ _ Hprobes) in Hin. discriminate Hin. }
    destruct (Extended_provision_collision r w1 _ _ _ Hpr _ _ Hin Hincl)
      as [Hnone ->].
    rewrite provisioning_app, (only_probes_provisioning _ Hprobes), Hnone.
    split; [reflexivity|].
    unfold Extended.main, run_script. now rewrite Hs.
  - destruct (Base_setupVM_split _ _ _ _ _ _ _ Hp Hs) as [t2 [Hpr ->]].
    destruct (Base_promptUser_spec w _ _ _ Hp) as [Hprobes _].
    apply in_app_or in Hin. destruct Hin as [Hin|Hin].
    { apply (only_probes_In _ _ Hprobes) in Hin. discriminate Hin. }
    destruct (Base_provision_collision r w1 _ _ _ Hpr _ _ Hin Hincl)
      as [Hnone ->].
    rewrite provisioning_app, (only_probes_provisioning _ Hprobes), Hnone.
    split; [reflexivity|].
    unfold Base.main, run_script. now rewrite Hs.
Qed.

Lemma registered_name_halts_witness :
  let H := Scenario.host Scenario.collision in
  provisioning (fst (fst (@Extended.setupVM H []))) = []
  /\ snd (fst (@Extended.main H [])) = Status 1
  /\ provisioning (fst (fst (@Base.setupVM H []))) = []
  /\ snd (fst (@Base.main H [])) = Status 1.
Proof.
  intros H.
  pose (listing := quoted "demo" ++ " {8a3f}").
  pose (e := @Extended.setupVM H []).
  pose (b := @Base.setupVM H []).
  pose (pe := @Extended.promptUser H []).
  pose (pb := @Base.promptUser H []).
  destruct (registered_name_halts H [] (fst (fst e)) (snd (fst e)) (snd e)
              (vboxManage_path H) listing) as [Hext _].
  destruct (registered_name_halts H [] (fst (fst b)) (snd (fst b)) (snd b)
              (vboxManage_path H) listing) as [_ Hbase].
  destruct (Hext (fst (fst pe))
              (Extended.mkRequest (VStr "demo") "tcbsd.iso" (Dec false 10 0)
                 (VStr "C:\VMs") "nat" VNull) (snd pe)) as [Hnone Hmain];
    [vm_compute; reflexivity | vm_compute; reflexivity
     | vm_compute; tauto | vm_compute; reflexivity |].
  destruct (Hbase (fst (fst pb))
              (Base.mkRequest (VStr "demo") "tcbsd.iso" (Dec false 10 0)
                 (VStr "C:\VMs")) (snd pb)) as [Hnone' Hmain'];
    [vm_compute; reflexivity | vm_compute; reflexivity
     | vm_compute; tauto | vm_compute; reflexivity |].
  split; [exact Hnone|]. split; [now rewrite Hmain|].
  split; [exact Hnone'|]. now rewrite Hmain'.
Defined.

(** C6, amended.  The size passed to the command that creates the runtime
    disk is the Number that the request's size in gigabytes times 1024
    gives.  For an integer size [gb] with [gb * 1024] below 2^53 the
    command line reads [--size] followed by the decimal digits of
    [gb * 1024]; 10 gives 10240 and 1 gives 1024.  For every integer size
    that a request holds the product is exact as long as it stays below
    2^1024; what changes from 2^53 on is how it is printed. *)
Theorem runtime_disk_size (H : Host) (w : world H) (t : list event)
    (o : outcome unit) (w' : world H) (tool vhd : string) (size : number)
    (res : string + error) :
  (forall t1 r w1,
      Extended.promptUser w = (t1, Returned r, w1) ->
      Extended.setupVM w = (t, o, w') ->
      In (Exec (CreateMedium tool vhd size) res) t ->
      size = number_mul (Extended.hddSizeGB r) (Dec false 1024 0))
  /\ (forall t1 r w1,
         Base.promptUser w = (t1, Returned r, w1) ->
         Base.setupVM w = (t, o, w') ->
         In (Exec (CreateMedium tool vhd size) res) t ->
         size = number_mul (Base.hddSizeGB r) (Dec false 1024 0))
  /\ (forall gb : N,
         (gb * 1024 < 2 ^ 53)%N ->
         hddSizeMB_of (Dec false gb 0) = Dec false (gb * 1024) 0
         /\ render (CreateMedium tool vhd (hddSizeMB_of (Dec false gb 0)))
            = quoted tool ++ " createmedium --filename " ++ quoted vhd
              ++ " --size " ++ decimal (gb * 1024) ++ " --format VHD")
  /\ (forall t1 r w1 gb,
         Extended.promptUser w = (t1, Returned r, w1) ->
         Extended.hddSizeGB r = Dec false gb 0 ->
         (gb * 1024 < 2 ^ 1024)%N ->
         hddSizeMB_of (Extended.hddSizeGB r) = Dec false (gb * 1024) 0)
  /\ (forall t1 r w1 gb,
         Base.promptUser w = (t1, Returned r, w1) ->
         Base.hddSizeGB r = Dec false gb 0 ->
         (gb * 1024 < 2 ^ 1024)%N ->
         hddSizeMB_of (Base.hddSizeGB r) = Dec false (gb * 1024) 0)
  /\ number_toString (hddSizeMB_of (Dec false 10 0)) = "10240"
  /\ number_toString (hddSizeMB_of (Dec false 1 0)) = "1024".
Proof.
  split; [|split; [|split; [|split; [|split; [|split; reflexivity]]]]].
  - intros t1 r w1 Hp Hs Hin.
    destruct (Extended_setupVM_split _ _ _ _ _ _ _ Hp Hs) as [t2 [Hpr ->]].
    destruct (Extended_promptUser_spec w _ _ _ Hp) as [Hprobes _].
    apply in_app_or in Hin. destruct Hin as [Hin|Hin].
    { apply (only_probes_In _ _ Hprobes) in Hin. discriminate Hin. }
    exact (Extended_provision_size r w1 _ _ _ Hpr _ _ _ _ Hin).
  - intros t1 r w1 Hp Hs Hin.
    destruct (Base_setupVM_split _ _ _ _ _ _ _ Hp Hs) as [t2 [Hpr ->]].
    destruct (Base_promptUser_spec w _ _ _ Hp) as [Hprobes _].
    apply in_app_or in Hin. destruct Hin as [Hin|Hin].
    { apply (only_probes_In _ _ Hprobes) in Hin. discriminate Hin. }
    exact (Base_provision_size r w1 _ _ _ Hpr _ _ _ _ Hin).
  - intros gb Hgb.
    assert (Hmb : hddSizeMB_of (Dec false gb 0) = Dec false (gb * 1024) 0).
    { unfold hddSizeMB_of. cbn [number_mul xorb Z.add Z.leb Z.compare Z.to_N].
      rewrite N.pow_0_r, N.mul_1_r. now apply to_number_small. }
    split; [exact Hmb|]. rewrite Hmb. cbn [render].
    now rewrite (number_toString_small _ Hgb).
  - intros t1 r w1 gb Hp Hgb Hmax.
    destruct (Extended_promptUser_spec w _ _ _ Hp) as [_ Hr].
    cbv beta iota in Hr. destruct Hr as ((a & _ & _ & Ha) & _).
    rewrite Hgb in *. symmetry in Ha.
    exact (hddSizeMB_of_exact gb (parseInt_representable _ _ _ _ Ha) Hmax).
  - intros t1 r w1 gb Hp Hgb Hmax.
    destruct (Base_promptUser_spec w _ _ _ Hp) as [_ Hr].
    cbv beta iota in Hr. destruct Hr as (a & _ & _ & Ha).
    rewrite Hgb in *. symmetry in Ha.
    exact (hddSizeMB_of_exact gb (parseInt_representable _ _ _ _ Ha) Hmax).
Qed.

Lemma runtime_disk_size_witness :
  let H := Scenario.host Scenario.one_gigabyte in
  let vhd := "C:\VMs\TwinCAT_VM_20250724_134205\TcBSD.vhd" in
  let vhd' := "C:\VMs\TwinCAT_BSD_20250724_134205\TcBSD.vhd" in
  let size := Dec false 1024 0 in
  In (Exec (CreateMedium (vboxManage_path H) vhd size) (inl EmptyString))
     (fst (fst (@Extended.setupVM H [])))
  /\ In (Exec (CreateMedium (vboxManage_path H) vhd' size) (inl EmptyString))
        (fst (fst (@Base.setupVM H [])))
  /\ size = number_mul (Dec false 1 0) (Dec false 1024 0)
  /\ hddSizeMB_of (Dec false 250 0) = Dec false 256000 0.
Proof.
  intros H vhd vhd' size.
  pose (e := @Extended.setupVM H []).
  pose (pe := @Extended.promptUser H []).
  pose (b := @Base.setupVM H []).
  pose (pb := @Base.promptUser H []).
  assert (Hin : In (Exec (CreateMedium (vboxManage_path H) vhd size)
                      (inl EmptyString)) (fst (fst e)))
    by (vm_compute; tauto).
  assert (Hin' : In (Exec (CreateMedium (vboxManage_path H) vhd' size)
                       (inl EmptyString)) (fst (fst b)))
    by (vm_compute; tauto).
  destruct (runtime_disk_size H [] (fst (fst e)) (snd (fst e)) (snd e)
              (vboxManage_path H) vhd size (inl EmptyString))
    as [Hext [_ [Hgb _]]].
  destruct (runtime_disk_size H [] (fst (fst b)) (snd (fst b)) (snd b)
              (vboxManage_path H) vhd' size (inl EmptyString))
    as [_ [Hbase _]].
  split; [exact Hin|]. split; [exact Hin'|]. split.
  - pose proof (Hbase (fst (fst pb))
                  (Base.mkRequest (VStr "TwinCAT_BSD_20250724_134205")
                     "tcbsd.iso" (Dec false 1 0) (VStr "C:\VMs"))
                  (snd pb) eq_refl eq_refl Hin') as Hsize.
    rewrite Hsize.
    exact (Hext (fst (fst pe))
             (Extended.mkRequest (VStr "TwinCAT_VM_20250724_134205")
                "tcbsd.iso" (Dec false 1 0) (VStr "C:\VMs") "nat" VNull)
             (snd pe) eq_refl eq_refl Hin).
  - apply (Hgb 250%N). reflexivity.
Defined.

(** C6, as stated, fails for a large size.  The input 4503599627370495
    (2^52 - 1) is accepted and kept as it is; its product by 1024 is
    4611686018427386880, and the command line reads
    [--size 4611686018427387000]. *)
Lemma large_size_is_printed_rounded :
  let H := Scenario.host Cases.petabytes in
  let vhd := "C:\VMs\TwinCAT_VM_20250724_134205\TcBSD.vhd" in
  let size := hddSizeMB_of (hddSizeGB_of (VStr "4503599627370495")) in
  is_valid (validate (VStr "4503599627370495")) = true
  /\ hddSizeGB_of (VStr "4503599627370495") = Dec false 4503599627370495 0
  /\ (4503599627370495 * 1024 = 4611686018427386880)%N
  /\ In (Exec (CreateMedium (vboxManage_path H) vhd size) (inl EmptyString))
        (fst (fst (@Extended.setupVM H [])))
  /\ render (CreateMedium (vboxManage_path H) vhd size)
     = quoted (vboxManage_path H) ++ " createmedium --filename " ++ quoted vhd
       ++ " --size 4611686018427387000 --format VHD"
  /\ number_toString size <> decimal (4503599627370495 * 1024).
Proof.
  intros H vhd size. split; [reflexivity|]. split; [vm_compute; reflexivity|].
  split; [reflexivity|]. split; [vm_compute; tauto|].
  split; [vm_compute; reflexivity|].
  vm_compute. discriminate.
Qed.

(** C7.  In the extended variant, when the operator has chosen the bridged
    mode and the interface listing yields no adapter, the request that
    [promptUser] returns has the mode NAT and no adapter, the message
    that NAT is used has been printed, no provisioning command has been
    issued yet, and whatever network command the provisioning then issues
    is the NAT one. *)
Theorem bridged_without_adapter_uses_nat (H : Host) (w : world H)
    (t : list event) (r : Extended.request) (w' : world H) (tool : string)
    (res : string + error) :
  Extended.promptUser w = (t, Returned r, w') ->
  In (Choice "Choose network mode:" "bridged") t ->
  In (Exec (ListBridgedIfs tool) res) t ->
  discovered res = [] ->
  Extended.networkType r = "nat"
  /\ Extended.bridgedAdapter r = VNull
  /\ In (Log Info "No bridged adapters found. Using NAT.") t
  /\ provisioning t = []
  /\ forall (w1 : world H) t2 o w2 c res',
      Extended.provision r w1 = (t2, o, w2) ->
      In (Exec c res') t2 -> is_network_command c = true ->
      c = ModifyVmNat (vboxManage_path H) (Extended.virtualMachineName r).
Proof.
  intros Hp Hchoice Hexec Hnone.
  destruct (Extended_promptUser_spec w _ _ _ Hp) as [Hprobes (_ & _ & Hfall)].
  destruct (Hfall Hchoice tool res Hexec Hnone) as (Hnat & Hnull & Hlog).
  repeat split; try assumption.
  - now apply only_probes_provisioning.
  - intros w1 t2 o w2 c res' Hpr.
    exact (Extended_provision_network r w1 Hnat _ _ _ Hpr c res').
Qed.

Lemma bridged_without_adapter_uses_nat_witness :
  let H := Scenario.host Scenario.bridged_without_adapter in
  let r := Extended.mkRequest (VStr "TwinCAT_VM_20250724_134205") "tcbsd.iso"
             (Dec false 10 0) (VStr "C:\VMs") "nat" VNull in
  snd (fst (@Extended.promptUser H [])) = Returned r
  /\ Extended.networkType r = "nat"
  /\ In (Log Info "No bridged adapters found. Using NAT.")
        (fst (fst (@Extended.promptUser H []))).
Proof.
  intros H r.
  pose (p := @Extended.promptUser H []).
  destruct (bridged_without_adapter_uses_nat H [] (fst (fst p)) r (snd p)
              (vboxManage_path H) (inl EmptyString))
    as (Hnat & _ & Hlog & _);
    [vm_compute; reflexivity | vm_compute; tauto | vm_compute; tauto
     | vm_compute; reflexivity |].
  split; [vm_compute; reflexivity|]. split; [exact Hnat | exact Hlog].
Defined.

(** C8, amended.  An interrupted prompt rejects with [ExitPromptError];
    the listener then prints [Exiting] on the error stream and nothing
    else, and sets no exit status, so that the process ends with status
    0.  Every other error that leaves [setupVM] is thrown again by the
    listener, unchanged, and is fatal. *)
Theorem uncaught_exception_listener (H : Host) (w : world H)
    (t : list event) (o : outcome unit) (e : error) (w' : world H) :
  let recognised :=
    instance_of_Error e && String.eqb (error_name e) "ExitPromptError" in
  (Extended.setupVM w = (t, Thrown e, w') ->
   Extended.main w =
     if recognised then ((t ++ [Log Failure "Exiting"])%list, Status 0, w')
     else (t, Fatal e, w'))
  /\ (Base.setupVM w = (t, Thrown e, w') ->
      Base.main w =
        if recognised then ((t ++ [Log Failure "Exiting"])%list, Status 0, w')
        else (t, Fatal e, w'))
  /\ (forall message,
         Extended.setupVM w = (t, o, w') -> In (Interrupt message) t ->
         Extended.main w
         = ((t ++ [Log Failure "Exiting"])%list, Status 0, w'))
  /\ (forall message,
         Base.setupVM w = (t, o, w') -> In (Interrupt message) t ->
         Base.main w = ((t ++ [Log Failure "Exiting"])%list, Status 0, w')).
Proof.
  intros recognised. subst recognised.
  assert (Hext : Extended.setupVM w = (t, Thrown e, w') ->
            Extended.main w =
            if instance_of_Error e && String.eqb (error_name e) "ExitPromptError"
            then ((t ++ [Log Failure "Exiting"])%list, Status 0, w')
            else (t, Fatal e, w')).
  { intros Hs. unfold Extended.main, run_script, on_uncaughtException.
    rewrite Hs.
    destruct (instance_of_Error e && String.eqb (error_name e) "ExitPromptError");
      cbn; [reflexivity|]. now rewrite app_nil_r. }
  assert (Hbase : Base.setupVM w = (t, Thrown e, w') ->
            Base.main w =
            if instance_of_Error e && String.eqb (error_name e) "ExitPromptError"
            then ((t ++ [Log Failure "Exiting"])%list, Status 0, w')
            else (t, Fatal e, w')).
  { intros Hs. unfold Base.main, run_script, on_uncaughtException.
    rewrite Hs.
    destruct (instance_of_Error e && String.eqb (error_name e) "ExitPromptError");
      cbn; [reflexivity|]. now rewrite app_nil_r. }
  split; [exact Hext|]. split; [exact Hbase|]. split.
  - intros message Hs Hin.
    assert (Ho : o = Thrown ExitPromptError).
    { unfold Extended.setupVM in Hs. apply bind_inversion in Hs.
      destruct Hs as [(r & t1 & w1 & t2 & Hp & Hpr & ->)
                     | [(c & Hp & ->) | (e' & Hp & ->)]].
      - apply in_app_or in Hin. destruct Hin as [Hin|Hin].
        + pose proof (Extended_promptUser_interrupt w _ _ _ Hp _ Hin) as Habs.
          discriminate Habs.
        + destruct (Extended_provision_no_interrupt r w1 _ _ _ Hpr _ Hin).
      - pose proof (Extended_promptUser_interrupt w _ _ _ Hp _ Hin) as Habs.
        discriminate Habs.
      - pose proof (Extended_promptUser_interrupt w _ _ _ Hp _ Hin) as Habs.
        inversion Habs. reflexivity. }
    subst o. unfold Extended.main, run_script. rewrite Hs. reflexivity.
  - intros message Hs Hin.
    assert (Ho : o = Thrown ExitPromptError).
    { unfold Base.setupVM in Hs. apply bind_inversion in Hs.
      destruct Hs as [(r & t1 & w1 & t2 & Hp & Hpr & ->)
                     | [(c & Hp & ->) | (e' & Hp & ->)]].
      - apply in_app_or in Hin. destruct Hin as [Hin|Hin].
        + pose proof (Base_promptUser_interrupt w _ _ _ Hp _ Hin) as Habs.
          discriminate Habs.
        + destruct (Base_provision_no_interrupt r w1 _ _ _ Hpr _ Hin).
      - pose proof (Base_promptUser_interrupt w _ _ _ Hp _ Hin) as Habs.
        discriminate Habs.
      - pose proof (Base_promptUser_interrupt w _ _ _ Hp _ Hin) as Habs.
        inversion Habs. reflexivity. }
    subst o. unfold Base.main, run_script. rewrite Hs. reflexivity.
Qed.

Lemma uncaught_exception_listener_witness :
  let H := Scenario.host Scenario.interrupted in
  let F := Scenario.host Scenario.listings_fail in
  @Extended.main H []
  = ([Interrupt "Enter Virtual Machine Name:"; Log Failure "Exiting"],
     Status 0, [])
  /\ snd (fst (@Extended.main F [])) = Fatal Scenario.command_failed.
Proof.
  intros H F.
  pose (s := @Extended.setupVM H []).
  pose (f := @Extended.setupVM F []).
  destruct (uncaught_exception_listener H [] (fst (fst s)) (snd (fst s))
              ExitPromptError (snd s)) as (_ & _ & Hint & _).
  destruct (uncaught_exception_listener F [] (fst (fst f)) (snd (fst f))
              Scenario.command_failed (snd f)) as (Hfatal & _).
  split.
  - apply (Hint "Enter Virtual Machine Name:");
      [vm_compute; reflexivity | vm_compute; tauto].
  - rewrite Hfatal; [reflexivity | vm_compute; reflexivity].
Defined.

(** C8, as stated, fails: the operator interrupts the first prompt and the
    process ends with status 0, not with a non-zero one. *)
Lemma interrupted_run_exits_zero :
  let H := Scenario.host Scenario.interrupted in
  fst (fst (@Extended.main H []))
  = [Interrupt "Enter Virtual Machine Name:"; Log Failure "Exiting"]
  /\ exit_code (snd (fst (@Extended.main H []))) = 0%Z
  /\ exit_code (snd (fst (@Base.main H []))) = 0%Z.
Proof. vm_compute. repeat split. Qed.

(** ** The default folder *)

Lemma strip_prefix_spec (p s rest : string) :
  strip_prefix p s = Some rest -> s = p ++ rest.
Proof.
  revert s. induction p as [|a p IH]; intros s; cbn [strip_prefix append].
  - intros E. now inversion E.
  - destruct s as [|b s]; [discriminate|].
    destruct (Ascii.eqb_spec a b) as [->|]; [|discriminate].
    intros E. now rewrite (IH _ E).
Qed.

Lemma take_drop_while (p : ascii -> bool) (s : string) :
  s = take_while p s ++ drop_while p s.
Proof.
  induction s as [|c s IH]; [reflexivity|]. cbn [take_while drop_while].
  destruct (p c); cbn [append]; [now rewrite <- IH | reflexivity].
Qed.

Lemma take_while_all_chars (p : ascii -> bool) (s : string) :
  all_chars p (take_while p s) = true.
Proof.
  induction s as [|c s IH]; [reflexivity|]. cbn [take_while].
  destruct (p c) eqn:Hc; [|reflexivity]. cbn [all_chars]. now rewrite Hc.
Qed.

Lemma drop_while_head (p : ascii -> bool) (s : string) :
  match drop_while p s with
  | EmptyString => True
  | String c _ => p c = false
  end.
Proof.
  induction s as [|c s IH]; [exact I|]. cbn [drop_while].
  destruct (p c) eqn:Hc; [exact IH | exact Hc].
Qed.

(** What a match of the regular expression says about the text. *)
Lemma match_folder_here_spec (s capture : string) :
  match_folder_here s = Some capture ->
  exists spaces after,
    s = folder_label ++ spaces ++ capture ++ after
    /\ is_empty spaces = false
    /\ all_chars is_ws spaces = true
    /\ all_chars (fun c => negb (is_line_terminator c)) capture = true
    /\ match capture ++ after with
       | EmptyString => True
       | String c _ => is_ws c = false
       end
    /\ match after with
       | EmptyString => True
       | String c _ => is_line_terminator c = true
       end.
Proof.
  unfold match_folder_here.
  destruct (strip_prefix "Default machine folder:" s) as [[|c r]|] eqn:Es;
    try discriminate.
  destruct (is_ws c) eqn:Hc; [|discriminate].
  intros E. inversion E as [Hcap]. clear E.
  apply strip_prefix_spec in Es.
  set (rest := drop_while is_ws (String c r)) in *.
  exists (take_while is_ws (String c r)),
         (drop_while (fun x => negb (is_line_terminator x)) rest).
  repeat split.
  - rewrite <- (take_drop_while _ rest).
    unfold rest. rewrite <- (take_drop_while is_ws (String c r)). exact Es.
  - cbn [take_while]. now rewrite Hc.
  - apply take_while_all_chars.
  - apply take_while_all_chars.
  - rewrite <- (take_drop_while _ rest). unfold rest.
    apply (drop_while_head is_ws).
  - pose proof (drop_while_head (fun x => negb (is_line_terminator x)) rest)
      as Hh.
    destruct (drop_while _ rest); [exact I|]. now apply negb_false_iff.
Qed.

Lemma match_folder_spec (output capture : string) :
  match_folder output = Some capture ->
  exists before suffix,
    output = before ++ suffix /\ match_folder_here suffix = Some capture.
Proof.
  induction output as [|c rest IH].
  - cbn. discriminate.
  - cbn [match_folder].
    destruct (match_folder_here (String c rest)) as [cap|] eqn:Eh.
    + intros E. inversion E; subst.
      exists EmptyString, (String c rest). split; [reflexivity | exact Eh].
    + intros E. destruct (IH E) as (before & suffix & -> & Hs).
      exists (String c before), suffix. split; [reflexivity | exact Hs].
Qed.

(** What [getDefaultVMFolder] does, case by case; it always returns.
    When the listing of system properties succeeds and the regular
    expression matches, it returns the capture, trimmed; when the listing
    succeeds and the expression does not match, it returns [null] and no
    path; when the listing fails, it prints a message and returns the
    folder [VirtualBox VMs] under the home directory.  A capture is the
    text that follows the label and its white space, which may run over
    the end of a line, up to the next end of a line. *)
Theorem default_folder_never_fails (H : Host) (w : world H) :
  (exists t v w',
      getDefaultVMFolder w = (t, Returned v, w')
      /\ match execSync H (render ListSystemProperties) w with
         | (inl output, w1) =>
             t = [Exec ListSystemProperties (inl output)]
             /\ w' = w1
             /\ v = match match_folder output with
                    | Some capture => VStr (trim capture)
                    | None => VNull
                    end
         | (inr e, w1) =>
             t = [Exec ListSystemProperties (inr e);
                  Log Failure
                    "Could not detect default VirtualBox VM folder. Falling back."]
             /\ w' = w1
             /\ v = VStr (path_join H [homedir H; "VirtualBox VMs"])
         end)
  /\ (forall output capture : string,
         match_folder output = Some capture ->
         exists before spaces after,
           output = before ++ folder_label ++ spaces ++ capture ++ after
           /\ is_empty spaces = false
           /\ all_chars is_ws spaces = true
           /\ all_chars (fun c => negb (is_line_terminator c)) capture = true
           /\ match capture ++ after with
              | EmptyString => True
              | String c _ => is_ws c = false
              end
           /\ match after with
              | EmptyString => True
              | String c _ => is_line_terminator c = true
              end).
Proof.
  split.
  - unfold getDefaultVMFolder, try_catch, bind, exec, ret, logError, log.
    destruct (execSync H (render ListSystemProperties) w) as [[output|e] w1].
    + do 3 eexists. split; [reflexivity|]. repeat split.
    + do 3 eexists. split; [reflexivity|]. repeat split.
  - intros output capture Hm.
    destruct (match_folder_spec _ _ Hm) as (before & suffix & -> & Hs).
    destruct (match_folder_here_spec _ _ Hs)
      as (spaces & after & -> & Hrest).
    exists before, spaces, after. split; [reflexivity | exact Hrest].
Qed.

Lemma default_folder_never_fails_witness :
  match_folder Scenario.properties_listing = Some "C:\VMs"
  /\ exists before spaces after,
       Scenario.properties_listing
       = before ++ folder_label ++ spaces ++ "C:\VMs" ++ after
       /\ is_empty spaces = false.
Proof.
  split; [reflexivity|].
  destruct (default_folder_never_fails (Scenario.host Scenario.defaults) [])
    as [_ Hcapture].
  destruct (Hcapture Scenario.properties_listing "C:\VMs" eq_refl)
    as (before & spaces & after & Heq & Hne & _).
  exists before, spaces, after. split; assumption.
Defined.

(** C9.  The code at the failing input: the listing succeeds without the
    folder's line, and the default is [null], which is no path; nothing
    is printed.  On a listing that fails, the same function prints a
    message and falls back to the folder under the home directory. *)
Lemma default_folder_can_be_null :
  @getDefaultVMFolder (Scenario.host Scenario.no_folder_line) []
  = ([Exec ListSystemProperties (inl "API version: 7_0")], Returned VNull,
     [render ListSystemProperties])
  /\ @getDefaultVMFolder (Scenario.host Scenario.listings_fail) []
     = ([Exec ListSystemProperties (inr Scenario.command_failed);
         Log Failure
           "Could not detect default VirtualBox VM folder. Falling back."],
        Returned (VStr "C:\Users\operator\VirtualBox VMs"),
        [render ListSystemProperties]).
Proof. split; vm_compute; reflexivity. Qed.

(** ** The command lines *)

(** C10.  The command that creates the machine carries the name bare,
    between [--name] and [--basefolder]; the later commands carry it
    between double quotes, and the launch carries the quoted path of the
    descriptor.  Every command of a run that names the machine carries
    the name of the request.  So for a name that holds a space, the word
    that follows [--name] on the first command line is not the name, and
    the bare name is never the quoted one. *)
Theorem machine_name_quoting (tool : string) (name folder adapter : jsval)
    (port : N) (medium vboxFile : string) :
  render (CreateVm tool name folder)
  = quoted tool ++ " createvm --name " ++ ToString name ++ " --basefolder "
    ++ quoted (ToString folder) ++ " --ostype FreeBSD_64 --register"
  /\ render (ModifyVmHardware tool name)
     = quoted tool ++ " modifyvm " ++ quoted (ToString name)
       ++ " --memory 1024 --vram 128 --acpi on --hpet on --graphicscontroller vmsvga --firmware efi64"
  /\ render (ModifyVmBridged tool name adapter)
     = quoted tool ++ " modifyvm " ++ quoted (ToString name)
       ++ " --nic1 bridged --bridgeadapter1 " ++ quoted (ToString adapter)
  /\ render (ModifyVmNat tool name)
     = quoted tool ++ " modifyvm " ++ quoted (ToString name) ++ " --nic1 nat"
  /\ render (StorageCtl tool name)
     = quoted tool ++ " storagectl " ++ quoted (ToString name)
       ++ " --name SATA --add sata --controller IntelAhci --hostiocache on --bootable on"
  /\ render (StorageAttach tool name port medium)
     = quoted tool ++ " storageattach " ++ quoted (ToString name)
       ++ " --storagectl " ++ quoted "SATA" ++ " --port " ++ decimal port
       ++ " --device 0 --type hdd --medium " ++ quoted medium
  /\ render (Start vboxFile) = "start " ++ dq ++ dq ++ " " ++ quoted vboxFile
  /\ (forall (H : Host) (r : Extended.request) (w : world H) t o w' c res n,
         Extended.provision r w = (t, o, w') ->
         In (Exec c res) t -> machine_name c = Some n ->
         n = Extended.virtualMachineName r)
  /\ (forall (H : Host) (r : Base.request) (w : world H) t o w' c res n,
         Base.provision r w = (t, o, w') ->
         In (Exec c res) t -> machine_name c = Some n ->
         n = Base.virtualMachineName r)
  /\ (has_space (ToString name) = true ->
      first_word (ToString name ++ " --basefolder "
                  ++ quoted (ToString folder)
                  ++ " --ostype FreeBSD_64 --register")
      <> ToString name)
  /\ ToString name <> quoted (ToString name).
Proof.
  do 7 (split; [reflexivity|]). split; [|split; [|split]].
  - intros H r w t o w' c res n Hpr.
    exact (Extended_provision_names r w _ _ _ Hpr c res n).
  - intros H r w t o w' c res n Hpr.
    exact (Base_provision_names r w _ _ _ Hpr c res n).
  - apply first_word_splits.
  - intros Heq. apply (f_equal String.length) in Heq.
    unfold quoted in Heq. rewrite !length_append in Heq. cbn in Heq. lia.
Qed.

Lemma machine_name_quoting_witness :
  let H := Scenario.host Scenario.defaults in
  let r := Extended.mkRequest (VStr "my vm") "tcbsd.iso" (Dec false 10 0)
             (VStr "C:\VMs") "nat" VNull in
  let b := Base.mkRequest (VStr "my vm") "tcbsd.iso" (Dec false 10 0)
             (VStr "C:\VMs") in
  let c := CreateVm (vboxManage_path H) (VStr "my vm") (VStr "C:\VMs") in
  first_word ("my vm" ++ " --basefolder " ++ quoted "C:\VMs"
              ++ " --ostype FreeBSD_64 --register")
  <> "my vm"
  /\ In (Exec c (inl EmptyString)) (fst (fst (@Extended.provision H r [])))
  /\ In (Exec c (inl EmptyString)) (fst (fst (@Base.provision H b [])))
  /\ VStr "my vm" = Extended.virtualMachineName r
  /\ VStr "my vm" = Base.virtualMachineName b.
Proof.
  intros H r b c.
  destruct (machine_name_quoting "VBoxManage.exe" (VStr "my vm")
              (VStr "C:\VMs") VNull 0 EmptyString EmptyString)
    as (_ & _ & _ & _ & _ & _ & _ & Hext & Hbase & Hword & _).
  assert (Hine : In (Exec c (inl EmptyString))
                   (fst (fst (@Extended.provision H r []))))
    by (vm_compute; tauto).
  assert (Hinb : In (Exec c (inl EmptyString))
                   (fst (fst (@Base.provision H b []))))
    by (vm_compute; tauto).
  split; [apply Hword; reflexivity|].
  split; [exact Hine|]. split; [exact Hinb|]. split.
  - exact (Hext H r [] (fst (fst (@Extended.provision H r [])))
             (snd (fst (@Extended.provision H r [])))
             (snd (@Extended.provision H r [])) c (inl EmptyString)
             (VStr "my vm") eq_refl Hine eq_refl).
  - exact (Hbase H b [] (fst (fst (@Base.provision H b [])))
             (snd (fst (@Base.provision H b [])))
             (snd (@Base.provision H b [])) c (inl EmptyString)
             (VStr "my vm") eq_refl Hinb eq_refl).
Defined.

(** ** The image catalog *)

(** C3.  With the folder present and listed, image discovery returns the
    files of the listing whose name ends with an allowed extension
    ([.iso]; in the extended variant [.iso] or [.img]), in the order of
    the listing; when there is none it prints an error and exits with
    status 1.  A name ends with an extension when it is some stem
    followed by the extension. *)
Theorem image_discovery_filters_by_extension (H : Host) (w w1 w2 : world H)
    (files : list string) :
  (existsSync H (@Base.isoFolder H) w = (true, w1) ->
   readdirSync H (@Base.isoFolder H) w1 = (inl files, w2) ->
   Base.getAvailableISOs w =
   match filter (fun file => endsWith file ".iso") files with
   | [] =>
       ([Log Failure
           "No ISO files found in the 'iso' folder. Please add some ISOs."],
        Exited 1, w2)
   | images => ([], Returned images, w2)
   end)
  /\ (existsSync H (@Extended.installerImagesFolder H) w = (true, w1) ->
      readdirSync H (@Extended.installerImagesFolder H) w1 = (inl files, w2) ->
      Extended.getAvailableInstallerImages w =
      match filter (fun file => endsWith file ".iso" || endsWith file ".img")
              files with
      | [] =>
          ([Log Failure
              "No image files found in the 'installerImages' folder. Please add some ISOs or IMG files."],
           Exited 1, w2)
      | images => ([], Returned images, w2)
      end)
  /\ (forall file extension : string,
         endsWith file extension = true
         <-> exists stem, file = stem ++ extension).
Proof.
  split; [|split; [|exact endsWith_spec]].
  - intros Hex Hrd.
    unfold Base.getAvailableISOs, bind, fs_existsSync, fs_readdirSync, ret,
      exit, logError, log.
    rewrite Hex. cbn [negb]. rewrite Hrd.
    destruct (filter _ files); reflexivity.
  - intros Hex Hrd.
    unfold Extended.getAvailableInstallerImages, bind, fs_existsSync,
      fs_readdirSync, ret, exit, logError, log.
    rewrite Hex. cbn [negb]. rewrite Hrd.
    destruct (filter _ files); reflexivity.
Qed.

Lemma image_discovery_filters_by_extension_witness :
  let H := Scenario.host Scenario.defaults in
  @Base.getAvailableISOs H [] = ([], Returned ["tcbsd.iso"], [])
  /\ @Extended.getAvailableInstallerImages H []
     = ([], Returned ["tcbsd.iso"], [])
  /\ endsWith "tcbsd.iso" ".iso" = true.
Proof.
  intros H.
  destruct (image_discovery_filters_by_extension H [] [] []
              ["notes.txt"; "tcbsd.iso"]) as (Hbase & Hext & Hends).
  split; [apply Hbase; reflexivity|].
  split; [apply Hext; reflexivity|].
  apply Hends. exists "tcbsd". reflexivity.
Defined.

(** ** The sequence of commands *)

Section Sequence.
Context {H : Host}.

Lemma steps_app (t1 t2 : list event) :
  steps (t1 ++ t2) = (steps t1 ++ steps t2)%list.
Proof.
  induction t1 as [|e t1 IH]; [reflexivity|].
  destruct e as [| c r | | |]; cbn [app steps]; try exact IH.
  destruct (step_of c); [cbn [app]; now rewrite IH | exact IH].
Qed.

Lemma only_probes_steps (t : list event) : only_probes t -> steps t = [].
Proof.
  unfold only_probes. induction t as [|e t IH]; [reflexivity|].
  cbn [forallb]. intros Hp. apply andb_prop in Hp. destruct Hp as [He Ht].
  destruct e as [| c r | | |]; cbn [steps]; try exact (IH Ht).
  destruct c; try discriminate He; exact (IH Ht).
Qed.

Ltac prefix_of_sequence :=
  first [ exists 0%nat; reflexivity | exists 1%nat; reflexivity
        | exists 2%nat; reflexivity | exists 3%nat; reflexivity
        | exists 4%nat; reflexivity | exists 5%nat; reflexivity
        | exists 6%nat; reflexivity | exists 7%nat; reflexivity
        | exists 8%nat; reflexivity | exists 9%nat; reflexivity ].

Lemma Extended_provision_steps (r : Extended.request) (w : world H) :
  (Extended.networkType r = "bridged" ->
   truthy (Extended.bridgedAdapter r) = true) ->
  wp (Extended.provision r)
    (fun t _ _ => exists k, steps t = firstn k full_sequence) w.
Proof.
  destruct r as [name img size folder nt ad].
  cbn [Extended.networkType Extended.bridgedAdapter]. intros Hwf.
  unfold Extended.provision;
    cbn [Extended.networkType Extended.bridgedAdapter Extended.vmFolder
         Extended.virtualMachineName Extended.hddSizeGB Extended.imgSelection].
  match goal with |- wp _ ?P _ => set (Q := P) end.
  wp_run.
  all: subst Q; cbv beta.
  all: try prefix_of_sequence.
  all: match goal with
       | E1 : String.eqb _ "bridged" = true |- _ =>
           apply String.eqb_eq in E1; discriminate (Hwf E1)
       end.
Qed.

Lemma Base_provision_steps (r : Base.request) (w : world H) :
  wp (Base.provision r)
    (fun t _ _ =>
       exists k, steps t = firstn k full_sequence
                 \/ steps t = firstn k sequence_without_network) w.
Proof.
  destruct r as [name img size folder].
  unfold Base.provision;
    cbn [Base.vmFolder Base.virtualMachineName Base.hddSizeGB
         Base.isoSelection].
  match goal with |- wp _ ?P _ => set (Q := P) end.
  wp_run.
  all: subst Q; cbv beta.
  all: first
    [ exists 0%nat; left; reflexivity | exists 1%nat; left; reflexivity
    | exists 2%nat; left; reflexivity | exists 3%nat; left; reflexivity
    | exists 4%nat; left; reflexivity | exists 5%nat; left; reflexivity
    | exists 6%nat; left; reflexivity | exists 7%nat; left; reflexivity
    | exists 8%nat; left; reflexivity | exists 9%nat; left; reflexivity
    | exists 3%nat; right; reflexivity | exists 4%nat; right; reflexivity
    | exists 5%nat; right; reflexivity | exists 6%nat; right; reflexivity
    | exists 7%nat; right; reflexivity | exists 8%nat; right; reflexivity ].
Qed.

Lemma Extended_provision_fails_fast (r : Extended.request) (w : world H) :
  wp (Extended.provision r)
    (fun t o _ =>
       forall c e, In (Exec c (inr e)) t ->
         o = Thrown e /\ last t (Log Info EmptyString) = Exec c (inr e)) w.
Proof.
  unfold Extended.provision.
  match goal with |- wp _ ?P _ => set (Q := P) end.
  wp_run.
  all: subst Q; cbv beta; intros cmd err Hin.
  all: in_cases Hin; inversion Hin; subst; split; reflexivity.
Qed.

Lemma Base_provision_fails_fast (r : Base.request) (w : world H) :
  wp (Base.provision r)
    (fun t o _ =>
       forall c e, In (Exec c (inr e)) t ->
         o = Thrown e /\ last t (Log Info EmptyString) = Exec c (inr e)) w.
Proof.
  unfold Base.provision.
  match goal with |- wp _ ?P _ => set (Q := P) end.
  wp_run.
  all: subst Q; cbv beta; intros cmd err Hin.
  all: in_cases Hin; inversion Hin; subst; split; reflexivity.
Qed.

Lemma Extended_provision_no_prompt (r : Extended.request) (w : world H) :
  wp (Extended.provision r)
    (fun t _ _ =>
       forall e, In e t ->
         match e with Log _ _ | Exec _ _ => True | _ => False end) w.
Proof.
  unfold Extended.provision.
  match goal with |- wp _ ?P _ => set (Q := P) end.
  wp_run.
  all: subst Q; cbv beta; intros ev Hin.
  all: cbn [In app] in Hin;
    repeat (destruct Hin as [Hin|Hin]; [subst ev; exact I|]); contradiction.
Qed.

End Sequence.

(** ** What the prompts return *)

Section Lines.
Context {H : Host}.

Lemma submit_answer default validate (entries : list entry) a :
  submit default validate entries = Some a ->
  exists text default',
    a = js_or (VStr text) default'
    /\ is_valid (validate a) = true
    /\ (default' = default
        \/ default' = VStr EmptyString
           /\ exists e, In e entries /\ erased e = true).
Proof.
  revert default. induction entries as [|e rest IH]; intros default;
    [discriminate|].
  cbn [submit].
  destruct (is_valid (validate (js_or (VStr (entered e)) _))) eqn:Hv.
  - intros E. inversion E; subst. do 2 eexists.
    split; [reflexivity|]. split; [exact Hv|].
    destruct (erased e) eqn:He; [right | now left].
    split; [reflexivity|]. exists e. split; [now left | exact He].
  - intros E. destruct (IH _ E) as (text & d & -> & Hvalid & Hd).
    exists text, d. split; [reflexivity|]. split; [exact Hvalid|].
    destruct Hd as [->|[-> (e' & Hin & He')]].
    + destruct (erased e) eqn:He; [right | now left].
      split; [reflexivity|]. exists e. split; [now left | exact He].
    + right. split; [reflexivity|]. exists e'. split; [now right | exact He'].
Qed.

(** The rule of [input] that keeps what the answer is made of: the text
    submitted and the default, which is the one of the prompt unless the
    operator has erased it. *)
Lemma wp_input_lines message default validate Q (w : world H) :
  (forall w1,
     (forall text default',
        default' = default
        \/ default' = VStr EmptyString /\ ~ never_erases H ->
        is_valid (validate (js_or (VStr text) default')) = true ->
        Q [Answer message (js_or (VStr text) default')]
          (Returned (js_or (VStr text) default')) w1) /\
     Q [Interrupt message] (Thrown ExitPromptError) w1) ->
  wp (input message default validate) Q w.
Proof.
  intros HQ t o w' E. unfold input in E.
  destruct (typed H message w) as [entries w1] eqn:Eh.
  destruct (HQ w1) as [Hok Hint].
  destruct (submit _ _ _) as [a|] eqn:Ef; inversion E; subst.
  - destruct (submit_answer _ _ _ _ Ef) as (text & d & -> & Hv & Hd).
    apply Hok; [|exact Hv].
    destruct Hd as [->|[-> (e & Hin & He)]]; [now left | right].
    split; [reflexivity|]. intros Hnever.
    specialize (Hnever message w e). rewrite Eh in Hnever.
    rewrite (Hnever Hin) in He. discriminate He.
  - exact Hint.
Qed.

End Lines.

Ltac wp_step_lines :=
  lazymatch goal with
  | |- wp (input _ _ _) _ _ =>
      let w := fresh "w" in
      let a := fresh "text" in
      let d := fresh "default" in
      let D := fresh "Edefault" in
      let N := fresh "Herased" in
      let E := fresh "Evalid" in
      apply wp_input_lines; intros w; split;
      [intros a d D E; destruct D as [D | [D N]]; subst d|];
      cbn [negb fst snd]
  | _ => wp_step
  end.

Ltac wp_run_lines := cbn [negb fst snd]; repeat wp_step_lines.

Section Requests.
Context {H : Host}.

Lemma js_or_texts (text d : string) :
  exists n, js_or (VStr text) (VStr d) = VStr n
            /\ (is_empty d = false -> is_empty n = false).
Proof.
  unfold js_or. cbn [truthy].
  destruct text as [|c text]; cbn [is_empty negb].
  - exists d. auto.
  - exists (String c text). auto.
Qed.

(** The name of the request, as the answer of its prompt. *)
Ltac name_is_text :=
  match goal with
  | |- exists n, js_or (VStr ?l) (VStr ?d) = VStr n /\ _ =>
      let n := fresh "n" in
      let Hn := fresh "Hn" in
      let Hne := fresh "Hne" in
      destruct (js_or_texts l d) as (n & Hn & Hne);
      exists n; split; [exact Hn|];
      first [ intros _; exact (Hne eq_refl)
            | let Hnever := fresh "Hnever" in intros Hnever; contradiction ]
  end.

Lemma Extended_promptUser_request (w : world H) :
  wp Extended.promptUser
    (fun t o _ =>
       match o with
       | Returned r =>
           (exists n, Extended.virtualMachineName r = VStr n
                      /\ (never_erases H -> is_empty n = false))
           /\ (endsWith (Extended.imgSelection r) ".iso"
               || endsWith (Extended.imgSelection r) ".img") = true
           /\ (Extended.networkType r = "nat"
                /\ Extended.bridgedAdapter r = VNull
               \/ exists a tool res,
                    Extended.networkType r = "bridged"
                    /\ Extended.bridgedAdapter r = VStr a
                    /\ In (Exec (ListBridgedIfs tool) res) t
                    /\ In a (discovered res))
       | _ => True
       end) w.
Proof.
  unfold Extended.promptUser.
  match goal with |- wp _ ?P _ => set (Q := P) end.
  wp_run_lines.
  all: subst Q; cbv beta; try exact I.
  all: cbn [app Extended.virtualMachineName Extended.imgSelection
            Extended.bridgedAdapter Extended.networkType].
  all: split; [name_is_text|].
  all: split;
    [ match goal with
      | E : In (_, ?v) (map _ (filter _ _)) |- (endsWith ?v _ || _) = true =>
          apply in_map_iff in E; destruct E as [x [Ex Hin]];
          inversion Ex; subst; apply filter_In in Hin; apply Hin
      end | ].
  all: cbn [Extended.networkType].
  all: try (left; split; reflexivity).
  all: right; do 3 eexists.
  all: split; [reflexivity|]; split; [reflexivity|].
  all: (split; [cbn [In]; repeat first [left; reflexivity | right]|]).
  all: unfold discovered;
    match goal with
    | Hm : Extended.adapter_names _ = Some _,
      E : In (_, ?v) (map _ (filter _ _)) |- In ?v _ =>
        rewrite Hm; apply in_map_iff in E; destruct E as [x [Ex Hin]];
        inversion Ex; subst; exact Hin
    end.
Qed.

Lemma Base_promptUser_request (w : world H) :
  wp Base.promptUser
    (fun t o _ =>
       match o with
       | Returned r =>
           (exists n, Base.virtualMachineName r = VStr n
                      /\ (never_erases H -> is_empty n = false))
           /\ endsWith (Base.isoSelection r) ".iso" = true
       | _ => True
       end) w.
Proof.
  unfold Base.promptUser.
  match goal with |- wp _ ?P _ => set (Q := P) end.
  wp_run_lines.
  all: subst Q; cbv beta; try exact I.
  all: cbn [app Base.virtualMachineName Base.isoSelection].
  all: split; [name_is_text|].
  all: match goal with
      | E : In (_, ?v) (map _ (filter _ _)) |- endsWith ?v _ = true =>
          apply in_map_iff in E; destruct E as [x [Ex Hin]];
          inversion Ex; subst; apply filter_In in Hin; apply Hin
      end.
Qed.
End Requests.

(** ** The listing of bridged interfaces *)

Lemma trim_end_idempotent (s : string) : trim_end (trim_end s) = trim_end s.
Proof.
  induction s as [|c s IH]; [reflexivity|]. cbn [trim_end].
  destruct (is_ws c && is_empty (trim_end s)) eqn:E; [reflexivity|].
  cbn [trim_end]. rewrite IH, E. reflexivity.
Qed.

Lemma trim_idempotent (s : string) : trim (trim s) = trim s.
Proof.
  unfold trim.
  pose proof (drop_while_head is_ws s) as Hh.
  destruct (drop_while is_ws s) as [|c r] eqn:Ed; [reflexivity|].
  rewrite (trim_end_head _ _ Hh). cbn [drop_while]. rewrite Hh.
  rewrite <- (trim_end_head _ r Hh). apply trim_end_idempotent.
Qed.

Lemma adapter_names_trimmed (lines names : list string) :
  Extended.adapter_names lines = Some names ->
  forall a, In a names -> trim a = a.
Proof.
  revert names. induction lines as [|line rest IH]; intros names.
  - cbn. intros E. inversion E. intros a [].
  - cbn [Extended.adapter_names].
    destruct (nth_error (split ":" line) 1) as [piece|]; [|discriminate].
    destruct (Extended.adapter_names rest) as [names'|]; [|discriminate].
    intros E. inversion E; subst. intros a [<-|Hin].
    + apply trim_idempotent.
    + exact (IH _ eq_refl a Hin).
Qed.

Lemma discovered_trimmed (res : string + error) (a : string) :
  In a (discovered res) -> is_empty a = false /\ trim a = a.
Proof.
  destruct res as [output|e]; cbn [discovered]; [|intros []].
  destruct (Extended.adapter_names (Extended.name_lines output))
    as [names|] eqn:En; [|intros []].
  intros Hin. apply filter_In in Hin. destruct Hin as [Hin Ht].
  split.
  - cbn [truthy] in Ht. now apply negb_true_iff in Ht.
  - exact (adapter_names_trimmed _ _ En a Hin).
Qed.

(** X1.  [listBridgedAdapters] executes one listing and always returns:
    the names read in the output, none when the command fails.  A name
    it returns is never empty and has no white space at either end. *)
Theorem listBridgedAdapters_never_fails (H : Host) (vboxManage : string)
    (w : world H) :
  (exists res w',
      Extended.listBridgedAdapters vboxManage w
      = ([Exec (ListBridgedIfs vboxManage) res], Returned (discovered res), w')
      /\ execSync H (render (ListBridgedIfs vboxManage)) w = (res, w'))
  /\ (forall res a, In a (discovered res) -> is_empty a = false /\ trim a = a).
Proof.
  split; [|exact discovered_trimmed].
  unfold Extended.listBridgedAdapters, try_catch, bind, exec, ret, throw.
  destruct (execSync H (render (ListBridgedIfs vboxManage)) w)
    as [[output|e] w1].
  - exists (inl output), w1. cbn [discovered].
    destruct (Extended.adapter_names (Extended.name_lines output));
      split; reflexivity.
  - exists (inr e), w1. split; reflexivity.
Qed.

Lemma listBridgedAdapters_never_fails_witness :
  let H := Scenario.host Cases.bridged in
  exists res w',
    @Extended.listBridgedAdapters H (vboxManage_path H) []
    = ([Exec (ListBridgedIfs (vboxManage_path H)) res],
       Returned (discovered res), w')
    /\ execSync H (render (ListBridgedIfs (vboxManage_path H))) [] = (res, w').
Proof.
  intros H.
  exact (proj1 (@listBridgedAdapters_never_fails H (vboxManage_path H) [])).
Defined.

(** ** The time stamp *)

Lemma below_forallb (f : N -> bool) (lo len : N) :
  forallb (fun k => f (lo + N.of_nat k)%N) (seq 0 (N.to_nat len)) = true ->
  forall n : N, (lo <= n < lo + len)%N -> f n = true.
Proof.
  intros Hall n Hn. rewrite forallb_forall in Hall.
  specialize (Hall (N.to_nat (n - lo))). rewrite N2Nat.id in Hall.
  replace (lo + (n - lo))%N with n in Hall by lia.
  apply Hall. apply in_seq. lia.
Qed.

Lemma pad2_field (n : N) : (n < 100)%N -> field_ok 2 n (pad2 n) = true.
Proof.
  intros Hn. apply (below_forallb (fun n => field_ok 2 n (pad2 n)) 0 100).
  - vm_compute. reflexivity.
  - lia.
Qed.

Lemma decimal_field (n : N) :
  (1000 <= n < 10000)%N -> field_ok 4 n (decimal n) = true.
Proof.
  intros Hn.
  apply (below_forallb (fun n => field_ok 4 n (decimal n)) 1000 9000).
  - vm_compute. reflexivity.
  - lia.
Qed.

Lemma field_ok_spec (width : nat) (n : N) (s : string) :
  field_ok width n s = true ->
  String.length s = width /\ all_chars is_digit s = true /\ digits_value s = n.
Proof.
  unfold field_ok. intros Hf. apply andb_prop in Hf. destruct Hf as [Hf Hv].
  apply andb_prop in Hf. destruct Hf as [Hl Hd].
  apply Nat.eqb_eq in Hl. apply N.eqb_eq in Hv. auto.
Qed.

(** X2.  For a date whose year has four digits, the time stamp is made of
    15 characters: the year on four digits, the month (counted from 1) and
    the day on two digits each, an underscore, and the hour, the minute
    and the second on two digits each; every field reads back as the
    number it stands for. *)
Theorem getTimestamp_fields (H : Host) (w w1 : world H) (now : date) :
  clock H w = (now, w1) ->
  (1000 <= getFullYear now < 10000)%N ->
  (getMonth now < 12)%N -> (getDate now < 32)%N ->
  (getHours now < 24)%N -> (getMinutes now < 60)%N ->
  (getSeconds now < 60)%N ->
  exists year month day hour minute second,
    getTimestamp w
    = ([], Returned (year ++ month ++ day ++ "_" ++ hour ++ minute ++ second),
       w1)
    /\ String.length year = 4%nat /\ all_chars is_digit year = true
    /\ digits_value year = getFullYear now
    /\ two_digits month (getMonth now + 1)
    /\ two_digits day (getDate now)
    /\ two_digits hour (getHours now)
    /\ two_digits minute (getMinutes now)
    /\ two_digits second (getSeconds now)
    /\ String.length (year ++ month ++ day ++ "_" ++ hour ++ minute ++ second)
       = 15%nat.
Proof.
  intros Hc Hy Hmo Hd Hh Hmi Hs.
  exists (decimal (getFullYear now)), (pad2 (getMonth now + 1)),
    (pad2 (getDate now)), (pad2 (getHours now)), (pad2 (getMinutes now)),
    (pad2 (getSeconds now)).
  destruct (field_ok_spec _ _ _ (decimal_field _ Hy)) as (Ly & Dy & Vy).
  assert (Hmo' : (getMonth now + 1 < 100)%N) by lia.
  assert (Hd' : (getDate now < 100)%N) by lia.
  assert (Hh' : (getHours now < 100)%N) by lia.
  assert (Hmi' : (getMinutes now < 100)%N) by lia.
  assert (Hs' : (getSeconds now < 100)%N) by lia.
  pose proof (field_ok_spec _ _ _ (pad2_field _ Hmo')) as Fmo.
  pose proof (field_ok_spec _ _ _ (pad2_field _ Hd')) as Fd.
  pose proof (field_ok_spec _ _ _ (pad2_field _ Hh')) as Fh.
  pose proof (field_ok_spec _ _ _ (pad2_field _ Hmi')) as Fmi.
  pose proof (field_ok_spec _ _ _ (pad2_field _ Hs')) as Fs.
  split.
  { unfold getTimestamp, bind, new_Date, ret. rewrite Hc. reflexivity. }
  repeat (split; [assumption|]).
  rewrite !length_append. cbn [String.length].
  destruct Fmo as [-> _], Fd as [-> _], Fh as [-> _], Fmi as [-> _],
    Fs as [-> _]. rewrite Ly. reflexivity.
Qed.

Lemma getTimestamp_fields_witness :
  let H := Scenario.host Scenario.defaults in
  exists year month day hour minute second,
    @getTimestamp H []
    = ([], Returned (year ++ month ++ day ++ "_" ++ hour ++ minute ++ second),
       [])
    /\ String.length year = 4%nat /\ all_chars is_digit year = true
    /\ digits_value year = 2025%N
    /\ two_digits month 7
    /\ two_digits day 24
    /\ two_digits hour 13
    /\ two_digits minute 42
    /\ two_digits second 5
    /\ String.length (year ++ month ++ day ++ "_" ++ hour ++ minute ++ second)
       = 15%nat.
Proof.
  intros H.
  apply (@getTimestamp_fields H [] [] (mkDate 2025 6 24 13 42 5));
    vm_compute; first [reflexivity | split; [discriminate | reflexivity]].
Defined.

(** ** The sign of the disk size *)

Lemma accepted_text_not_negative (s : string) :
  is_valid (validate (VStr s)) = true -> not_negative (parseInt (VStr s)).
Proof.
  intros Hv. rewrite (parseInt_of_accepted _ Hv).
  destruct (is_empty (integer_digits s)); [now left|].
  unfold to_number. destruct (round_nat _) as [v|].
  - right. right. now exists v.
  - right. now left.
Qed.

Lemma accepted_answer_not_negative (text : string) (default : jsval) :
  default = VNum hddSizeGBDefault \/ default = VStr EmptyString ->
  is_valid (validate (js_or (VStr text) default)) = true ->
  not_negative (hddSizeGB_of (js_or (VStr text) default)).
Proof.
  unfold js_or, hddSizeGB_of. destruct (truthy (VStr text)).
  - intros _. apply accepted_text_not_negative.
  - intros [->| ->].
    + intros _. right. right. exists 10%N. reflexivity.
    + apply accepted_text_not_negative.
Qed.

(** ** Prefixes and occurrences *)

Lemma strip_prefix_append (p rest : string) :
  strip_prefix p (p ++ rest) = Some rest.
Proof.
  induction p as [|a p IH]; [reflexivity|]. cbn [append strip_prefix].
  now rewrite Ascii.eqb_refl.
Qed.

Lemma match_folder_of_here (s capture : string) :
  match_folder_here s = Some capture -> match_folder s = Some capture.
Proof.
  destruct s as [|c s]; [cbn; discriminate|].
  cbn [match_folder]. now intros ->.
Qed.

Lemma prefix_spec (p s : string) :
  String.prefix p s = true <-> exists rest, s = p ++ rest.
Proof.
  revert s. induction p as [|a p IH]; intros s.
  - destruct s; cbn; split; eauto.
  - destruct s as [|b s]; cbn [String.prefix append].
    + split; [discriminate | intros [rest Hr]; discriminate Hr].
    + destruct (Ascii.ascii_dec a b) as [->|Hab].
      * rewrite IH. split; intros [rest Hr]; exists rest.
        -- now rewrite Hr.
        -- now inversion Hr.
      * split; [discriminate|]. intros [rest Hr]. congruence.
Qed.

Lemma includes_spec (s sub : string) :
  includes s sub = true <-> exists before after, s = before ++ sub ++ after.
Proof.
  induction s as [|c s IH].
  - cbn [includes]. rewrite orb_false_r, prefix_spec. split.
    + intros [rest Hr]. exists EmptyString, rest. exact Hr.
    + intros [before [after Hr]]. destruct before; [eauto | discriminate Hr].
  - cbn [includes]. rewrite orb_true_iff, prefix_spec, IH. split.
    + intros [[rest Hr] | [before [after Hr]]].
      * exists EmptyString, rest. exact Hr.
      * exists (String c before), after. cbn [append]. now rewrite Hr.
    + intros [before [after Hr]]. destruct before as [|b before].
      * left. eauto.
      * right. exists before, after. cbn [append] in Hr. now inversion Hr.
Qed.

(** ** More on the prompts and on the collision *)

Section Sizes.
Context {H : Host}.

Lemma Extended_promptUser_size (w : world H) :
  wp Extended.promptUser
    (fun _ o _ =>
       match o with
       | Returned r => not_negative (Extended.hddSizeGB r)
       | _ => True
       end) w.
Proof.
  unfold Extended.promptUser.
  match goal with |- wp _ ?P _ => set (Q := P) end.
  wp_run_lines.
  all: subst Q; cbv beta; try exact I.
  all: cbn [Extended.hddSizeGB]; apply accepted_answer_not_negative;
    [first [left; reflexivity | right; reflexivity] | assumption].
Qed.

Lemma Base_promptUser_size (w : world H) :
  wp Base.promptUser
    (fun _ o _ =>
       match o with
       | Returned r => not_negative (Base.hddSizeGB r)
       | _ => True
       end) w.
Proof.
  unfold Base.promptUser.
  match goal with |- wp _ ?P _ => set (Q := P) end.
  wp_run_lines.
  all: subst Q; cbv beta; try exact I.
  all: cbn [Base.hddSizeGB]; apply accepted_answer_not_negative;
    [first [left; reflexivity | right; reflexivity] | assumption].
Qed.

Lemma Extended_provision_proceeds (r : Extended.request) (w : world H) :
  wp (Extended.provision r)
    (fun t _ _ =>
       forall tool listing,
         In (Exec (ListVms tool) (inl listing)) t ->
         includes listing (quoted (ToString (Extended.virtualMachineName r)))
         = false ->
         exists res,
           In (Exec (CreateVm tool (Extended.virtualMachineName r)
                       (Extended.vmFolder r)) res) t) w.
Proof.
  destruct r as [name img size folder nt ad].
  unfold Extended.provision;
    cbn [Extended.networkType Extended.bridgedAdapter Extended.vmFolder
         Extended.virtualMachineName Extended.hddSizeGB Extended.imgSelection].
  match goal with |- wp _ ?P _ => set (Q := P) end.
  wp_run.
  all: subst Q; cbv beta; intros tool listing Hin Hincl.
  all: in_cases Hin; inversion Hin; subst.
  all: try congruence.
  all: eexists; cbn [In app]; repeat first [left; reflexivity | right].
Qed.

Lemma Base_provision_proceeds (r : Base.request) (w : world H) :
  wp (Base.provision r)
    (fun t _ _ =>
       forall tool listing,
         In (Exec (ListVms tool) (inl listing)) t ->
         includes listing (quoted (ToString (Base.virtualMachineName r)))
         = false ->
         exists res,
           In (Exec (CreateVm tool (Base.virtualMachineName r)
                       (Base.vmFolder r)) res) t) w.
Proof.
  destruct r as [name img size folder].
  unfold Base.provision;
    cbn [Base.vmFolder Base.virtualMachineName Base.hddSizeGB
         Base.isoSelection].
  match goal with |- wp _ ?P _ => set (Q := P) end.
  wp_run.
  all: subst Q; cbv beta; intros tool listing Hin Hincl.
  all: in_cases Hin; inversion Hin; subst.
  all: try congruence.
  all: eexists; cbn [In app]; repeat first [left; reflexivity | right].
Qed.

Lemma Base_provision_no_prompt (r : Base.request) (w : world H) :
  wp (Base.provision r)
    (fun t _ _ =>
       forall e, In e t ->
         match e with Log _ _ | Exec _ _ => True | _ => False end) w.
Proof.
  unfold Base.provision.
  match goal with |- wp _ ?P _ => set (Q := P) end.
  wp_run.
  all: subst Q; cbv beta; intros ev Hin.
  all: cbn [In app] in Hin;
    repeat (destruct Hin as [Hin|Hin]; [subst ev; exact I|]); contradiction.
Qed.

End Sizes.

(** ** Runs that stop before the first command *)

Lemma last_app_nonempty {A} (l1 l2 : list A) (d : A) :
  l2 <> [] -> last (l1 ++ l2)%list d = last l2 d.
Proof.
  intros Hne. induction l1 as [|a l1 IH]; [reflexivity|].
  cbn [app]. destruct (l1 ++ l2)%list eqn:E.
  - apply app_eq_nil in E. destruct E as [_ E]. contradiction.
  - rewrite <- IH. reflexivity.
Qed.

(** X3.  When the folder of images does not exist ([iso] in the base
    variant, [installerImages] in the extended one), the whole run is one
    message that asks for the folder, and the process exits with status 1:
    nothing is asked and no command is executed. *)
Theorem missing_folder_exits (H : Host) (w w1 : world H) :
  (existsSync H (@Base.isoFolder H) w = (false, w1) ->
   Base.main w =
   ([Log Failure
       "'iso' folder not found. Please create a folder named 'iso' and place your ISOs there."],
    Status 1, w1))
  /\ (existsSync H (@Extended.installerImagesFolder H) w = (false, w1) ->
      Extended.main w =
      ([Log Failure
          "'installerImages' folder not found. Please create a folder named 'installerImages' and place your ISOs and IMG files there."],
       Status 1, w1)).
Proof.
  split; intros Hex.
  - unfold Base.main, run_script, Base.setupVM, Base.promptUser,
      Base.getAvailableISOs, bind, fs_existsSync, logError, log, exit.
    rewrite Hex. reflexivity.
  - unfold Extended.main, run_script, Extended.setupVM, Extended.promptUser,
      Extended.getAvailableInstallerImages, bind, fs_existsSync, logError,
      log, exit.
    rewrite Hex. reflexivity.
Qed.

Lemma missing_folder_exits_witness :
  let H := Scenario.host (Cases.installation false true true) in
  snd (fst (@Base.main H [])) = Status 1
  /\ snd (fst (@Extended.main H [])) = Status 1.
Proof.
  intros H. destruct (missing_folder_exits H [] []) as [Hb He].
  rewrite Hb by reflexivity. rewrite He by reflexivity.
  split; reflexivity.
Defined.

(** X4.  [checkVBoxManage] returns the path of the executable when the
    file exists; otherwise it prints two messages and exits with status 1.
    When the file is missing once the prompts are answered, the run ends
    there with status 1 and has issued no provisioning command (both
    variants). *)
Theorem missing_tool_exits (H : Host) (w w1 w2 : world H) (t1 : list event) :
  let messages :=
    [Log Failure ("Failed: VBoxManage not found at: " ++ virtualBoxPath);
     Log Failure "Please install VirtualBox or provide the correct path."] in
  (forall w0 b w',
      existsSync H (vboxManage_path H) w0 = (b, w') ->
      checkVBoxManage w0 =
      if b then ([], Returned (vboxManage_path H), w')
      else (messages, Exited 1, w'))
  /\ (forall r,
         Extended.promptUser w = (t1, Returned r, w1) ->
         existsSync H (vboxManage_path H) w1 = (false, w2) ->
         Extended.main w = ((t1 ++ messages)%list, Status 1, w2)
         /\ provisioning (t1 ++ messages)%list = [])
  /\ (forall r,
         Base.promptUser w = (t1, Returned r, w1) ->
         existsSync H (vboxManage_path H) w1 = (false, w2) ->
         Base.main w = ((t1 ++ messages)%list, Status 1, w2)
         /\ provisioning (t1 ++ messages)%list = []).
Proof.
  intros messages.
  assert (Hcheck : forall w0 b w',
             existsSync H (vboxManage_path H) w0 = (b, w') ->
             checkVBoxManage w0 =
             if b then ([], Returned (vboxManage_path H), w')
             else (messages, Exited 1, w')).
  { intros w0 b w' Hex.
    unfold checkVBoxManage, bind, fs_existsSync, logError, log, exit, ret.
    unfold vboxManage_path in Hex. rewrite Hex. destruct b; reflexivity. }
  split; [exact Hcheck|]. split; intros r Hp Hex.
  - split.
    + unfold Extended.main, run_script, Extended.setupVM, bind. rewrite Hp.
      unfold Extended.provision, bind. rewrite (Hcheck _ _ _ Hex). reflexivity.
    + destruct (Extended_promptUser_spec w _ _ _ Hp) as [Hprobes _].
      now rewrite provisioning_app, (only_probes_provisioning _ Hprobes).
  - split.
    + unfold Base.main, run_script, Base.setupVM, bind. rewrite Hp.
      unfold Base.provision, bind. rewrite (Hcheck _ _ _ Hex). reflexivity.
    + destruct (Base_promptUser_spec w _ _ _ Hp) as [Hprobes _].
      now rewrite provisioning_app, (only_probes_provisioning _ Hprobes).
Qed.

Lemma missing_tool_exits_witness :
  let H := Scenario.host (Cases.installation true false true) in
  snd (fst (@Extended.main H [])) = Status 1
  /\ snd (fst (@Base.main H [])) = Status 1.
Proof.
  intros H.
  pose (pe := @Extended.promptUser H []).
  pose (pb := @Base.promptUser H []).
  destruct (missing_tool_exits H [] (snd pe) (snd pe) (fst (fst pe)))
    as (_ & Hext & _).
  destruct (missing_tool_exits H [] (snd pb) (snd pb) (fst (fst pb)))
    as (_ & _ & Hbase).
  destruct (Hext (Extended.mkRequest (VStr "TwinCAT_VM_20250724_134205")
                    "tcbsd.iso" (Dec false 10 0) (VStr "C:\VMs") "nat" VNull))
    as [Hm _]; [vm_compute; reflexivity | vm_compute; reflexivity |].
  destruct (Hbase (Base.mkRequest (VStr "TwinCAT_BSD_20250724_134205")
                     "tcbsd.iso" (Dec false 10 0) (VStr "C:\VMs")))
    as [Hm' _]; [vm_compute; reflexivity | vm_compute; reflexivity |].
  rewrite Hm, Hm'. split; reflexivity.
Defined.

(** X5.  When the executable is there and the chosen image is no longer
    in its folder once the prompts are answered, the run prints the
    message that names the image and exits with status 1; the machines are
    not even listed, and no provisioning command is issued (both
    variants). *)
Theorem missing_image_exits (H : Host) (w w1 w2 w3 : world H)
    (t1 : list event) :
  (forall r,
      Extended.promptUser w = (t1, Returned r, w1) ->
      existsSync H (vboxManage_path H) w1 = (true, w2) ->
      existsSync H
        (path_join H [@Extended.installerImagesFolder H;
                      Extended.imgSelection r]) w2 = (false, w3) ->
      let message :=
        Log Failure ("Failed: Missing TC image: " ++ Extended.imgSelection r) in
      Extended.main w = ((t1 ++ [message])%list, Status 1, w3)
      /\ provisioning (t1 ++ [message])%list = [])
  /\ (forall r,
         Base.promptUser w = (t1, Returned r, w1) ->
         existsSync H (vboxManage_path H) w1 = (true, w2) ->
         existsSync H
           (path_join H [@Base.isoFolder H; Base.isoSelection r]) w2
         = (false, w3) ->
         let message :=
           Log Failure ("Failed: Missing TCBSD image: " ++ Base.isoSelection r)
         in
         Base.main w = ((t1 ++ [message])%list, Status 1, w3)
         /\ provisioning (t1 ++ [message])%list = []).
Proof.
  split; intros r Hp Htool Himg message.
  - split.
    + unfold Extended.main, run_script, Extended.setupVM, bind. rewrite Hp.
      unfold Extended.provision, checkVBoxManage, bind, fs_existsSync,
        logError, log, exit, ret.
      unfold vboxManage_path in Htool. rewrite Htool. cbn [negb].
      rewrite Himg. reflexivity.
    + destruct (Extended_promptUser_spec w _ _ _ Hp) as [Hprobes _].
      now rewrite provisioning_app, (only_probes_provisioning _ Hprobes).
  - split.
    + unfold Base.main, run_script, Base.setupVM, bind. rewrite Hp.
      unfold Base.provision, checkVBoxManage, bind, fs_existsSync,
        logError, log, exit, ret.
      unfold vboxManage_path in Htool. rewrite Htool. cbn [negb].
      rewrite Himg. reflexivity.
    + destruct (Base_promptUser_spec w _ _ _ Hp) as [Hprobes _].
      now rewrite provisioning_app, (only_probes_provisioning _ Hprobes).
Qed.

Lemma missing_image_exits_witness :
  let H := Scenario.host (Cases.installation true true false) in
  snd (fst (@Extended.main H [])) = Status 1
  /\ snd (fst (@Base.main H [])) = Status 1.
Proof.
  intros H.
  pose (pe := @Extended.promptUser H []).
  pose (pb := @Base.promptUser H []).
  destruct (missing_image_exits H [] (snd pe) (snd pe) (snd pe) (fst (fst pe)))
    as (Hext & _).
  destruct (missing_image_exits H [] (snd pb) (snd pb) (snd pb) (fst (fst pb)))
    as (_ & Hbase).
  destruct (Hext (Extended.mkRequest (VStr "TwinCAT_VM_20250724_134205")
                    "tcbsd.iso" (Dec false 10 0) (VStr "C:\VMs") "nat" VNull))
    as [Hm _];
    [vm_compute; reflexivity | vm_compute; reflexivity
     | vm_compute; reflexivity |].
  destruct (Hbase (Base.mkRequest (VStr "TwinCAT_BSD_20250724_134205")
                     "tcbsd.iso" (Dec false 10 0) (VStr "C:\VMs")))
    as [Hm' _];
    [vm_compute; reflexivity | vm_compute; reflexivity
     | vm_compute; reflexivity |].
  rewrite Hm, Hm'. split; reflexivity.
Defined.

(** X6.  A run in which the operator interrupts a prompt ends with the
    rejection of that prompt, and what it has executed are listings only:
    no provisioning command (both variants). *)
Theorem interrupt_precedes_provisioning (H : Host) (w : world H)
    (t : list event) (o : outcome unit) (w' : world H) (message : string) :
  In (Interrupt message) t ->
  (Extended.setupVM w = (t, o, w') ->
   o = Thrown ExitPromptError /\ only_probes t /\ provisioning t = [])
  /\ (Base.setupVM w = (t, o, w') ->
      o = Thrown ExitPromptError /\ only_probes t /\ provisioning t = []).
Proof.
  intros Hin. split; intros Hs.
  - unfold Extended.setupVM in Hs. apply bind_inversion in Hs.
    destruct Hs as [(r & t1 & w1 & t2 & Hp & Hpr & ->)
                   | [(c & Hp & ->) | (e' & Hp & ->)]].
    + apply in_app_or in Hin. destruct Hin as [Hin|Hin].
      * pose proof (Extended_promptUser_interrupt w _ _ _ Hp _ Hin) as Habs.
        discriminate Habs.
      * destruct (Extended_provision_no_interrupt r w1 _ _ _ Hpr _ Hin).
    + pose proof (Extended_promptUser_interrupt w _ _ _ Hp _ Hin) as Habs.
      discriminate Habs.
    + pose proof (Extended_promptUser_interrupt w _ _ _ Hp _ Hin) as Habs.
      inversion Habs; subst.
      destruct (Extended_promptUser_spec w _ _ _ Hp) as [Hprobes _].
      repeat split; [exact Hprobes | now apply only_probes_provisioning].
  - unfold Base.setupVM in Hs. apply bind_inversion in Hs.
    destruct Hs as [(r & t1 & w1 & t2 & Hp & Hpr & ->)
                   | [(c & Hp & ->) | (e' & Hp & ->)]].
    + apply in_app_or in Hin. destruct Hin as [Hin|Hin].
      * pose proof (Base_promptUser_interrupt w _ _ _ Hp _ Hin) as Habs.
        discriminate Habs.
      * destruct (Base_provision_no_interrupt r w1 _ _ _ Hpr _ Hin).
    + pose proof (Base_promptUser_interrupt w _ _ _ Hp _ Hin) as Habs.
      discriminate Habs.
    + pose proof (Base_promptUser_interrupt w _ _ _ Hp _ Hin) as Habs.
      inversion Habs; subst.
      destruct (Base_promptUser_spec w _ _ _ Hp) as [Hprobes _].
      repeat split; [exact Hprobes | now apply only_probes_provisioning].
Qed.

Lemma interrupt_precedes_provisioning_witness :
  let H := Scenario.host Scenario.interrupted in
  provisioning (fst (fst (@Extended.setupVM H []))) = []
  /\ provisioning (fst (fst (@Base.setupVM H []))) = [].
Proof.
  intros H.
  pose (e := @Extended.setupVM H []).
  pose (b := @Base.setupVM H []).
  destruct (interrupt_precedes_provisioning H [] (fst (fst e)) (snd (fst e))
              (snd e) "Enter Virtual Machine Name:") as [Hext _];
    [vm_compute; tauto|].
  destruct (interrupt_precedes_provisioning H [] (fst (fst b)) (snd (fst b))
              (snd b) "Enter Virtual Machine Name:") as [_ Hbase];
    [vm_compute; tauto|].
  destruct Hext as (_ & _ & Hn); [vm_compute; reflexivity|].
  destruct Hbase as (_ & _ & Hn'); [vm_compute; reflexivity|].
  split; assumption.
Defined.

(** ** Failing commands and the order of the commands *)

Section Commands.
Context {H : Host}.

Lemma Base_promptUser_commands (w : world H) :
  wp Base.promptUser
    (fun t _ _ => forall c res, In (Exec c res) t -> c = ListSystemProperties)
    w.
Proof.
  unfold Base.promptUser.
  match goal with |- wp _ ?P _ => set (Q := P) end.
  wp_run.
  all: subst Q; cbv beta; intros cmd res Hin.
  all: in_cases Hin; inversion Hin; reflexivity.
Qed.

Lemma In_provisioning (c : command) (res : string + error) (t : list event) :
  In (Exec c res) t -> is_query c = false -> In c (provisioning t).
Proof.
  intros Hin Hq. induction t as [|e t IH]; [destruct Hin|].
  destruct Hin as [->|Hin].
  - cbn [provisioning]. rewrite Hq. now left.
  - specialize (IH Hin). cbn [provisioning].
    destruct e as [| c' r' | | |]; try exact IH.
    destruct (is_query c'); [exact IH | now right].
Qed.

End Commands.

(** X7.  Nothing follows a failing command, and nothing is undone.  When
    a command fails, other than the listings of the prompts (system
    properties, and the bridged interfaces of the extended variant), it is
    the last event of the run and [setupVM] rejects with the error of that
    command; unless the error is an [ExitPromptError], the listener throws
    it again and the process ends on it.  In the base variant this holds
    for the listing of bridged interfaces too, which runs when the machine
    is created already. *)
Theorem failing_command_ends_run (H : Host) (w : world H) (t : list event)
    (o : outcome unit) (w' : world H) (c : command) (e : error) :
  In (Exec c (inr e)) t ->
  (Extended.setupVM w = (t, o, w') ->
   probe_event (Exec c (inr e)) = false ->
   o = Thrown e
   /\ last t (Log Info EmptyString) = Exec c (inr e)
   /\ (error_name e <> "ExitPromptError" ->
       Extended.main w = (t, Fatal e, w')))
  /\ (Base.setupVM w = (t, o, w') ->
      c <> ListSystemProperties ->
      o = Thrown e
      /\ last t (Log Info EmptyString) = Exec c (inr e)
      /\ (error_name e <> "ExitPromptError" ->
          Base.main w = (t, Fatal e, w'))).
Proof.
  intros Hin.
  assert (Hlistener : forall w0 : world H,
             error_name e <> "ExitPromptError" ->
             on_uncaughtException e w0 = ([], Thrown e, w0)).
  { intros w0 Hne. unfold on_uncaughtException.
    apply String.eqb_neq in Hne. rewrite Hne, andb_false_r. reflexivity. }
  split; intros Hs Hc.
  - assert (Hmain : o = Thrown e -> error_name e <> "ExitPromptError" ->
                    Extended.main w = (t, Fatal e, w')).
    { intros -> Hne. unfold Extended.main, run_script. rewrite Hs.
      rewrite (Hlistener _ Hne). now rewrite app_nil_r. }
    unfold Extended.setupVM in Hs. pose proof Hs as Hs'.
    apply bind_inversion in Hs'.
    assert (Hno : forall t1 o1 w1,
               Extended.promptUser w = (t1, o1, w1) ->
               ~ In (Exec c (inr e)) t1).
    { intros t1 o1 w1 Hp Hin1.
      destruct (Extended_promptUser_spec w _ _ _ Hp) as [Hprobes _].
      apply (only_probes_In _ _ Hprobes) in Hin1. congruence. }
    destruct Hs' as [(r & t1 & w1 & t2 & Hp & Hpr & ->)
                    | [(c0 & Hp & ->) | (e' & Hp & ->)]].
    + apply in_app_or in Hin. destruct Hin as [Hin|Hin];
        [destruct (Hno _ _ _ Hp Hin)|].
      destruct (Extended_provision_fails_fast r w1 _ _ _ Hpr _ _ Hin)
        as [-> Hlast].
      assert (Hl : last (t1 ++ t2)%list (Log Info EmptyString)
                   = Exec c (inr e)).
      { rewrite last_app_nonempty; [exact Hlast|].
        intros ->. destruct Hin. }
      repeat split; [exact Hl | now apply Hmain].
    + destruct (Hno _ _ _ Hp Hin).
    + destruct (Hno _ _ _ Hp Hin).
  - assert (Hmain : o = Thrown e -> error_name e <> "ExitPromptError" ->
                    Base.main w = (t, Fatal e, w')).
    { intros -> Hne. unfold Base.main, run_script. rewrite Hs.
      rewrite (Hlistener _ Hne). now rewrite app_nil_r. }
    unfold Base.setupVM in Hs. pose proof Hs as Hs'.
    apply bind_inversion in Hs'.
    assert (Hno : forall t1 o1 w1,
               Base.promptUser w = (t1, o1, w1) ->
               ~ In (Exec c (inr e)) t1).
    { intros t1 o1 w1 Hp Hin1.
      apply Hc. exact (Base_promptUser_commands w _ _ _ Hp _ _ Hin1). }
    destruct Hs' as [(r & t1 & w1 & t2 & Hp & Hpr & ->)
                    | [(c0 & Hp & ->) | (e' & Hp & ->)]].
    + apply in_app_or in Hin. destruct Hin as [Hin|Hin];
        [destruct (Hno _ _ _ Hp Hin)|].
      destruct (Base_provision_fails_fast r w1 _ _ _ Hpr _ _ Hin)
        as [-> Hlast].
      assert (Hl : last (t1 ++ t2)%list (Log Info EmptyString)
                   = Exec c (inr e)).
      { rewrite last_app_nonempty; [exact Hlast|].
        intros ->. destruct Hin. }
      repeat split; [exact Hl | now apply Hmain].
    + destruct (Hno _ _ _ Hp Hin).
    + destruct (Hno _ _ _ Hp Hin).
Qed.

Lemma failing_command_ends_run_witness :
  let H := Scenario.host Scenario.listings_fail in
  snd (fst (@Extended.main H [])) = Fatal Scenario.command_failed
  /\ snd (fst (@Base.main H [])) = Fatal Scenario.command_failed.
Proof.
  intros H.
  pose (e := @Extended.setupVM H []).
  pose (b := @Base.setupVM H []).
  destruct (failing_command_ends_run H [] (fst (fst e)) (snd (fst e)) (snd e)
              (ListVms (vboxManage_path H)) Scenario.command_failed)
    as [Hext _]; [vm_compute; tauto|].
  destruct (failing_command_ends_run H [] (fst (fst b)) (snd (fst b)) (snd b)
              (ListVms (vboxManage_path H)) Scenario.command_failed)
    as [_ Hbase]; [vm_compute; tauto|].
  destruct Hext as (_ & _ & Hm); [vm_compute; reflexivity | reflexivity |].
  destruct Hbase as (_ & _ & Hm'); [vm_compute; reflexivity | discriminate |].
  rewrite Hm, Hm'; [split; reflexivity | discriminate | discriminate].
Defined.

(** X8.  Whatever the outcome of a run, the provisioning commands it has
    executed are an initial part of one fixed sequence: create, hardware,
    network, convert, controller, attach the installer on port 1, create
    the disk, attach the disk on port 0, start.  The base variant may
    leave the network step out, and nothing else. *)
Theorem commands_follow_sequence (H : Host) (w : world H) (t : list event)
    (o : outcome unit) (w' : world H) :
  (Extended.setupVM w = (t, o, w') ->
   exists k, steps t = firstn k full_sequence)
  /\ (Base.setupVM w = (t, o, w') ->
      exists k, steps t = firstn k full_sequence
                \/ steps t = firstn k sequence_without_network).
Proof.
  split; intros Hs.
  - unfold Extended.setupVM in Hs. apply bind_inversion in Hs.
    destruct Hs as [(r & t1 & w1 & t2 & Hp & Hpr & ->)
                   | [(c0 & Hp & ->) | (e' & Hp & ->)]].
    + destruct (Extended_promptUser_spec w _ _ _ Hp) as [Hprobes Hr].
      cbv beta iota in Hr. destruct Hr as (_ & Hnet & _).
      rewrite steps_app, (only_probes_steps _ Hprobes). cbn [app].
      apply (Extended_provision_steps r w1) with (o := o) (w' := w');
        [|exact Hpr].
      intros Hb. destruct Hnet as [[Hnat _]|[_ Had]]; [congruence|exact Had].
    + destruct (Extended_promptUser_spec w _ _ _ Hp) as [Hprobes _].
      exists 0%nat. now rewrite (only_probes_steps _ Hprobes).
    + destruct (Extended_promptUser_spec w _ _ _ Hp) as [Hprobes _].
      exists 0%nat. now rewrite (only_probes_steps _ Hprobes).
  - unfold Base.setupVM in Hs. apply bind_inversion in Hs.
    destruct Hs as [(r & t1 & w1 & t2 & Hp & Hpr & ->)
                   | [(c0 & Hp & ->) | (e' & Hp & ->)]].
    + destruct (Base_promptUser_spec w _ _ _ Hp) as [Hprobes _].
      rewrite steps_app, (only_probes_steps _ Hprobes). cbn [app].
      exact (Base_provision_steps r w1 _ _ _ Hpr).
    + destruct (Base_promptUser_spec w _ _ _ Hp) as [Hprobes _].
      exists 0%nat. left. now rewrite (only_probes_steps _ Hprobes).
    + destruct (Base_promptUser_spec w _ _ _ Hp) as [Hprobes _].
      exists 0%nat. left. now rewrite (only_probes_steps _ Hprobes).
Qed.

Lemma commands_follow_sequence_witness :
  let H := Scenario.host Cases.bridged in
  (exists k, steps (fst (fst (@Extended.setupVM H [])))
             = firstn k full_sequence)
  /\ (exists k, steps (fst (fst (@Base.setupVM H [])))
                = firstn k full_sequence
                \/ steps (fst (fst (@Base.setupVM H [])))
                   = firstn k sequence_without_network).
Proof.
  intros H.
  pose (e := @Extended.setupVM H []).
  pose (b := @Base.setupVM H []).
  destruct (commands_follow_sequence H [] (fst (fst e)) (snd (fst e)) (snd e))
    as [Hext _].
  destruct (commands_follow_sequence H [] (fst (fst b)) (snd (fst b)) (snd b))
    as [_ Hbase].
  split; [apply Hext | apply Hbase]; vm_compute; reflexivity.
Defined.

(** ** The default folder, the request and the name collision *)

Lemma append_assoc (a b c : string) : (a ++ b) ++ c = a ++ b ++ c.
Proof.
  induction a as [|x a IH]; [reflexivity|]. cbn [append]. now rewrite IH.
Qed.

Lemma strip_prefix_within (p a r x : string) :
  strip_prefix p (a ++ r) = Some x ->
  (String.length p <= String.length a)%nat ->
  exists q, a = p ++ q.
Proof.
  revert a. induction p as [|c p IH]; intros a Hs Hlen.
  - exists a. reflexivity.
  - destruct a as [|d a]; [cbn in Hlen; lia|].
    cbn [append strip_prefix] in Hs.
    destruct (Ascii.eqb_spec c d) as [->|]; [|discriminate].
    cbn [String.length] in Hlen.
    destruct (IH a Hs ltac:(lia)) as [q ->]. exists q. reflexivity.
Qed.

Lemma length_trim_end (s : string) :
  (String.length (trim_end s) <= String.length s)%nat.
Proof.
  induction s as [|c s IH]; [cbn; lia|]. cbn [trim_end].
  destruct (is_ws c && is_empty (trim_end s)); cbn [String.length]; lia.
Qed.

Lemma length_drop_while (p : ascii -> bool) (s : string) :
  (String.length (drop_while p s) <= String.length s)%nat.
Proof.
  induction s as [|c s IH]; [cbn; lia|]. cbn [drop_while].
  destruct (p c); cbn [String.length]; lia.
Qed.

Lemma trimmed_head (c : ascii) (s : string) :
  trim (String c s) = String c s -> is_ws c = false.
Proof.
  intros Ht. destruct (is_ws c) eqn:Hc; [|reflexivity].
  unfold trim in Ht. cbn [drop_while] in Ht. rewrite Hc in Ht.
  apply (f_equal String.length) in Ht. cbn [String.length] in Ht.
  pose proof (length_trim_end (drop_while is_ws s)).
  pose proof (length_drop_while is_ws s). lia.
Qed.

Lemma match_folder_first (before rest capture : string) :
  occurs_before before folder_label = false ->
  match_folder_here (folder_label ++ rest) = Some capture ->
  match_folder (before ++ folder_label ++ rest) = Some capture.
Proof.
  intros Hfirst Hhere. induction before as [|c before IH].
  - now apply match_folder_of_here.
  - cbn [occurs_before] in Hfirst. apply orb_false_elim in Hfirst.
    destruct Hfirst as [Hprefix Hfirst].
    cbn [append match_folder].
    assert (Hnone : match_folder_here
                      (String c (before ++ folder_label ++ rest)) = None).
    { unfold match_folder_here.
      change "Default machine folder:" with folder_label.
      destruct (strip_prefix folder_label
                  (String c (before ++ folder_label ++ rest))) as [x|] eqn:Es;
        [|reflexivity].
      change (String c (before ++ folder_label ++ rest))
        with (String c before ++ folder_label ++ rest) in Es.
      rewrite <- append_assoc in Es.
      apply strip_prefix_within in Es.
      - apply prefix_spec in Es. rewrite Es in Hprefix. discriminate Hprefix.
      - rewrite length_append. lia. }
    rewrite Hnone. exact (IH Hfirst).
Qed.

Lemma match_folder_here_line (spaces path after : string) :
  is_empty spaces = false ->
  all_chars is_ws spaces = true ->
  is_empty path = false ->
  trim path = path ->
  all_chars (fun c => negb (is_line_terminator c)) path = true ->
  match after with
  | EmptyString => True
  | String c _ => is_line_terminator c = true
  end ->
  match_folder_here (folder_label ++ spaces ++ path ++ after) = Some path.
Proof.
  intros Hsp Hws Hne Htrim Hline Hafter.
  unfold match_folder_here.
  change "Default machine folder:" with folder_label.
  rewrite strip_prefix_append.
  destruct spaces as [|c sp]; [discriminate Hsp|].
  destruct path as [|d path]; [discriminate Hne|].
  pose proof (trimmed_head _ _ Htrim) as Hd.
  cbn [append]. pose proof Hws as Hws'. cbn [all_chars] in Hws'.
  apply andb_prop in Hws'. destruct Hws' as [Hc _]. rewrite Hc.
  destruct (take_while_all is_ws (String c sp) (String d (path ++ after))
              Hws Hd) as [_ Hdrop].
  cbn [append] in Hdrop. rewrite Hdrop.
  destruct (take_while_all (fun x => negb (is_line_terminator x))
              (String d path) after Hline) as [Htake _].
  { destruct after as [|a after]; [exact I|]. now rewrite Hafter. }
  cbn [append] in Htake. now rewrite Htake.
Qed.

(** X9.  When the listing of system properties holds the label, for the
    first time, followed by white space and by a path that runs to the
    end of its line and has no white space at either end, the default
    folder is that very path. *)
Theorem reported_folder_is_offered (H : Host) (w w1 : world H)
    (before spaces path after : string) :
  execSync H (render ListSystemProperties) w
  = (inl (before ++ folder_label ++ spaces ++ path ++ after), w1) ->
  occurs_before before folder_label = false ->
  is_empty spaces = false ->
  all_chars is_ws spaces = true ->
  is_empty path = false ->
  trim path = path ->
  all_chars (fun c => negb (is_line_terminator c)) path = true ->
  match after with
  | EmptyString => True
  | String c _ => is_line_terminator c = true
  end ->
  getDefaultVMFolder w
  = ([Exec ListSystemProperties
        (inl (before ++ folder_label ++ spaces ++ path ++ after))],
     Returned (VStr path), w1).
Proof.
  intros Hex Hfirst Hsp Hws Hne Htrim Hline Hafter.
  unfold getDefaultVMFolder, try_catch, bind, exec, ret. rewrite Hex.
  rewrite (match_folder_first before _ path Hfirst
             (match_folder_here_line _ _ _ Hsp Hws Hne Htrim Hline Hafter)).
  now rewrite Htrim.
Qed.

Lemma reported_folder_is_offered_witness :
  let H := Scenario.host Scenario.defaults in
  snd (fst (@getDefaultVMFolder H [])) = Returned (VStr "C:\VMs").
Proof.
  intros H.
  rewrite (reported_folder_is_offered H [] [render ListSystemProperties]
             ("API version: 7_0" ++ String LF EmptyString)
             "          " "C:\VMs"
             (String LF "Logging history count: 3"));
    vm_compute; reflexivity.
Defined.

(** X10.  In the request that the prompts return, the name of the
    machine is a text, which is not empty unless the operator has erased
    the default of a prompt, and the image has an allowed extension:
    [.iso], or in the extended variant [.iso] or [.img]. *)
Theorem request_names_machine_and_image (H : Host) (w : world H)
    (t : list event) (w' : world H) :
  (forall r,
      Extended.promptUser w = (t, Returned r, w') ->
      (exists n, Extended.virtualMachineName r = VStr n
                 /\ (never_erases H -> is_empty n = false))
      /\ (endsWith (Extended.imgSelection r) ".iso"
          || endsWith (Extended.imgSelection r) ".img") = true)
  /\ (forall r,
         Base.promptUser w = (t, Returned r, w') ->
         (exists n, Base.virtualMachineName r = VStr n
                    /\ (never_erases H -> is_empty n = false))
         /\ endsWith (Base.isoSelection r) ".iso" = true).
Proof.
  split; intros r Hp.
  - pose proof (Extended_promptUser_request w _ _ _ Hp) as Hr.
    cbv beta iota in Hr. destruct Hr as (Hn & Hi & _). now split.
  - exact (Base_promptUser_request w _ _ _ Hp).
Qed.

(** The operators of the scripted hosts leave the defaults alone. *)
Lemma scripted_host_never_erases (s : Scenario.script) :
  never_erases (Scenario.host s).
Proof.
  intros message w e Hin. cbn [Scenario.host typed fst] in Hin.
  apply in_map_iff in Hin. destruct Hin as [text [<- _]]. reflexivity.
Qed.

Lemma request_names_machine_and_image_witness :
  let r := Extended.mkRequest (VStr "demo") "tcbsd.iso" (Dec false 20 0)
             (VStr "C:\VMs") "bridged" (VStr "Wi-Fi") in
  (exists n, Extended.virtualMachineName r = VStr n /\ is_empty n = false)
  /\ (endsWith (Extended.imgSelection r) ".iso"
      || endsWith (Extended.imgSelection r) ".img") = true.
Proof.
  intros r.
  pose (H := Scenario.host Cases.bridged).
  pose (pe := @Extended.promptUser H []).
  destruct (request_names_machine_and_image H [] (fst (fst pe)) (snd pe))
    as [Hext _].
  destruct (Hext r) as [(n & Hn & Hne) Himg]; [vm_compute; reflexivity|].
  split; [|exact Himg].
  exists n. split; [exact Hn|].
  exact (Hne (scripted_host_never_erases Cases.bridged)).
Defined.

(** The operator who erases the default name and submits the empty line
    gets a machine without name: the command that creates it reads
    [createvm --name  --basefolder]. *)
Lemma erased_default_gives_empty_name :
  snd (fst (@Extended.promptUser Cases.erasing []))
  = Returned (Extended.mkRequest (VStr EmptyString) "tcbsd.iso"
                (Dec false 10 0) (VStr "C:\VMs") "nat" VNull)
  /\ In (Exec (CreateVm (vboxManage_path Cases.erasing) (VStr EmptyString)
                 (VStr "C:\VMs")) (inl EmptyString))
        (fst (fst (@Extended.setupVM Cases.erasing [])))
  /\ ~ never_erases Cases.erasing.
Proof.
  split; [vm_compute; reflexivity|]. split; [vm_compute; tauto|].
  intros Hnever.
  specialize (Hnever "Enter Virtual Machine Name:" []
                (mkEntry EmptyString true) (or_introl eq_refl)).
  discriminate Hnever.
Qed.

(** X11.  The request of the extended variant is either for the NAT mode
    with no adapter, or for the bridged mode with an adapter that is one
    of the names read in the listing of bridged interfaces executed during
    the prompts; that name is not empty and has no white space at either
    end. *)
Theorem bridged_adapter_was_discovered (H : Host) (w : world H)
    (t : list event) (w' : world H) (r : Extended.request) :
  Extended.promptUser w = (t, Returned r, w') ->
  Extended.networkType r = "nat" /\ Extended.bridgedAdapter r = VNull
  \/ exists a tool res,
       Extended.networkType r = "bridged"
       /\ Extended.bridgedAdapter r = VStr a
       /\ In (Exec (ListBridgedIfs tool) res) t
       /\ In a (discovered res)
       /\ is_empty a = false
       /\ trim a = a.
Proof.
  intros Hp. pose proof (Extended_promptUser_request w _ _ _ Hp) as Hr.
  cbv beta iota in Hr. destruct Hr as (_ & _ & [Hnat|Hbr]); [now left|].
  right. destruct Hbr as (a & tool & res & Hn & Ha & Hin & Hd).
  exists a, tool, res. destruct (discovered_trimmed _ _ Hd). auto 10.
Qed.

Lemma bridged_adapter_was_discovered_witness :
  let H := Scenario.host Cases.bridged in
  let t := fst (fst (@Extended.promptUser H [])) in
  exists a tool res,
    In (Exec (ListBridgedIfs tool) res) t
    /\ In a (discovered res) /\ is_empty a = false /\ trim a = a.
Proof.
  intros H t.
  pose (pe := @Extended.promptUser H []).
  destruct (bridged_adapter_was_discovered H [] (fst (fst pe)) (snd pe)
              (Extended.mkRequest (VStr "demo") "tcbsd.iso" (Dec false 20 0)
                 (VStr "C:\VMs") "bridged" (VStr "Wi-Fi")))
    as [[Hnat _] | (a & tool & res & _ & _ & Hin & Hd & Hne & Ht)];
    [vm_compute; reflexivity | discriminate Hnat |].
  exists a, tool, res. auto.
Defined.

(** X12.  The size of the disk in a request is never negative: it is
    NaN, Infinity or a natural number, since no text that begins with a
    minus sign passes the validation of the prompt. *)
Theorem request_size_not_negative (H : Host) (w : world H) (t : list event)
    (w' : world H) :
  (forall r, Extended.promptUser w = (t, Returned r, w') ->
             not_negative (Extended.hddSizeGB r))
  /\ (forall r, Base.promptUser w = (t, Returned r, w') ->
                not_negative (Base.hddSizeGB r))
  /\ (forall s, is_valid (validate (VStr s)) = true ->
                not_negative (parseInt (VStr s))).
Proof.
  split; [|split].
  - intros r Hp. exact (Extended_promptUser_size w _ _ _ Hp).
  - intros r Hp. exact (Base_promptUser_size w _ _ _ Hp).
  - exact accepted_text_not_negative.
Qed.

Lemma request_size_not_negative_witness :
  not_negative (Dec false 1 0) /\ not_negative (parseInt (VStr "0.5")).
Proof.
  pose (H := Scenario.host Scenario.one_gigabyte).
  pose (pe := @Extended.promptUser H []).
  destruct (request_size_not_negative H [] (fst (fst pe)) (snd pe))
    as (Hext & _ & Htext).
  split.
  - apply (Hext (Extended.mkRequest (VStr "TwinCAT_VM_20250724_134205")
                   "tcbsd.iso" (Dec false 1 0) (VStr "C:\VMs") "nat" VNull)).
    vm_compute. reflexivity.
  - apply Htext. vm_compute. reflexivity.
Defined.

(** X13.  Once the machines are listed, the run executes the command
    that creates the machine, with the name and the folder of the request,
    exactly when the listing does not hold the name between double quotes;
    the listing holds it when the quoted name occurs anywhere in it (both
    variants). *)
Theorem creation_iff_name_free (H : Host) (w : world H) (t : list event)
    (o : outcome unit) (w' : world H) (tool listing : string) :
  (forall t1 r w1,
      Extended.promptUser w = (t1, Returned r, w1) ->
      Extended.setupVM w = (t, o, w') ->
      In (Exec (ListVms tool) (inl listing)) t ->
      ((exists res,
           In (Exec (CreateVm tool (Extended.virtualMachineName r)
                       (Extended.vmFolder r)) res) t)
       <-> includes listing
             (quoted (ToString (Extended.virtualMachineName r))) = false))
  /\ (forall t1 r w1,
         Base.promptUser w = (t1, Returned r, w1) ->
         Base.setupVM w = (t, o, w') ->
         In (Exec (ListVms tool) (inl listing)) t ->
         ((exists res,
              In (Exec (CreateVm tool (Base.virtualMachineName r)
                          (Base.vmFolder r)) res) t)
          <-> includes listing
                (quoted (ToString (Base.virtualMachineName r))) = false))
  /\ (forall name,
         includes listing (quoted name) = true
         <-> exists before after,
               listing = before ++ dq ++ name ++ dq ++ after).
Proof.
  split; [|split].
  - intros t1 r w1 Hp Hs Hin.
    destruct (Extended_setupVM_split _ _ _ _ _ _ _ Hp Hs) as [t2 [Hpr ->]].
    destruct (Extended_promptUser_spec w _ _ _ Hp) as [Hprobes _].
    apply in_app_or in Hin. destruct Hin as [Hin|Hin].
    { apply (only_probes_In _ _ Hprobes) in Hin. discriminate Hin. }
    split.
    + intros [res Hc].
      destruct (includes listing _) eqn:Hincl; [|reflexivity].
      destruct (Extended_provision_collision r w1 _ _ _ Hpr _ _ Hin Hincl)
        as [Hnone _].
      apply in_app_or in Hc. destruct Hc as [Hc|Hc].
      * apply (only_probes_In _ _ Hprobes) in Hc. discriminate Hc.
      * apply In_provisioning in Hc; [|reflexivity].
        rewrite Hnone in Hc. destruct Hc.
    + intros Hincl.
      destruct (Extended_provision_proceeds r w1 _ _ _ Hpr _ _ Hin Hincl)
        as [res Hc].
      exists res. apply in_or_app. now right.
  - intros t1 r w1 Hp Hs Hin.
    destruct (Base_setupVM_split _ _ _ _ _ _ _ Hp Hs) as [t2 [Hpr ->]].
    destruct (Base_promptUser_spec w _ _ _ Hp) as [Hprobes _].
    apply in_app_or in Hin. destruct Hin as [Hin|Hin].
    { apply (only_probes_In _ _ Hprobes) in Hin. discriminate Hin. }
    split.
    + intros [res Hc].
      destruct (includes listing _) eqn:Hincl; [|reflexivity].
      destruct (Base_provision_collision r w1 _ _ _ Hpr _ _ Hin Hincl)
        as [Hnone _].
      apply in_app_or in Hc. destruct Hc as [Hc|Hc].
      * apply (only_probes_In _ _ Hprobes) in Hc. discriminate Hc.
      * apply In_provisioning in Hc; [|reflexivity].
        rewrite Hnone in Hc. destruct Hc.
    + intros Hincl.
      destruct (Base_provision_proceeds r w1 _ _ _ Hpr _ _ Hin Hincl)
        as [res Hc].
      exists res. apply in_or_app. now right.
  - intros name. rewrite includes_spec. unfold quoted.
    split; intros (before & after & ->); exists before, after;
      now rewrite ?append_assoc.
Qed.

Lemma creation_iff_name_free_witness :
  let H := Scenario.host Scenario.defaults in
  exists res,
    In (Exec (CreateVm (vboxManage_path H) (VStr "TwinCAT_VM_20250724_134205")
                (VStr "C:\VMs")) res)
       (fst (fst (@Extended.setupVM H []))).
Proof.
  intros H.
  pose (e := @Extended.setupVM H []).
  pose (pe := @Extended.promptUser H []).
  destruct (creation_iff_name_free H [] (fst (fst e)) (snd (fst e)) (snd e)
              (vboxManage_path H) EmptyString) as (Hext & _ & _).
  apply (Hext (fst (fst pe))
           (Extended.mkRequest (VStr "TwinCAT_VM_20250724_134205")
              "tcbsd.iso" (Dec false 10 0) (VStr "C:\VMs") "nat" VNull)
           (snd pe));
    [vm_compute; reflexivity | vm_compute; reflexivity
     | vm_compute; tauto | vm_compute; reflexivity].
Defined.

(** ** The names of the bridged interfaces *)

Lemma split_nonempty (sep : ascii) (s : string) :
  exists piece pieces, split sep s = piece :: pieces.
Proof.
  destruct s as [|c s]; cbn [split]; [eauto|].
  destruct (Ascii.eqb c sep); [eauto|].
  destruct (split sep s); eauto.
Qed.

Lemma split_whole (sep : ascii) (s : string) :
  without sep s = true -> split sep s = [s].
Proof.
  unfold without. induction s as [|c s IH]; [reflexivity|].
  cbn [all_chars split]. intros Hs. apply andb_prop in Hs.
  destruct Hs as [Hc Hs]. apply negb_true_iff in Hc. rewrite Hc, (IH Hs).
  reflexivity.
Qed.

Lemma split_append (sep : ascii) (a rest : string) :
  without sep a = true ->
  split sep (a ++ String sep rest) = a :: split sep rest.
Proof.
  unfold without. induction a as [|c a IH].
  - intros _. cbn [append split]. now rewrite Ascii.eqb_refl.
  - cbn [all_chars append split]. intros Hs. apply andb_prop in Hs.
    destruct Hs as [Hc Hs]. apply negb_true_iff in Hc. rewrite Hc, (IH Hs).
    reflexivity.
Qed.

(** The second piece of a line that starts with [Name:]. *)
Lemma second_piece (rest : string) :
  nth_error (split ":" ("Name:" ++ rest)) 1
  = Some (hd EmptyString (split ":" rest)).
Proof.
  change ("Name:" ++ rest) with ("Name" ++ String ":" rest).
  rewrite split_append; [|reflexivity].
  destruct (split_nonempty ":" rest) as (piece & pieces & ->). reflexivity.
Qed.

Lemma adapter_names_total (lines : list string) :
  (forall line, In line lines -> startsWith line "Name:" = true) ->
  exists names, Extended.adapter_names lines = Some names
                /\ length names = length lines.
Proof.
  induction lines as [|line lines IH]; intros Hall.
  - exists []. split; reflexivity.
  - destruct IH as (names & Hn & Hlen).
    { intros l Hl. apply Hall. now right. }
    pose proof (Hall line (or_introl eq_refl)) as Hs.
    unfold startsWith in Hs. apply prefix_spec in Hs. destruct Hs as [rest ->].
    cbn [Extended.adapter_names]. rewrite second_piece, Hn.
    eexists. split; [reflexivity|]. cbn [length]. now rewrite Hlen.
Qed.

Lemma name_lines_start (output line : string) :
  In line (Extended.name_lines output) -> startsWith line "Name:" = true.
Proof. unfold Extended.name_lines. intros Hin. now apply filter_In in Hin. Qed.

Lemma trim_end_append (a b : string) (c : ascii) :
  is_ws c = false ->
  trim_end (a ++ String c b) = a ++ String c (trim_end b).
Proof.
  intros Hc. induction a as [|d a IH].
  - cbn [append]. now apply trim_end_head.
  - cbn [append trim_end]. rewrite IH.
    destruct a; cbn [append is_empty]; now rewrite andb_false_r.
Qed.

Lemma trim_end_empty (s : string) :
  trim_end s = EmptyString -> all_chars is_ws s = true.
Proof.
  induction s as [|c s IH]; [reflexivity|]. cbn [trim_end all_chars].
  destruct (is_ws c) eqn:Hc; cbn [andb]; [|discriminate].
  destruct (trim_end s) eqn:Et; cbn [is_empty]; [|discriminate].
  intros _. now apply IH.
Qed.

Lemma drop_while_all (p : ascii -> bool) (s : string) :
  all_chars p s = true -> drop_while p s = EmptyString.
Proof.
  induction s as [|c s IH]; [reflexivity|]. cbn [all_chars drop_while].
  intros Hs. apply andb_prop in Hs. destruct Hs as [-> Hs]. now apply IH.
Qed.

Lemma trim_trim_end (s : string) : trim (trim_end s) = trim s.
Proof.
  unfold trim. induction s as [|c s IH]; [reflexivity|].
  cbn [trim_end]. destruct (is_ws c) eqn:Hc; cbn [andb].
  - destruct (trim_end s) eqn:Et; cbn [is_empty].
    + cbn [drop_while trim_end]. rewrite Hc.
      now rewrite (drop_while_all _ _ (trim_end_empty _ Et)).
    + cbn [drop_while]. rewrite Hc. exact IH.
  - cbn [drop_while]. rewrite Hc. rewrite !(trim_end_head _ _ Hc).
    now rewrite trim_end_idempotent.
Qed.

Lemma without_trim_end (sep : ascii) (s : string) :
  without sep s = true -> without sep (trim_end s) = true.
Proof.
  unfold without. induction s as [|c s IH]; [reflexivity|].
  cbn [all_chars trim_end]. intros Hs. apply andb_prop in Hs.
  destruct Hs as [Hc Hs].
  destruct (is_ws c && is_empty (trim_end s)); [reflexivity|].
  cbn [all_chars]. now rewrite Hc, (IH Hs).
Qed.

(** The name that either variant reads on a line [Name:x] or [Name:x:y]
    where [x] holds no colon: [x], trimmed. *)
Lemma adapter_line (x tail : string) :
  without ":" x = true ->
  tail = EmptyString \/ (exists y, tail = String ":" y) ->
  nth_error (split ":" ("Name:" ++ x ++ tail)) 1 = Some x
  /\ trim ("Name:" ++ x ++ tail) = "Name:" ++ trim_end (x ++ tail)
  /\ exists piece,
       nth_error (split ":" ("Name:" ++ trim_end (x ++ tail))) 1 = Some piece
       /\ trim piece = trim x.
Proof.
  intros Hx Htail. split; [|split].
  - rewrite second_piece. destruct Htail as [->|[y ->]].
    + rewrite append_empty_r, (split_whole _ _ Hx). reflexivity.
    + rewrite (split_append _ _ _ Hx). reflexivity.
  - unfold trim. cbn [append drop_while].
    change (is_ws "N") with false. cbv iota.
    rewrite !trim_end_head by reflexivity. reflexivity.
  - rewrite second_piece. destruct Htail as [->|[y ->]].
    + rewrite append_empty_r, (split_whole _ _ (without_trim_end _ _ Hx)).
      eexists. split; [reflexivity|]. apply trim_trim_end.
    + rewrite trim_end_append by reflexivity.
      rewrite (split_append _ _ _ Hx). eexists. split; reflexivity.
Qed.

(** X14.  Every line of a listing that starts with [Name:] has a second
    piece, so when the listing succeeds [listBridgedAdapters] never takes
    the path of its handler: it returns one name for each such line, the
    empty names left out. *)
Theorem adapter_lines_always_parse (H : Host) (vboxManage : string)
    (w w1 : world H) (output : string) :
  execSync H (render (ListBridgedIfs vboxManage)) w = (inl output, w1) ->
  exists names,
    Extended.adapter_names (Extended.name_lines output) = Some names
    /\ length names = length (Extended.name_lines output)
    /\ Extended.listBridgedAdapters vboxManage w
       = ([Exec (ListBridgedIfs vboxManage) (inl output)],
          Returned (filter (fun a => negb (is_empty a)) names), w1).
Proof.
  intros Hex.
  destruct (adapter_names_total (Extended.name_lines output)
              (name_lines_start output)) as (names & Hn & Hlen).
  exists names. split; [exact Hn|]. split; [exact Hlen|].
  unfold Extended.listBridgedAdapters, try_catch, bind, exec, ret.
  rewrite Hex, Hn. reflexivity.
Qed.

Lemma adapter_lines_always_parse_witness :
  let H := Scenario.host Cases.bridged in
  exists names,
    Extended.adapter_names (Extended.name_lines Cases.interfaces_listing)
    = Some names
    /\ length names
       = length (Extended.name_lines Cases.interfaces_listing)
    /\ @Extended.listBridgedAdapters H (vboxManage_path H) []
       = ([Exec (ListBridgedIfs (vboxManage_path H))
             (inl Cases.interfaces_listing)],
          Returned (filter (fun a => negb (is_empty a)) names),
          [render (ListBridgedIfs (vboxManage_path H))]).
Proof.
  intros H.
  apply (adapter_lines_always_parse H (vboxManage_path H) []).
  vm_compute. reflexivity.
Defined.

(** X15.  On a listing whose first line is [Name:] followed by a text
    without colon, and maybe by a colon and more text, both variants read
    the same name, that text trimmed: it is the adapter that the base
    variant takes, and unless it is empty it is the first name that the
    extended variant offers, before the names of the other lines.  What
    follows a second colon is not part of the name. *)
Theorem first_adapter_agrees (x tail more : string) :
  without ":" x = true ->
  without LF x = true ->
  without LF tail = true ->
  tail = EmptyString \/ (exists y, tail = String ":" y) ->
  let output := ("Name:" ++ x ++ tail) ++ String LF more in
  Base.firstAdapter_of output = VStr (trim x)
  /\ discovered (inl output)
     = ((if is_empty (trim x) then [] else [trim x])
        ++ discovered (inl more))%list.
Proof.
  intros Hx Hlx Hlt Htail output.
  destruct (adapter_line x tail Hx Htail)
    as (Hsecond & Htrim & piece & Hp & Ht).
  assert (Hline : without LF ("Name:" ++ x ++ tail) = true).
  { unfold without in *. rewrite !all_chars_append, Hlx, Hlt. reflexivity. }
  assert (Hsplit : split LF output = ("Name:" ++ x ++ tail) :: split LF more).
  { unfold output. now apply split_append. }
  split.
  - unfold Base.firstAdapter_of. rewrite Hsplit. cbn [hd].
    now rewrite Hsecond.
  - unfold discovered, Extended.name_lines. rewrite Hsplit.
    cbn [map filter]. rewrite Htrim.
    assert (Hstart : startsWith ("Name:" ++ trim_end (x ++ tail)) "Name:"
                     = true).
    { apply prefix_spec. eexists. reflexivity. }
    rewrite Hstart. cbn [Extended.adapter_names]. rewrite Hp.
    destruct (adapter_names_total (Extended.name_lines more)
                (name_lines_start more)) as (names & Hn & _).
    unfold Extended.name_lines in Hn. rewrite Hn. cbn [filter truthy].
    rewrite Ht. destruct (is_empty (trim x)); reflexivity.
Qed.

Lemma first_adapter_agrees_witness :
  let more := "GUID:            6d1f" ++ String LF
                ("Name:            Wi-Fi" ++ String LF "Status:          Up") in
  Base.firstAdapter_of Cases.interfaces_listing = VStr "Ethernet 2"
  /\ discovered (inl Cases.interfaces_listing)
     = ("Ethernet 2" :: discovered (inl more))%list.
Proof.
  intros more.
  apply (first_adapter_agrees "            Ethernet 2" EmptyString more);
    first [reflexivity | left; reflexivity].
Defined.

(** ** How a run ends *)

Section Statuses.
Context {H : Host}.

Lemma Extended_promptUser_exit (w : world H) :
  wp Extended.promptUser
    (fun _ o _ => match o with Exited c => c = 1%Z | _ => True end) w.
Proof.
  unfold Extended.promptUser.
  match goal with |- wp _ ?P _ => set (Q := P) end.
  wp_run.
  all: subst Q; cbv beta iota; try exact I; reflexivity.
Qed.

Lemma Base_promptUser_exit (w : world H) :
  wp Base.promptUser
    (fun _ o _ => match o with Exited c => c = 1%Z | _ => True end) w.
Proof.
  unfold Base.promptUser.
  match goal with |- wp _ ?P _ => set (Q := P) end.
  wp_run.
  all: subst Q; cbv beta iota; try exact I; reflexivity.
Qed.

Lemma Extended_provision_exit (r : Extended.request) (w : world H) :
  wp (Extended.provision r)
    (fun t o _ =>
       match o with
       | Returned _ =>
           is_success (last t (Log Info EmptyString)) = true
       | Exited c => c = 1%Z /\ steps t = []
       | Thrown _ => True
       end) w.
Proof.
  unfold Extended.provision.
  match goal with |- wp _ ?P _ => set (Q := P) end.
  wp_run.
  all: subst Q; cbv beta iota; try exact I.
  all: first [split; reflexivity | reflexivity].
Qed.

Lemma Base_provision_exit (r : Base.request) (w : world H) :
  wp (Base.provision r)
    (fun t o _ =>
       match o with
       | Returned _ =>
           is_success (last t (Log Info EmptyString)) = true
       | Exited c => c = 1%Z /\ steps t = []
       | Thrown _ => True
       end) w.
Proof.
  unfold Base.provision.
  match goal with |- wp _ ?P _ => set (Q := P) end.
  wp_run.
  all: subst Q; cbv beta iota; try exact I.
  all: first [split; reflexivity | reflexivity].
Qed.

End Statuses.

Section Endings.
Context {H : Host}.

Lemma run_script_cases {A} (m : M H A) (w : world H) (t : list event)
    (e : ending) (w' : world H) :
  run_script m w = (t, e, w') ->
  (exists a, m w = (t, Returned a, w') /\ e = Status 0)
  \/ (exists c, m w = (t, Exited c, w') /\ e = Status c)
  \/ (exists t0 err,
        m w = (t0, Thrown err, w')
        /\ (t = (t0 ++ [Log Failure "Exiting"])%list /\ e = Status 0
            \/ t = t0 /\ e = Fatal err
               /\ instance_of_Error err
                  && String.eqb (error_name err) "ExitPromptError" = false)).
Proof.
  unfold run_script. destruct (m w) as [[t0 o] w0]. destruct o as [a|c|err].
  - intros E. inversion E; subst. left. eauto.
  - intros E. inversion E; subst. right. left. eauto.
  - unfold on_uncaughtException.
    destruct (instance_of_Error err
              && String.eqb (error_name err) "ExitPromptError") eqn:Ec.
    + cbn. intros E. inversion E; subst. right. right.
      exists t0, err. split; [reflexivity|]. left. split; reflexivity.
    + cbn. intros E. inversion E; subst. right. right.
      exists t0, err. split; [reflexivity|]. right.
      split; [apply app_nil_r|]. split; [reflexivity|].
      first [exact Ec | reflexivity].
Qed.

Lemma success_is_last (t1 t2 : list event) :
  is_success (last t2 (Log Info EmptyString)) = true ->
  is_success (last (t1 ++ t2)%list (Log Info EmptyString)) = true.
Proof.
  intros Hs. rewrite last_app_nonempty; [exact Hs|].
  intros ->. discriminate Hs.
Qed.

Lemma Extended_setupVM_exit (w : world H) :
  wp Extended.setupVM
    (fun t o _ =>
       match o with
       | Returned _ => is_success (last t (Log Info EmptyString)) = true
       | Exited c => c = 1%Z /\ steps t = []
       | Thrown _ => True
       end) w.
Proof.
  intros t o w' Hs. unfold Extended.setupVM in Hs.
  apply bind_inversion in Hs.
  destruct Hs as [(r & t1 & w1 & t2 & Hp & Hpr & ->)
                 | [(c0 & Hp & ->) | (e' & Hp & ->)]].
  - destruct (Extended_promptUser_spec w _ _ _ Hp) as [Hprobes _].
    pose proof (Extended_provision_exit r w1 _ _ _ Hpr) as He.
    destruct o as [a|c|err]; [|destruct He as [-> Hst] |exact I].
    + now apply success_is_last.
    + split; [reflexivity|].
      now rewrite steps_app, (only_probes_steps _ Hprobes), Hst.
  - destruct (Extended_promptUser_spec w _ _ _ Hp) as [Hprobes _].
    pose proof (Extended_promptUser_exit w _ _ _ Hp) as He.
    cbv beta iota in He. split; [exact He|].
    now apply only_probes_steps.
  - exact I.
Qed.

Lemma Base_setupVM_exit (w : world H) :
  wp Base.setupVM
    (fun t o _ =>
       match o with
       | Returned _ => is_success (last t (Log Info EmptyString)) = true
       | Exited c => c = 1%Z /\ steps t = []
       | Thrown _ => True
       end) w.
Proof.
  intros t o w' Hs. unfold Base.setupVM in Hs.
  apply bind_inversion in Hs.
  destruct Hs as [(r & t1 & w1 & t2 & Hp & Hpr & ->)
                 | [(c0 & Hp & ->) | (e' & Hp & ->)]].
  - destruct (Base_promptUser_spec w _ _ _ Hp) as [Hprobes _].
    pose proof (Base_provision_exit r w1 _ _ _ Hpr) as He.
    destruct o as [a|c|err]; [|destruct He as [-> Hst] |exact I].
    + now apply success_is_last.
    + split; [reflexivity|].
      now rewrite steps_app, (only_probes_steps _ Hprobes), Hst.
  - destruct (Base_promptUser_spec w _ _ _ Hp) as [Hprobes _].
    pose proof (Base_promptUser_exit w _ _ _ Hp) as He.
    cbv beta iota in He. split; [exact He|].
    now apply only_probes_steps.
  - exact I.
Qed.

Lemma exit_status_of (m : M H unit) (w : world H) (t : list event)
    (e : ending) (w' : world H) :
  wp m
    (fun t o _ =>
       match o with
       | Returned _ => is_success (last t (Log Info EmptyString)) = true
       | Exited c => c = 1%Z /\ steps t = []
       | Thrown _ => True
       end) w ->
  run_script m w = (t, e, w') ->
  (e = Status 0
   /\ (is_success (last t (Log Info EmptyString)) = true
       \/ last t (Log Info EmptyString) = Log Failure "Exiting"))
  \/ (e = Status 1 /\ steps t = [])
  \/ (exists err,
        e = Fatal err
        /\ instance_of_Error err
           && String.eqb (error_name err) "ExitPromptError" = false).
Proof.
  intros Hwp Hrun. apply run_script_cases in Hrun.
  destruct Hrun as [(a & Hm & ->) | [(c & Hm & ->)
                   | (t0 & err & Hm & [[-> ->] | (-> & -> & Hc)])]].
  - left. split; [reflexivity|]. left. exact (Hwp _ _ _ Hm).
  - destruct (Hwp _ _ _ Hm) as [-> Hst]. right. left. now split.
  - left. split; [reflexivity|]. right.
    now rewrite last_app_nonempty.
  - right. right. exists err. now split.
Qed.

End Endings.

(** X16.  How a run ends, in both variants.  With status 0, and then its
    last event is a message of success or the message [Exiting] of the
    listener; or with status 1, and then it has executed no provisioning
    command; or on an error that the listener has thrown again. *)
Theorem exit_status_meaning (H : Host) (w : world H) (t : list event)
    (e : ending) (w' : world H) :
  Extended.main w = (t, e, w') \/ Base.main w = (t, e, w') ->
  (e = Status 0
   /\ (is_success (last t (Log Info EmptyString)) = true
       \/ last t (Log Info EmptyString) = Log Failure "Exiting"))
  \/ (e = Status 1 /\ steps t = [])
  \/ (exists err,
        e = Fatal err
        /\ instance_of_Error err
           && String.eqb (error_name err) "ExitPromptError" = false).
Proof.
  intros [Hm|Hm].
  - exact (exit_status_of _ w t e w' (Extended_setupVM_exit w) Hm).
  - exact (exit_status_of _ w t e w' (Base_setupVM_exit w) Hm).
Qed.

Lemma exit_status_meaning_witness :
  let H := Scenario.host Scenario.defaults in
  let run := @Extended.main H [] in
  (snd (fst run) = Status 0
   /\ (is_success (last (fst (fst run)) (Log Info EmptyString)) = true
       \/ last (fst (fst run)) (Log Info EmptyString) = Log Failure "Exiting"))
  \/ (snd (fst run) = Status 1 /\ steps (fst (fst run)) = [])
  \/ (exists err,
        snd (fst run) = Fatal err
        /\ instance_of_Error err
           && String.eqb (error_name err) "ExitPromptError" = false).
Proof.
  intros H run.
  apply (exit_status_meaning H [] (fst (fst run)) (snd (fst run)) (snd run)).
  left. vm_compute. reflexivity.
Defined.

(** X17.  A run is a first part that issues no provisioning command,
    followed by a second part made of messages and commands only: once
    provisioning has started the operator is never asked again (both
    variants). *)
Theorem prompts_precede_commands (H : Host) (w : world H) (t : list event)
    (o : outcome unit) (w' : world H) :
  Extended.setupVM w = (t, o, w') \/ Base.setupVM w = (t, o, w') ->
  exists t1 t2,
    t = (t1 ++ t2)%list
    /\ provisioning t1 = []
    /\ forall e, In e t2 ->
         match e with Log _ _ | Exec _ _ => True | _ => False end.
Proof.
  intros [Hs|Hs].
  - unfold Extended.setupVM in Hs. apply bind_inversion in Hs.
    destruct Hs as [(r & t1 & w1 & t2 & Hp & Hpr & ->)
                   | [(c0 & Hp & ->) | (e' & Hp & ->)]].
    + destruct (Extended_promptUser_spec w _ _ _ Hp) as [Hprobes _].
      exists t1, t2. split; [reflexivity|].
      split; [now apply only_probes_provisioning|].
      exact (Extended_provision_no_prompt r w1 _ _ _ Hpr).
    + destruct (Extended_promptUser_spec w _ _ _ Hp) as [Hprobes _].
      exists t, []. rewrite app_nil_r. split; [reflexivity|].
      split; [now apply only_probes_provisioning | intros e []].
    + destruct (Extended_promptUser_spec w _ _ _ Hp) as [Hprobes _].
      exists t, []. rewrite app_nil_r. split; [reflexivity|].
      split; [now apply only_probes_provisioning | intros e []].
  - unfold Base.setupVM in Hs. apply bind_inversion in Hs.
    destruct Hs as [(r & t1 & w1 & t2 & Hp & Hpr & ->)
                   | [(c0 & Hp & ->) | (e' & Hp & ->)]].
    + destruct (Base_promptUser_spec w _ _ _ Hp) as [Hprobes _].
      exists t1, t2. split; [reflexivity|].
      split; [now apply only_probes_provisioning|].
      exact (Base_provision_no_prompt r w1 _ _ _ Hpr).
    + destruct (Base_promptUser_spec w _ _ _ Hp) as [Hprobes _].
      exists t, []. rewrite app_nil_r. split; [reflexivity|].
      split; [now apply only_probes_provisioning | intros e []].
    + destruct (Base_promptUser_spec w _ _ _ Hp) as [Hprobes _].
      exists t, []. rewrite app_nil_r. split; [reflexivity|].
      split; [now apply only_probes_provisioning | intros e []].
Qed.

Lemma prompts_precede_commands_witness :
  let H := Scenario.host Scenario.defaults in
  let t := fst (fst (@Base.setupVM H [])) in
  exists t1 t2,
    t = (t1 ++ t2)%list
    /\ provisioning t1 = []
    /\ forall e, In e t2 ->
         match e with Log _ _ | Exec _ _ => True | _ => False end.
Proof.
  intros H t.
  pose (b := @Base.setupVM H []).
  apply (prompts_precede_commands H [] (fst (fst b)) (snd (fst b)) (snd b)).
  right. vm_compute. reflexivity.
Defined.

(** ** A request without folder *)

Section NullFolder.
Context {H : Host}.

Lemma Extended_provision_null_folder (r : Extended.request) (w : world H) :
  Extended.vmFolder r = VNull ->
  (Extended.networkType r = "bridged" ->
   truthy (Extended.bridgedAdapter r) = true) ->
  wp (Extended.provision r)
    (fun t o _ =>
       (forall c e, ~ In (Exec c (inr e)) t) ->
       o = Exited 1 /\ steps t = []
       \/ o = Thrown TypeError
          /\ steps t = [CreateStep; HardwareStep; NetworkStep]
          /\ exists tool res,
               In (Exec (CreateVm tool (Extended.virtualMachineName r) VNull)
                     res) t) w.
Proof.
  destruct r as [name img size folder nt ad].
  cbn [Extended.vmFolder Extended.networkType Extended.bridgedAdapter
       Extended.virtualMachineName].
  intros -> Hwf.
  unfold Extended.provision;
    cbn [Extended.networkType Extended.bridgedAdapter Extended.vmFolder
         Extended.virtualMachineName Extended.hddSizeGB Extended.imgSelection].
  match goal with |- wp _ ?P _ => set (Q := P) end.
  wp_run.
  all: subst Q; cbv beta; intros Hok.
  all: try (left; split; reflexivity).
  all: try (exfalso; eapply Hok; cbn [In app];
            solve [repeat first [left; reflexivity | right]]).
  all: try match goal with
       | E1 : String.eqb _ "bridged" = true |- _ =>
           apply String.eqb_eq in E1; discriminate (Hwf E1)
       end.
  all: try match goal with
       | E : strings_of (VNull :: _) = Some _ |- _ => discriminate E
       end.
  all: right; split; [reflexivity|]; split; [reflexivity|].
  all: do 2 eexists; cbn [In app];
    solve [repeat first [left; reflexivity | right]].
Qed.

Lemma Base_provision_null_folder (r : Base.request) (w : world H) :
  Base.vmFolder r = VNull ->
  wp (Base.provision r)
    (fun t o _ =>
       (forall c e, ~ In (Exec c (inr e)) t) ->
       o = Exited 1 /\ steps t = []
       \/ o = Thrown TypeError
          /\ (steps t = [CreateStep; HardwareStep; NetworkStep]
              \/ steps t = [CreateStep; HardwareStep])
          /\ exists tool res,
               In (Exec (CreateVm tool (Base.virtualMachineName r) VNull)
                     res) t) w.
Proof.
  destruct r as [name img size folder].
  cbn [Base.vmFolder Base.virtualMachineName].
  intros ->.
  unfold Base.provision;
    cbn [Base.vmFolder Base.virtualMachineName Base.hddSizeGB
         Base.isoSelection].
  match goal with |- wp _ ?P _ => set (Q := P) end.
  wp_run.
  all: subst Q; cbv beta; intros Hok.
  all: try (left; split; reflexivity).
  all: try (exfalso; eapply Hok; cbn [In app];
            solve [repeat first [left; reflexivity | right]]).
  all: try match goal with
       | E : strings_of (VNull :: _) = Some _ |- _ => discriminate E
       end.
  all: right; split; [reflexivity|];
    split; [first [left; reflexivity | right; reflexivity]|].
  all: do 2 eexists; cbn [In app];
    solve [repeat first [left; reflexivity | right]].
Qed.

End NullFolder.

Section Origin.
Context {H : Host}.

Lemma Extended_promptUser_null_folder (w : world H) :
  wp Extended.promptUser
    (fun t o _ =>
       match o with
       | Returned r =>
           Extended.vmFolder r = VNull ->
           exists output,
             In (Exec ListSystemProperties (inl output)) t
             /\ match_folder output = None
       | _ => True
       end) w.
Proof.
  unfold Extended.promptUser, getDefaultVMFolder.
  match goal with |- wp _ ?P _ => set (Q := P) end.
  wp_run_lines.
  all: subst Q; cbv beta iota; try exact I.
  all: cbn [Extended.vmFolder]; unfold js_or; intros Hnull.
  all: match type of Hnull with
       | (if ?b then _ else _) = _ => destruct b; try discriminate Hnull
       end.
  all: match type of Hnull with
       | match match_folder ?out with _ => _ end = _ =>
           destruct (match_folder out) eqn:Em; [discriminate Hnull|];
           exists out; split; [|exact Em]
       end.
  all: cbn [In app]; solve [repeat first [left; reflexivity | right]].
Qed.

Lemma Base_promptUser_null_folder (w : world H) :
  wp Base.promptUser
    (fun t o _ =>
       match o with
       | Returned r =>
           Base.vmFolder r = VNull ->
           exists output,
             In (Exec ListSystemProperties (inl output)) t
             /\ match_folder output = None
       | _ => True
       end) w.
Proof.
  unfold Base.promptUser, getDefaultVMFolder.
  match goal with |- wp _ ?P _ => set (Q := P) end.
  wp_run_lines.
  all: subst Q; cbv beta iota; try exact I.
  all: cbn [Base.vmFolder]; unfold js_or; intros Hnull.
  all: match type of Hnull with
       | (if ?b then _ else _) = _ => destruct b; try discriminate Hnull
       end.
  all: match type of Hnull with
       | match match_folder ?out with _ => _ end = _ =>
           destruct (match_folder out) eqn:Em; [discriminate Hnull|];
           exists out; split; [|exact Em]
       end.
  all: cbn [In app]; solve [repeat first [left; reflexivity | right]].
Qed.

End Origin.

(** X18.  A request has no folder ([null]) only when the listing of
    system properties has succeeded and the regular expression of the
    folder finds nothing in it.  Such a run, when no command fails, either
    exits with status 1 before any provisioning command, or creates the
    machine with [null] for its folder, configures it, and then ends on
    the [TypeError] of the first [path.join]: no disk is converted,
    created or attached, and the machine is not started. *)
Theorem null_folder_stops_after_creation (H : Host) (w : world H)
    (t : list event) (o : outcome unit) (w' : world H) :
  (forall c e, ~ In (Exec c (inr e)) t) ->
  (forall t1 r w1,
      Extended.promptUser w = (t1, Returned r, w1) ->
      Extended.vmFolder r = VNull ->
      Extended.setupVM w = (t, o, w') ->
      (exists output,
          In (Exec ListSystemProperties (inl output)) t
          /\ match_folder output = None)
      /\ (Extended.main w = (t, Status 1, w') /\ steps t = []
          \/ Extended.main w = (t, Fatal TypeError, w')
             /\ steps t = [CreateStep; HardwareStep; NetworkStep]
             /\ exists tool res,
                  In (Exec (CreateVm tool (Extended.virtualMachineName r)
                              VNull) res) t))
  /\ (forall t1 r w1,
         Base.promptUser w = (t1, Returned r, w1) ->
         Base.vmFolder r = VNull ->
         Base.setupVM w = (t, o, w') ->
         (exists output,
             In (Exec ListSystemProperties (inl output)) t
             /\ match_folder output = None)
         /\ (Base.main w = (t, Status 1, w') /\ steps t = []
             \/ Base.main w = (t, Fatal TypeError, w')
                /\ (steps t = [CreateStep; HardwareStep; NetworkStep]
                    \/ steps t = [CreateStep; HardwareStep])
                /\ exists tool res,
                     In (Exec (CreateVm tool (Base.virtualMachineName r)
                                 VNull) res) t)).
Proof.
  intros Hok. split; intros t1 r w1 Hp Hnull Hs.
  - destruct (Extended_setupVM_split _ _ _ _ _ _ _ Hp Hs) as [t2 [Hpr ->]].
    destruct (Extended_promptUser_spec w _ _ _ Hp) as [Hprobes Hr].
    cbv beta iota in Hr. destruct Hr as (_ & Hnet & _).
    pose proof (Extended_promptUser_null_folder w _ _ _ Hp) as Ho.
    cbv beta iota in Ho. destruct (Ho Hnull) as (output & Hin & Hm).
    split.
    { exists output. split; [apply in_or_app; now left | exact Hm]. }
    assert (Hwf : Extended.networkType r = "bridged" ->
                  truthy (Extended.bridgedAdapter r) = true).
    { intros Hb. destruct Hnet as [[Hnat _]|[_ Had]]; [congruence|exact Had]. }
    destruct (Extended_provision_null_folder r w1 Hnull Hwf _ _ _ Hpr)
      as [[-> Hst] | (-> & Hst & tool & res & Hc)].
    { intros c e Hin2. apply (Hok c e). apply in_or_app. now right. }
    + left. split.
      * unfold Extended.main, run_script. now rewrite Hs.
      * now rewrite steps_app, (only_probes_steps _ Hprobes), Hst.
    + right. split; [|split].
      * unfold Extended.main, run_script. rewrite Hs. cbn.
        now rewrite app_nil_r.
      * now rewrite steps_app, (only_probes_steps _ Hprobes), Hst.
      * exists tool, res. apply in_or_app. now right.
  - destruct (Base_setupVM_split _ _ _ _ _ _ _ Hp Hs) as [t2 [Hpr ->]].
    destruct (Base_promptUser_spec w _ _ _ Hp) as [Hprobes _].
    pose proof (Base_promptUser_null_folder w _ _ _ Hp) as Ho.
    cbv beta iota in Ho. destruct (Ho Hnull) as (output & Hin & Hm).
    split.
    { exists output. split; [apply in_or_app; now left | exact Hm]. }
    destruct (Base_provision_null_folder r w1 Hnull _ _ _ Hpr)
      as [[-> Hst] | (-> & Hst & tool & res & Hc)].
    { intros c e Hin2. apply (Hok c e). apply in_or_app. now right. }
    + left. split.
      * unfold Base.main, run_script. now rewrite Hs.
      * now rewrite steps_app, (only_probes_steps _ Hprobes), Hst.
    + right. split; [|split].
      * unfold Base.main, run_script. rewrite Hs. cbn.
        now rewrite app_nil_r.
      * rewrite steps_app, (only_probes_steps _ Hprobes). exact Hst.
      * exists tool, res. apply in_or_app. now right.
Qed.

Lemma null_folder_stops_after_creation_witness :
  let H := Scenario.host Scenario.no_folder_line in
  snd (fst (@Extended.main H [])) = Fatal TypeError
  /\ snd (fst (@Base.main H [])) = Fatal TypeError.
Proof.
  intros H.
  pose (e := @Extended.setupVM H []).
  pose (b := @Base.setupVM H []).
  pose (pe := @Extended.promptUser H []).
  pose (pb := @Base.promptUser H []).
  destruct (null_folder_stops_after_creation H [] (fst (fst e))
              (snd (fst e)) (snd e)) as [Hext _].
  { vm_compute. intros c err Hin.
    repeat (destruct Hin as [Hin|Hin]; [discriminate Hin|]). exact Hin. }
  destruct (null_folder_stops_after_creation H [] (fst (fst b))
              (snd (fst b)) (snd b)) as [_ Hbase].
  { vm_compute. intros c err Hin.
    repeat (destruct Hin as [Hin|Hin]; [discriminate Hin|]). exact Hin. }
  destruct (Hext (fst (fst pe))
              (Extended.mkRequest (VStr "TwinCAT_VM_20250724_134205")
                 "tcbsd.iso" (Dec false 10 0) VNull "nat" VNull) (snd pe))
    as [_ [[Hm _]|[Hm _]]];
    [vm_compute; reflexivity | reflexivity | vm_compute; reflexivity
     | vm_compute in Hm; discriminate Hm |].
  destruct (Hbase (fst (fst pb))
              (Base.mkRequest (VStr "TwinCAT_BSD_20250724_134205")
                 "tcbsd.iso" (Dec false 10 0) VNull) (snd pb))
    as [_ [[Hm' _]|[Hm' _]]];
    [vm_compute; reflexivity | reflexivity | vm_compute; reflexivity
     | vm_compute in Hm'; discriminate Hm' |].
  rewrite Hm, Hm'. split; reflexivity.
Defined.
